(** * fhir-pipeline: the harmonization engine

    A shallow embedding of the TypeScript sources under
    [src/harmonization] (csv-parser.ts, hl7v2-parser.ts, fhir-mapper.ts,
    index.ts, types.ts) and the properties of the written specification
    that are settled against them.

    Strings are sequences of characters ([string]); every string
    operation the sources use is defined character by character.  Case
    conversion and white space are those of the ASCII range.  What the
    program takes from its environment is an argument of the model: the
    clock readings of a parse ([JS.Date]), the values of the identity
    generator ([uuidv4]) and csv-parse's record parser ([parse]). *)

From Stdlib Require Import ZArith NArith Ascii String List Lia.
From Stdlib Require Import DecimalString DecimalN DecimalNat.
From stdpp Require Import base option list strings gmap.

(* ================================================================== *)
(** * Runtime primitives of the source language *)
(* ================================================================== *)

Module JS.

(** ** Characters *)

Definition code (c : ascii) : nat := nat_of_ascii c.

Definition between (lo hi : nat) (c : ascii) : bool :=
  Nat.leb lo (code c) && Nat.leb (code c) hi.

Definition is_upper (c : ascii) : bool := between 65 90 c.
Definition is_lower (c : ascii) : bool := between 97 122 c.
Definition is_digit (c : ascii) : bool := between 48 57 c.

(** TAB, LF, VT, FF, CR and SP: what [trim] strips and what the
    numeric grammar calls StrWhiteSpace. *)
Definition is_white (c : ascii) : bool := between 9 13 c || Nat.eqb (code c) 32.

Definition char_upper (c : ascii) : ascii :=
  if is_lower c then ascii_of_nat (code c - 32) else c.

Definition char_lower (c : ascii) : ascii :=
  if is_upper c then ascii_of_nat (code c + 32) else c.

(** ** Strings *)

Fixpoint map_chars (f : ascii -> ascii) (s : string) : string :=
  match s with
  | EmptyString => EmptyString
  | String c s' => String (f c) (map_chars f s')
  end.

Definition toUpperCase : string -> string := map_chars char_upper.
Definition toLowerCase : string -> string := map_chars char_lower.

Fixpoint trimStart (s : string) : string :=
  match s with
  | EmptyString => EmptyString
  | String c s' => if is_white c then trimStart s' else s
  end.

Fixpoint trimEnd (s : string) : string :=
  match s with
  | EmptyString => EmptyString
  | String c s' =>
      match trimEnd s' with
      | EmptyString => if is_white c then EmptyString else String c EmptyString
      | t => String c t
      end
  end.

Definition trim (s : string) : string := trimEnd (trimStart s).

Definition startsWith (s p : string) : bool := String.prefix p s.

(** [s.split(sep)] for a one-character separator: never the empty
    list, the empty string gives one empty piece. *)
Fixpoint split (sep : ascii) (s : string) : list string :=
  match s with
  | EmptyString => [EmptyString]
  | String c s' =>
      if Ascii.eqb c sep then EmptyString :: split sep s'
      else match split sep s' with
           | [] => [String c EmptyString]
           | piece :: rest => String c piece :: rest
           end
  end.

Definition join (sep : string) (l : list string) : string := String.concat sep l.

(** [s.substring(a, b)] for [a <= b]. *)
Definition substring (a b : nat) (s : string) : string := String.substring a (b - a) s.

(** ** Truthiness of an optional string

    [x || d] where [x] is a string or [undefined]: both [undefined]
    and the empty string are falsy. *)
Definition truthy (o : option string) : option string :=
  match o with
  | Some EmptyString => None
  | _ => o
  end.

Definition or_else (o : option string) (d : string) : string :=
  match truthy o with
  | Some s => s
  | None => d
  end.

(** Array indexing, [a[i]]: [undefined] out of range. *)
Definition at_index {A : Type} (a : list A) (i : nat) : option A := a !! i.


(** ** Numbers

    [Number(s)] follows the StringNumericLiteral grammar of the
    language: optional white space around either nothing (the value
    0), a radix-prefixed integer, or an optionally signed decimal
    literal or [Infinity].  Anything else is [NaN].  A finite value is
    kept as the exact decimal [(-1)^neg * m * 10^e] with [m] free of
    trailing zeros; rounding to binary64 is outside the model. *)

Inductive number :=
| NaN
| Inf (neg : bool)
| Fin (neg : bool) (m : N) (e : Z).

Definition isNaN (n : number) : bool :=
  match n with NaN => true | _ => false end.

Fixpoint span_digits (s : string) : string * string :=
  match s with
  | EmptyString => (EmptyString, EmptyString)
  | String c s' =>
      if is_digit c then let '(d, r) := span_digits s' in (String c d, r)
      else (EmptyString, s)
  end.

Definition digit_value (radix : N) (c : ascii) : option N :=
  let v := if is_digit c then Some (N.of_nat (code c - 48))
           else if between 97 102 c then Some (N.of_nat (code c - 87))
           else if between 65 70 c then Some (N.of_nat (code c - 55))
           else None in
  match v with
  | Some d => if N.ltb d radix then Some d else None
  | None => None
  end.

Fixpoint digits_value (radix : N) (acc : N) (s : string) : option N :=
  match s with
  | EmptyString => Some acc
  | String c s' =>
      match digit_value radix c with
      | Some d => digits_value radix (acc * radix + d)%N s'
      | None => None
      end
  end.

Definition nonempty (s : string) : bool :=
  match s with EmptyString => false | _ => true end.

Definition all_digits_value (radix : N) (s : string) : option N :=
  if nonempty s then digits_value radix 0%N s else None.

(** 0x / 0o / 0b literals (no sign allowed). *)
Definition non_decimal (s : string) : option N :=
  match s with
  | String "0" (String r ds) =>
      if Ascii.eqb r "x" || Ascii.eqb r "X" then all_digits_value 16 ds
      else if Ascii.eqb r "o" || Ascii.eqb r "O" then all_digits_value 8 ds
      else if Ascii.eqb r "b" || Ascii.eqb r "B" then all_digits_value 2 ds
      else None
  | _ => None
  end.

Definition split_sign (s : string) : bool * string :=
  match s with
  | String "+" s' => (false, s')
  | String "-" s' => (true, s')
  | _ => (false, s)
  end.

(** ExponentPart, or nothing, up to the end of the string. *)
Definition parse_exponent (s : string) : option Z :=
  match s with
  | EmptyString => Some 0%Z
  | String c s' =>
      if Ascii.eqb c "e" || Ascii.eqb c "E" then
        let '(neg, ds) := split_sign s' in
        match all_digits_value 10 ds with
        | Some v => Some (if neg then (- Z.of_N v)%Z else Z.of_N v)
        | None => None
        end
      else None
  end.

Definition mantissa (ds : string) : N :=
  match digits_value 10 0%N ds with Some v => v | None => 0%N end.

(** StrUnsignedDecimalLiteral other than [Infinity]. *)
Definition parse_decimal (s : string) : option (N * Z) :=
  let '(d1, r1) := span_digits s in
  match r1 with
  | String "." r2 =>
      let '(d2, r3) := span_digits r2 in
      if nonempty d1 || nonempty d2 then
        match parse_exponent r3 with
        | Some ex => Some (mantissa (d1 +:+ d2), (ex - Z.of_nat (String.length d2))%Z)
        | None => None
        end
      else None
  | _ =>
      if nonempty d1 then
        match parse_exponent r1 with
        | Some ex => Some (mantissa d1, ex)
        | None => None
        end
      else None
  end.

Fixpoint strip_zeros (fuel : nat) (m : N) (e : Z) : N * Z :=
  match fuel with
  | O => (m, e)
  | S fuel' =>
      if N.eqb m 0 then (0%N, 0%Z)
      else if N.eqb (m mod 10) 0 then strip_zeros fuel' (m / 10)%N (e + 1)%Z
      else (m, e)
  end.

Definition finite (neg : bool) (m : N) (e : Z) : number :=
  let '(m', e') := strip_zeros (S (N.to_nat (N.size m))) m e in Fin neg m' e'.

Definition Number (s : string) : number :=
  let t := trim s in
  if negb (nonempty t) then Fin false 0 0
  else match non_decimal t with
       | Some n => finite false n 0
       | None =>
           let '(neg, u) := split_sign t in
           if String.eqb u "Infinity" then Inf neg
           else match parse_decimal u with
                | Some (m, e) => finite neg m e
                | None => NaN
                end
       end.

(** Decimal digits of a natural number, as in a template literal. *)
Definition decimal (n : N) : string := NilEmpty.string_of_uint (N.to_uint n).

Fixpoint zeros (k : nat) : string :=
  match k with O => EmptyString | S k' => String "0" (zeros k') end.

(** [String(n)], Number::toString in radix 10. *)
Definition numberToString (x : number) : string :=
  match x with
  | NaN => "NaN"
  | Inf neg => if neg then "-Infinity" else "Infinity"
  | Fin neg m e =>
      if N.eqb m 0 then "0"
      else
        let ds := decimal m in
        let k := String.length ds in
        let n := (Z.of_nat k + e)%Z in
        let body :=
          if (Z.leb (Z.of_nat k) n && Z.leb n 21)%bool then
            ds +:+ zeros (Z.to_nat n - k)
          else if (Z.ltb 0 n && Z.leb n 21)%bool then
            String.substring 0 (Z.to_nat n) ds +:+ "." +:+
            String.substring (Z.to_nat n) (k - Z.to_nat n) ds
          else if (Z.ltb (-6) n && Z.leb n 0)%bool then
            "0." +:+ zeros (Z.to_nat (- n)) +:+ ds
          else
            let ex := (n - 1)%Z in
            let mant := if Nat.eqb k 1 then ds
                        else String.substring 0 1 ds +:+ "." +:+ String.substring 1 (k - 1) ds in
            mant +:+ "e" +:+ (if Z.ltb ex 0 then "-" else "+") +:+ decimal (Z.to_N (Z.abs ex)) in
        if neg then "-" +:+ body else body
  end.

(** ** The clock

    A reading of the system clock: [Date.now()] in milliseconds and
    the [toISOString()] rendering of [new Date()]. *)
Record Date := { now : N; toISOString : string }.

(** ** uuid.v4

    The generator is outside the program; a generated value is its
    128 random bits, rendered in the 8-4-4-4-12 hexadecimal layout
    with the version and variant digits forced. *)
Definition hex_digit (n : N) : ascii :=
  let d := N.to_nat (n mod 16) in
  if Nat.ltb d 10 then ascii_of_nat (48 + d) else ascii_of_nat (87 + d).

Fixpoint hex_run (u : N) (pos len : nat) : string :=
  match len with
  | O => EmptyString
  | S len' => String (hex_digit (N.shiftr u (N.of_nat (4 * (31 - pos))))) (hex_run u (S pos) len')
  end.

Definition uuid_string (u : N) : string :=
  hex_run u 0 8 +:+ "-" +:+ hex_run u 8 4 +:+ "-" +:+
  String "4" (hex_run u 13 3) +:+ "-" +:+
  String (hex_digit (8 + (N.shiftr u 60) mod 4)) (hex_run u 17 3) +:+ "-" +:+
  hex_run u 20 12.

End JS.

(* ================================================================== *)
(** * types.ts *)
(* ================================================================== *)

Module Types.

Inductive Gender := male | female | other | unknown.

Record PatientData := {
patientId : string;
firstName : string;
lastName : string;
birthDate : string;
gender : Gender;
addressLine : option string;
city : option string;
state : option string;
postalCode : option string;
phone : option string;
email : option string
}.

(** [observationValue: number | string] *)
Inductive ObservationValue :=
| NumberValue (n : JS.number)
| StringValue (s : string).

(** The owning patient's identifier is the field [patientId] of the
  source; it is named apart from the patient record's own. *)
Record ObservationData := {
observationPatientId : string;
observationType : string;
observationValue : ObservationValue;
observationUnit : string;
observationDate : string
}.

Record ParsedData := {
patients : list PatientData;
observations : list ObservationData
}.

(** [LOINC_CODES], own properties only. *)
Definition LOINC_CODES : list (string * (string * string)) :=
[ ("blood_pressure_systolic", ("8480-6", "Systolic blood pressure"));
  ("blood_pressure_diastolic", ("8462-4", "Diastolic blood pressure"));
  ("heart_rate", ("8867-4", "Heart rate"));
  ("body_temperature", ("8310-5", "Body temperature"));
  ("blood_glucose", ("2339-0", "Glucose [Mass/volume] in Blood"));
  ("body_weight", ("29463-7", "Body weight"));
  ("oxygen_saturation", ("2708-6", "Oxygen saturation in Arterial blood")) ].

(** Property lookup in a literal table, [table[key]], for the table's own
    keys; the names that every object inherits ([constructor],
    [toString], ...) are not keys of the model. *)
Fixpoint table_get {V : Type} (table : list (string * V)) (key : string) : option V :=
match table with
| [] => None
| (k, v) :: rest => if String.eqb k key then Some v else table_get rest key
end.

(** The property names that an object literal inherits from
    [Object.prototype].  For these keys [table[key]] is a function (for
    [__proto__] the prototype object), which is truthy and is not a
    string, so [table_get] speaks for the source only off this list. *)
Definition prototypeKeys : list string :=
[ "constructor"; "hasOwnProperty"; "isPrototypeOf"; "propertyIsEnumerable";
  "toLocaleString"; "toString"; "valueOf"; "__proto__";
  "__defineGetter__"; "__defineSetter__"; "__lookupGetter__"; "__lookupSetter__" ].

Definition inherited (key : string) : bool := existsb (String.eqb key) prototypeKeys.

End Types.

Import Types.

(* ================================================================== *)
(** * The insertion-ordered Map keyed by patient identifier *)
(* ================================================================== *)

Module OrderedMap.

Definition t (V : Type) := list (string * V).

Definition empty {V} : t V := [].

Fixpoint has {V} (m : t V) (k : string) : bool :=
  match m with
  | [] => false
  | (k', _) :: rest => String.eqb k' k || has rest k
  end.

(** [set] keeps the position of a key that is already there. *)
Fixpoint set {V} (m : t V) (k : string) (v : V) : t V :=
  match m with
  | [] => [(k, v)]
  | (k', v') :: rest => if String.eqb k' k then (k', v) :: rest else (k', v') :: set rest k v
  end.

(** [Array.from(m.values())] *)
Definition values {V} (m : t V) : list V := map snd m.

Definition keys {V} (m : t V) : list string := map fst m.

End OrderedMap.

Record ParserState := {
  patientsMap : OrderedMap.t PatientData;
  parsedObservations : list ObservationData
}.

Definition initialState : ParserState :=
  {| patientsMap := OrderedMap.empty; parsedObservations := [] |}.

Definition finish (st : ParserState) : ParsedData :=
  {| patients := OrderedMap.values (patientsMap st);
     observations := parsedObservations st |}.

(** One pass of a [for ... of] loop whose body reads the clock: the
    [i]-th iteration sees the reading [clock i]. *)
Fixpoint for_of {A S : Type} (clock : nat -> JS.Date) (body : JS.Date -> A -> S -> S)
    (i : nat) (items : list A) (st : S) : S :=
  match items with
  | [] => st
  | x :: rest => for_of clock body (Datatypes.S i) rest (body (clock i) x st)
  end.

(** [if (!patientsMap.has(id)) patientsMap.set(id, patient)] *)
Definition register (patient : PatientData) (m : OrderedMap.t PatientData) : OrderedMap.t PatientData :=
  if OrderedMap.has m (patientId patient) then m
  else OrderedMap.set m (patientId patient) patient.

(** [isNaN(Number(raw)) ? raw : Number(raw)] *)
Definition coerceValue (raw : string) : ObservationValue :=
  if JS.isNaN (JS.Number raw) then StringValue raw else NumberValue (JS.Number raw).

(* ================================================================== *)
(** * csv-parser.ts *)
(* ================================================================== *)

Module CsvParser.

Record CSVRow := {
  patient_id : string;
  first_name : string;
  last_name : string;
  birth_date : string;
  gender : string;
  address_line : option string;
  city : option string;
  state : option string;
  postal_code : option string;
  phone : option string;
  email : option string;
  observation_type : option string;
  observation_value : option string;
  observation_unit : option string;
  observation_date : option string
}.

Definition normalizeGender (gender : string) : Gender :=
  let normalized := JS.trim (JS.toLowerCase gender) in
  if String.eqb normalized "male" || String.eqb normalized "m" then male
  else if String.eqb normalized "female" || String.eqb normalized "f" then female
  else if String.eqb normalized "other" || String.eqb normalized "o" then other
  else unknown.

Definition patientOfRow (row : CSVRow) : PatientData :=
  {| patientId := patient_id row;
     firstName := first_name row;
     lastName := last_name row;
     birthDate := birth_date row;
     Types.gender := normalizeGender (gender row);
     addressLine := address_line row;
     Types.city := city row;
     Types.state := state row;
     postalCode := postal_code row;
     Types.phone := phone row;
     Types.email := email row |}.

(** [new Date().toISOString().split('T')[0]] *)
Definition today (d : JS.Date) : string :=
  default "" (head (JS.split "T" (JS.toISOString d))).

(** The observation of a row, when it carries both a type and a value. *)
Definition observationOfRow (d : JS.Date) (row : CSVRow) : option ObservationData :=
  match JS.truthy (observation_type row), JS.truthy (observation_value row) with
  | Some type, Some value =>
      Some {| observationPatientId := patient_id row;
              observationType := type;
              observationValue := coerceValue value;
              observationUnit := JS.or_else (observation_unit row) "";
              observationDate := JS.or_else (observation_date row) (today d) |}
  | _, _ => None
  end.

Definition rowBody (d : JS.Date) (row : CSVRow) (st : ParserState) : ParserState :=
  {| patientsMap :=
       if OrderedMap.has (patientsMap st) (patient_id row) then patientsMap st
       else OrderedMap.set (patientsMap st) (patient_id row) (patientOfRow row);
     parsedObservations :=
       match observationOfRow d row with
       | Some o => parsedObservations st ++ [o]
       | None => parsedObservations st
       end |}.

(** The body of [parseCSV] after the library call: the loop over the
    parsed records. *)
Definition parseRecords (clock : nat -> JS.Date) (records : list CSVRow) : ParsedData :=
  finish (for_of clock rowBody 0 records initialState).

(** [parseCSV]; [parse] is csv-parse's synchronous parser with the
    options of the source, [None] when it throws on malformed text. *)
Definition parseCSV (parse : string -> option (list CSVRow)) (clock : nat -> JS.Date)
    (content : string) : option ParsedData :=
  match parse content with
  | Some records => Some (parseRecords clock records)
  | None => None
  end.

End CsvParser.

(* ================================================================== *)
(** * hl7v2-parser.ts *)
(* ================================================================== *)

Module Hl7v2Parser.

Record HL7Segment := { type : string; fields : list string }.

Record HL7Message := { segments : list HL7Segment }.

Definition OBX_CODE_MAP : list (string * string) :=
  [ ("8480-6", "blood_pressure_systolic");
    ("8462-4", "blood_pressure_diastolic");
    ("8867-4", "heart_rate");
    ("8310-5", "body_temperature");
    ("2339-0", "blood_glucose");
    ("29463-7", "body_weight");
    ("2708-6", "oxygen_saturation") ].

Definition parseHL7Segment (line : string) : HL7Segment :=
  let parts := JS.split "|" line in
  {| type := default "" (head parts); fields := tail parts |}.

Definition newline : ascii := ascii_of_nat 10.

Definition parseHL7Message (content : string) : HL7Message :=
  let lines := filter (fun line => JS.nonempty (JS.trim line) = true) (JS.split newline content) in
  {| segments := map parseHL7Segment lines |}.

Definition splitStep (acc : list string * list string) (line : string) : list string * list string :=
  let '(messages, currentMessage) := acc in
  if JS.startsWith line "MSH|" then
    (match currentMessage with
     | [] => messages
     | _ => messages ++ [JS.join (String newline "") currentMessage]
     end, [line])
  else if JS.nonempty (JS.trim line) then (messages, currentMessage ++ [line])
  else (messages, currentMessage).

Definition splitMessages (content : string) : list string :=
  let '(messages, currentMessage) := fold_left splitStep (JS.split newline content) ([], []) in
  match currentMessage with
  | [] => messages
  | _ => messages ++ [JS.join (String newline "") currentMessage]
  end.

Definition normalizeGender (gender : string) : Gender :=
  let normalized := JS.trim (JS.toUpperCase gender) in
  if String.eqb normalized "M" || String.eqb normalized "MALE" then male
  else if String.eqb normalized "F" || String.eqb normalized "FEMALE" then female
  else if String.eqb normalized "O" || String.eqb normalized "OTHER" then other
  else unknown.

Definition parseHL7Date (hl7Date : string) : string :=
  if Nat.leb 8 (String.length hl7Date) then
    JS.substring 0 4 hl7Date +:+ "-" +:+ JS.substring 4 6 hl7Date +:+ "-" +:+ JS.substring 6 8 hl7Date
  else hl7Date.

(** [pid.fields[i] || ''] *)
Definition field (seg : HL7Segment) (i : nat) : string :=
  JS.or_else (JS.at_index (fields seg) i) "".

(** [s.split('^')[i]] *)
Definition component (s : string) (i : nat) : option string :=
  JS.at_index (JS.split "^" s) i.

(** The body of the [try] block raises nothing, so the [catch]
    branch that returns [null] is never taken; [d] is the clock
    reading that [Date.now()] sees. *)
Definition extractPatientFromPID (d : JS.Date) (pid : HL7Segment) : option PatientData :=
  let idField := field pid 2 in
  let patientId := JS.or_else (component idField 0) ("HL7-" +:+ JS.decimal (JS.now d)) in
  let nameField := field pid 4 in
  let lastName := JS.or_else (component nameField 0) "Unknown" in
  let firstName := JS.or_else (component nameField 1) "Unknown" in
  let birthDateRaw := field pid 6 in
  let birthDate := parseHL7Date birthDateRaw in
  let genderRaw := field pid 7 in
  let gender := normalizeGender genderRaw in
  let addressField := field pid 10 in
  let phoneField := field pid 12 in
  let phone := JS.truthy (component phoneField 0) in
  Some {| Types.patientId := patientId;
          Types.firstName := firstName;
          Types.lastName := lastName;
          Types.birthDate := birthDate;
          Types.gender := gender;
          addressLine := JS.truthy (component addressField 0);
          city := JS.truthy (component addressField 2);
          state := JS.truthy (component addressField 3);
          postalCode := JS.truthy (component addressField 4);
          Types.phone := phone;
          email := None |}.

(** [loincCode.replace(/[^a-zA-Z0-9]/g, '_')] *)
Definition sanitize (c : ascii) : ascii :=
  if JS.is_lower c || JS.is_upper c || JS.is_digit c then c else "_"%char.

Definition extractObservationFromOBX (obx : HL7Segment) (patientId mshTimestamp : string)
    : option ObservationData :=
  let identifierField := field obx 2 in
  let loincCode := JS.or_else (component identifierField 0) "" in
  let observationType :=
    JS.or_else (table_get OBX_CODE_MAP loincCode) (JS.map_chars sanitize loincCode) in
  let valueRaw := field obx 4 in
  let observationValue := coerceValue valueRaw in
  let unitsField := field obx 5 in
  let observationUnit := JS.or_else (component unitsField 0) "" in
  let dateField := JS.or_else (JS.at_index (fields obx) 13) mshTimestamp in
  let observationDate := parseHL7Date dateField in
  Some {| observationPatientId := patientId;
          Types.observationType := observationType;
          Types.observationValue := observationValue;
          Types.observationUnit := observationUnit;
          Types.observationDate := observationDate |}.

Definition findSegment (name : string) (message : HL7Message) : option HL7Segment :=
  find (fun s => String.eqb (type s) name) (segments message).

(** [s.replace(/[-:]/g, '')] *)
Fixpoint dropDashColon (s : string) : string :=
  match s with
  | EmptyString => EmptyString
  | String c s' =>
      if Ascii.eqb c "-" || Ascii.eqb c ":" then dropDashColon s'
      else String c (dropDashColon s')
  end.

(** [new Date().toISOString().replace(/[-:]/g, '').split('.')[0]] *)
Definition compactNow (d : JS.Date) : string :=
  default "" (head (JS.split "." (dropDashColon (JS.toISOString d)))).

Definition pushObservations (obxSegments : list HL7Segment) (patientId mshTimestamp : string)
    (observations : list ObservationData) : list ObservationData :=
  fold_left (fun acc obx =>
               match extractObservationFromOBX obx patientId mshTimestamp with
               | Some observation => acc ++ [observation]
               | None => acc
               end) obxSegments observations.

(** The body of the loop over the message strings. *)
Definition messageBody (d : JS.Date) (msgContent : string) (st : ParserState) : ParserState :=
  let message := parseHL7Message msgContent in
  let msh := findSegment "MSH" message in
  let mshTimestamp :=
    JS.or_else (match msh with Some s => JS.at_index (fields s) 5 | None => None end)
               (compactNow d) in
  match findSegment "PID" message with
  | None => st
  | Some pidSegment =>
      match extractPatientFromPID d pidSegment with
      | None => st
      | Some patient =>
          let obxSegments := filter (fun s => String.eqb (type s) "OBX" = true) (segments message) in
          {| patientsMap := register patient (patientsMap st);
             parsedObservations :=
               pushObservations obxSegments (Types.patientId patient) mshTimestamp
                                (parsedObservations st) |}
      end
  end.

Definition parseMessages (clock : nat -> JS.Date) (messageStrings : list string) : ParsedData :=
  finish (for_of clock messageBody 0 messageStrings initialState).

Definition parseHL7v2 (clock : nat -> JS.Date) (content : string) : ParsedData :=
  parseMessages clock (splitMessages content).

End Hl7v2Parser.

(* ================================================================== *)
(** * fhir-mapper.ts *)
(* ================================================================== *)

Module FhirMapper.

(** The resource shapes of types.ts, with the attributes the mapper
    sets; an attribute it may leave out is an [option]. *)
Record Identifier := { system : string; value : string }.

Record HumanName := { name_use : string; family : string; given : list string }.

Record ContactPoint := { telecom_system : string; telecom_value : string; telecom_use : option string }.

Record Address := {
  address_use : string;
  line : option (list string);
  address_city : option string;
  address_state : option string;
  address_postalCode : option string;
  country : string
}.

Record FHIRPatient := {
  patient_identifier : list Identifier;
  name : list HumanName;
  patient_gender : Gender;
  patient_birthDate : string;
  telecom : option (list ContactPoint);
  address : option (list Address)
}.

Record Coding := { coding_system : string; coding_code : string; display : string }.

Record CodeableConcept := { coding : option (list Coding); text : string }.

Record Quantity := {
  quantity_value : JS.number;
  unit : string;
  quantity_system : string;
  quantity_code : string
}.

Record FHIRObservation := {
  observation_identifier : list Identifier;
  status : string;
  code : CodeableConcept;
  subject : string;
  effectiveDateTime : string;
  valueQuantity : option Quantity;
  valueString : option string
}.

Inductive FHIRResource :=
| Patient (p : FHIRPatient)
| Observation (o : FHIRObservation).

Record Request := { method : string; url : string; ifNoneExist : string }.

Record BundleEntry := { fullUrl : string; resource : FHIRResource; request : Request }.

Record FHIRBundle := { resourceType : string; type : string; entry : list BundleEntry }.

Definition FHIR_IDENTIFIER_SYSTEM : string := "urn:fhir-pipeline:patient-id".
Definition FHIR_OBSERVATION_IDENTIFIER_SYSTEM : string := "urn:fhir-pipeline:observation-id".

(** [if (x)] on an optional string. *)
Definition present (o : option string) : bool :=
  match JS.truthy o with Some _ => true | None => false end.

Definition mapPatientToFHIR (patient : PatientData) : FHIRPatient :=
  let telecom0 : list ContactPoint := [] in
  let telecom1 :=
    match JS.truthy (phone patient) with
    | Some p => telecom0 ++ [{| telecom_system := "phone"; telecom_value := p; telecom_use := Some "home" |}]
    | None => telecom0
    end in
  let telecom2 :=
    match JS.truthy (email patient) with
    | Some e => telecom1 ++ [{| telecom_system := "email"; telecom_value := e; telecom_use := None |}]
    | None => telecom1
    end in
  {| patient_identifier := [{| system := FHIR_IDENTIFIER_SYSTEM; value := patientId patient |}];
     name := [{| name_use := "official"; family := lastName patient; given := [firstName patient] |}];
     patient_gender := gender patient;
     patient_birthDate := birthDate patient;
     telecom := if Nat.ltb 0 (length telecom2) then Some telecom2 else None;
     address :=
       if present (addressLine patient) || present (city patient)
          || present (state patient) || present (postalCode patient)
       then Some [{| address_use := "home";
                     line := match JS.truthy (addressLine patient) with
                             | Some l => Some [l]
                             | None => None
                             end;
                     address_city := city patient;
                     address_state := state patient;
                     address_postalCode := postalCode patient;
                     country := "US" |}]
       else None |}.

(** [String(observation.observationValue)] *)
Definition valueToString (v : ObservationValue) : string :=
  match v with
  | NumberValue n => JS.numberToString n
  | StringValue s => s
  end.

Definition generateObservationId (observation : ObservationData) : string :=
  JS.join ":" [ observationPatientId observation;
                observationType observation;
                observationDate observation;
                valueToString (observationValue observation) ].

(** [s.replace(/_/g, ' ')] *)
Definition underscoreToSpace (c : ascii) : ascii :=
  if Ascii.eqb c "_" then " "%char else c.

Definition mapObservationToFHIR (observation : ObservationData) (patientReference : string)
    : FHIRObservation :=
  let loincInfo := table_get LOINC_CODES (observationType observation) in
  let observationId := generateObservationId observation in
  {| observation_identifier :=
       [{| system := FHIR_OBSERVATION_IDENTIFIER_SYSTEM; value := observationId |}];
     status := "final";
     code := {| coding := match loincInfo with
                          | Some (c, d) =>
                              Some [{| coding_system := "http://loinc.org";
                                       coding_code := c; display := d |}]
                          | None => None
                          end;
                text := JS.map_chars underscoreToSpace (observationType observation) |};
     subject := patientReference;
     effectiveDateTime := observationDate observation;
     valueQuantity :=
       match observationValue observation with
       | NumberValue n =>
           Some {| quantity_value := n;
                   unit := observationUnit observation;
                   quantity_system := "http://unitsofmeasure.org";
                   quantity_code := observationUnit observation |}
       | StringValue _ => None
       end;
     valueString :=
       match observationValue observation with
       | NumberValue _ => None
       | StringValue s => Some s
       end |}.

(** The state of [createFHIRBundle]: how many identities the
    generator has handed out, the [patientUUIDs] map and the entries
    pushed so far. *)
Record Builder := {
  calls : nat;
  patientUUIDs : gmap string string;
  entries : list BundleEntry
}.

Definition patientEntry (uuid : string) (patient : PatientData) : BundleEntry :=
  {| fullUrl := "urn:uuid:" +:+ uuid;
     resource := Patient (mapPatientToFHIR patient);
     request := {| method := "POST"; url := "Patient";
                   ifNoneExist := "identifier=" +:+ FHIR_IDENTIFIER_SYSTEM +:+ "|" +:+ patientId patient |} |}.

Definition observationEntry (uuid patientUUID : string) (observation : ObservationData) : BundleEntry :=
  {| fullUrl := "urn:uuid:" +:+ uuid;
     resource := Observation (mapObservationToFHIR observation ("urn:uuid:" +:+ patientUUID));
     request := {| method := "POST"; url := "Observation";
                   ifNoneExist := "identifier=" +:+ FHIR_OBSERVATION_IDENTIFIER_SYSTEM +:+ "|"
                                  +:+ generateObservationId observation |} |}.

Section Builder.

(** [uuidv4 k] is the value the generator returns at its [k]-th call. *)
Variable uuidv4 : nat -> N.

Definition addPatient (b : Builder) (patient : PatientData) : Builder :=
  let uuid := JS.uuid_string (uuidv4 (calls b)) in
  {| calls := S (calls b);
     patientUUIDs := <[patientId patient := uuid]> (patientUUIDs b);
     entries := entries b ++ [patientEntry uuid patient] |}.

(** [if (!patientUUID) continue] skips on [undefined] and on the
    empty string alike. *)
Definition addObservation (b : Builder) (observation : ObservationData) : Builder :=
  match JS.truthy (patientUUIDs b !! observationPatientId observation) with
  | None => b
  | Some patientUUID =>
      {| calls := S (calls b);
         patientUUIDs := patientUUIDs b;
         entries := entries b ++
           [observationEntry (JS.uuid_string (uuidv4 (calls b))) patientUUID observation] |}
  end.

Definition createFHIRBundle (data : ParsedData) : FHIRBundle :=
  let b0 := {| calls := 0; patientUUIDs := ∅; entries := [] |} in
  let b1 := fold_left addPatient (patients data) b0 in
  let b2 := fold_left addObservation (observations data) b1 in
  {| resourceType := "Bundle"; type := "transaction"; entry := entries b2 |}.

End Builder.

End FhirMapper.

(* ================================================================== *)
(** * index.ts: accounting of the store's response *)
(* ================================================================== *)

Module Dispatcher.

(** A reply entry: [{ response?: { status?: string } }]. *)
Record Response := { status : option string }.
Record ResponseEntry := { response : option Response }.
Record FHIRBundleResponse := { entry : option (list ResponseEntry) }.

(** [e.response?.status?.startsWith('20')], as a truth value. *)
Definition succeeded (e : ResponseEntry) : bool :=
  match response e with
  | Some r => match status r with
              | Some s => JS.startsWith s "20"
              | None => false
              end
  | None => false
  end.

(** [result.entry?.filter(...).length || 0]; the passthrough branch and
    the parsed branch of the handler compute the two counts with the
    same expressions. *)
Definition successCount (result : FHIRBundleResponse) : nat :=
  match entry result with
  | Some es => length (filter (fun e => succeeded e = true) es)
  | None => 0
  end.

(** [(result.entry?.length || 0) - successCount] *)
Definition errorCount (result : FHIRBundleResponse) : nat :=
  match entry result with
  | Some es => length es
  | None => 0
  end - successCount result.

End Dispatcher.

(* ================================================================== *)
(** * gcs-client.ts: classification of a storage path *)
(* ================================================================== *)

Module GcsClient.

(** [s.endsWith(suffix)]: some tail of [s] is [suffix]. *)
Fixpoint endsWith (s suffix : string) : bool :=
  String.eqb s suffix ||
  match s with
  | EmptyString => false
  | String _ s' => endsWith s' suffix
  end.

Inductive FileType := csv | hl7v2 | synthea | unknown.

Definition getFileType (fileName : string) : FileType :=
  if JS.startsWith fileName "csv-ehr/" then csv
  else if JS.startsWith fileName "hl7v2/" then hl7v2
  else if JS.startsWith fileName "synthea/" then synthea
  else unknown.

Definition shouldProcess (fileName : string) : bool :=
  if endsWith fileName ".gitkeep" then false
  else if JS.startsWith fileName "processed/" then false
  else match getFileType fileName with
       | unknown => false
       | _ => true
       end.

End GcsClient.

(* ================================================================== *)
(** * api/middleware/auth.ts *)
(* ================================================================== *)

Module Auth.

(** [process.env.API_KEY || 'DEMO_API_KEY_CHANGE_IN_PRODUCTION'] *)
Definition API_KEY (env : option string) : string :=
  JS.or_else env "DEMO_API_KEY_CHANGE_IN_PRODUCTION".

(** What the middleware does with the request. *)
Inductive Verdict := Unauthorized401 | Forbidden403 | Next.

(** [header] is [req.headers['x-api-key']] and [query] is
    [req.query['api_key']], both read as [string | undefined]. *)
Definition apiKeyAuth (env header query : option string) : Verdict :=
  let providedKey :=
    match JS.truthy header with
    | Some h => Some h
    | None => query
    end in
  match JS.truthy providedKey with
  | None => Unauthorized401
  | Some key => if String.eqb key (API_KEY env) then Next else Forbidden403
  end.

End Auth.

(* ================================================================== *)
(** * index.ts: the handler of a file-landed event *)
(* ================================================================== *)

Module Handler.

(** The parts of the request body that the handler reads. *)
Record GcsRef := { bucket : option string; name : option string }.

Record Body := {
  body_bucket : option string;
  body_name : option string;
  data : option GcsRef;
  message_data : option string
}.

Inductive Decoded :=
| EventFile (bucket fileName : option string)
| UnknownEventFormat
| DecodeThrows.

Section Decode.

(** [JSON.parse(Buffer.from(data, 'base64').toString())], read at its
    [bucket] and [name]; [None] when it throws. *)
Variable decodePayload : string -> option GcsRef.

Definition decodeEvent (body : Body) : Decoded :=
  match JS.truthy (body_bucket body), JS.truthy (body_name body) with
  | Some b, Some n => EventFile (Some b) (Some n)
  | _, _ =>
      match match data body with
            | Some d => (JS.truthy (bucket d), JS.truthy (name d))
            | None => (None, None)
            end with
      | (Some b, Some n) => EventFile (Some b) (Some n)
      | _ =>
          match JS.truthy (message_data body) with
          | Some payload =>
              match decodePayload payload with
              | Some decoded => EventFile (bucket decoded) (name decoded)
              | None => DecodeThrows
              end
          | None => UnknownEventFormat
          end
      end
  end.

(** What the handler does before it touches the file. *)
Inductive Plan :=
| Respond400UnknownEvent
| Respond500
| Respond200Skipped
| Download (bucket : option string) (fileName : string) (fileType : GcsClient.FileType).

(** [shouldProcess(undefined)] throws, which the handler's [catch]
    turns into the 500 response. *)
Definition plan (body : Body) : Plan :=
  match decodeEvent body with
  | UnknownEventFormat => Respond400UnknownEvent
  | DecodeThrows => Respond500
  | EventFile _ None => Respond500
  | EventFile b (Some fileName) =>
      if negb (GcsClient.shouldProcess fileName) then Respond200Skipped
      else Download b fileName (GcsClient.getFileType fileName)
  end.

End Decode.

(** The branch taken once the content has been downloaded. *)
Inductive Branch := Passthrough | Tabular | Segmented | Respond400UnknownFileType.

Definition branch (fileType : GcsClient.FileType) : Branch :=
  match fileType with
  | GcsClient.synthea => Passthrough
  | GcsClient.csv => Tabular
  | GcsClient.hl7v2 => Segmented
  | GcsClient.unknown => Respond400UnknownFileType
  end.

Record ResponseData := {
  message : string;
  file : string;
  patientsCreated : nat;
  observationsCreated : nat;
  bundleEntriesProcessed : nat;
  successCount : nat;
  errorCount : nat
}.

Inductive Outcome :=
| Respond200 (responseData : ResponseData)
| Respond400
| Failed500.

Section Transform.

Variable parse : string -> option (list CsvParser.CSVRow).
Variable clock : nat -> JS.Date.
Variable uuidv4 : nat -> N.

(** [fhirClient.executeBundle], [None] when it throws. *)
Variable executeBundle : FhirMapper.FHIRBundle -> option Dispatcher.FHIRBundleResponse.

(** The [else] block of the handler, entered when the file type is
    not ['synthea']: parse by file type (any type other than the two
    parsed ones is answered 400 there), build the bundle, execute it and
    report the counts. *)
Definition transformAndSubmit (fileType : GcsClient.FileType) (fileName content : string)
    : Outcome :=
  let parsed :=
    match fileType with
    | GcsClient.csv =>
        match CsvParser.parseCSV parse clock content with
        | Some parsedData => inl parsedData
        | None => inr Failed500
        end
    | GcsClient.hl7v2 => inl (Hl7v2Parser.parseHL7v2 clock content)
    | _ => inr Respond400
    end in
  match parsed with
  | inr response => response
  | inl parsedData =>
      let bundle := FhirMapper.createFHIRBundle uuidv4 parsedData in
      match executeBundle bundle with
      | None => Failed500
      | Some result =>
          Respond200
            {| message := "File processed successfully";
               file := fileName;
               patientsCreated := length (patients parsedData);
               observationsCreated := length (observations parsedData);
               bundleEntriesProcessed := length (FhirMapper.entry bundle);
               successCount := Dispatcher.successCount result;
               errorCount := Dispatcher.errorCount result |}
      end
  end.

End Transform.

End Handler.

(* ================================================================== *)
(** * Terms of the specification *)
(* ================================================================== *)

(** ** Replies of the store *)

Section ReplyTerms.

Import Dispatcher.

(** The status string of the reply begins with [p]. *)
Definition statusBegins (p : string) (e : ResponseEntry) : bool :=
  match response e with
  | Some {| status := Some s |} => String.prefix p s
  | _ => false
  end.

Definition replies (result : FHIRBundleResponse) : list ResponseEntry :=
  default [] (entry result).

Fixpoint countReplies (f : ResponseEntry -> bool) (es : list ResponseEntry) : nat :=
  match es with
  | [] => 0
  | e :: rest => (if f e then 1 else 0) + countReplies f rest
  end.

Definition reply226 : FHIRBundleResponse :=
  {| entry := Some [ {| response := Some {| status := Some "226 IM Used" |} |} ] |}.

End ReplyTerms.

(** ** Sex normalization *)

(** What the tabular parser compares: the lower-cased, trimmed input. *)
Definition folded (s : string) : string := JS.trim (JS.toLowerCase s).

(** ** Registration, first seen wins *)

(** What one loop iteration offers for registration: a patient, or
    nothing when the iteration is skipped. *)
Definition registerAll (cs : list (option PatientData)) (m : OrderedMap.t PatientData)
    : OrderedMap.t PatientData :=
  fold_left (fun m c => match c with Some p => register p m | None => m end) cs m.

(** The offered patients whose identifier was not seen before, in
    the order of the offers. *)
Fixpoint firstSeen (seen : list string) (cs : list (option PatientData)) : list PatientData :=
  match cs with
  | [] => []
  | None :: rest => firstSeen seen rest
  | Some p :: rest =>
      if decide (patientId p ∈ seen) then firstSeen seen rest
      else p :: firstSeen (seen ++ [patientId p]) rest
  end.

(** What the iterations of a parser's loop offer: the [j]-th item is
    seen at the clock reading [clock (i + j)]. *)
Definition offers {A : Type} (clock : nat -> JS.Date) (offer : JS.Date -> A -> option PatientData)
    (i : nat) (items : list A) : list (option PatientData) :=
  imap (fun j x => offer (clock (i + j)) x) items.

(** The output patients carry exactly the identifiers [ids], each
    once, so the two counts of distinct identifiers agree. *)
Definition losslessOnIdentity (ids : list string) (out : list PatientData) : Prop :=
  NoDup (map patientId out) /\
  (forall id, id ∈ map patientId out <-> id ∈ ids) /\
  length (remove_dups (map patientId out)) = length (remove_dups ids).

Definition rowOffer (_ : JS.Date) (row : CsvParser.CSVRow) : option PatientData :=
  Some (CsvParser.patientOfRow row).

Definition csvRow (id first : string) : CsvParser.CSVRow :=
  {| CsvParser.patient_id := id; CsvParser.first_name := first; CsvParser.last_name := "Doe";
     CsvParser.birth_date := "1990-01-15"; CsvParser.gender := "M";
     CsvParser.address_line := None; CsvParser.city := None; CsvParser.state := None;
     CsvParser.postal_code := None; CsvParser.phone := None; CsvParser.email := None;
     CsvParser.observation_type := Some "heart_rate"; CsvParser.observation_value := Some "72";
     CsvParser.observation_unit := Some "bpm"; CsvParser.observation_date := Some "2024-01-15" |}.

Definition csvRows : list CsvParser.CSVRow :=
  [csvRow "P001" "John"; csvRow "P002" "Jane"; csvRow "P001" "Jim"].

Definition heartRateRow : CsvParser.CSVRow := csvRow "P001" "John".

(** ** Segmented messages *)

Section MessageTerms.

Import Hl7v2Parser.

(** The optional patient fields of a PID segment. *)
Inductive PatientField :=
| ExternalIdentifier | GivenName | FamilyName | BirthDate
| AddressLine | City | State | PostalCode | Phone.

(** The text the segment holds for a field, [None] when the field or
    its component is missing or empty. *)
Definition fieldText (pid : HL7Segment) (f : PatientField) : option string :=
  match f with
  | ExternalIdentifier => JS.truthy (component (field pid 2) 0)
  | FamilyName => JS.truthy (component (field pid 4) 0)
  | GivenName => JS.truthy (component (field pid 4) 1)
  | BirthDate => JS.truthy (JS.at_index (fields pid) 6)
  | AddressLine => JS.truthy (component (field pid 10) 0)
  | City => JS.truthy (component (field pid 10) 2)
  | State => JS.truthy (component (field pid 10) 3)
  | PostalCode => JS.truthy (component (field pid 10) 4)
  | Phone => JS.truthy (component (field pid 12) 0)
  end.

(** The attribute of the intermediate record that a field feeds;
    [None] is an omitted attribute. *)
Definition attribute (p : PatientData) (f : PatientField) : option string :=
  match f with
  | ExternalIdentifier => Some (patientId p)
  | GivenName => Some (firstName p)
  | FamilyName => Some (lastName p)
  | BirthDate => Some (birthDate p)
  | AddressLine => addressLine p
  | City => city p
  | State => state p
  | PostalCode => postalCode p
  | Phone => phone p
  end.

Definition optionalAttribute (f : PatientField) : bool :=
  match f with
  | AddressLine | City | State | PostalCode | Phone => true
  | _ => false
  end.

Definition syntheticId (d : JS.Date) : string := "HL7-" +:+ JS.decimal (JS.now d).

Definition barePID : HL7Segment := {| type := "PID"; fields := ["1"] |}.

Definition noon : JS.Date :=
  {| JS.now := 1705320000000; JS.toISOString := "2024-01-15T12:00:00.000Z" |}.

Definition pidOf (msg : string) : option HL7Segment :=
  findSegment "PID" (parseHL7Message msg).

(** The identifier a message carries: the first component of the
    identifier field of its PID segment. *)
Definition messageIdentifier (msg : string) : option string :=
  match pidOf msg with
  | Some pid => component (field pid 2) 0
  | None => None
  end.

Definition inputIdentifiers (content : string) : list string :=
  omap messageIdentifier (splitMessages content).

Definition messageOffer (d : JS.Date) (msg : string) : option PatientData :=
  match pidOf msg with
  | Some pid => extractPatientFromPID d pid
  | None => None
  end.

Definition tick (i : nat) : JS.Date :=
  {| JS.now := 1705320000000 + N.of_nat i; JS.toISOString := "2024-01-15T12:00:00.000Z" |}.

(** The clock as the remaining messages see it once the [k]-th
    iteration is taken out. *)
Definition skipReading (clock : nat -> JS.Date) (k : nat) : nat -> JS.Date :=
  fun i => if Nat.ltb i k then clock i else clock (S i).

Definition twoAnonymous : string :=
  "MSH|^~\&|App|Fac|App|Fac|20240115||ADT|1|P|2.5
PID|1||
MSH|^~\&|App|Fac|App|Fac|20240116||ADT|2|P|2.5
PID|1||^^^Hospital".

Definition sameTwice : string :=
  "MSH|^~\&|App|Fac|App|Fac|20240115||ORU|1|P|2.5
PID|1||P001||Doe^John||19900115|M
OBX|1|NM|8867-4^HR^LN||72|bpm|||||F
MSH|^~\&|App|Fac|App|Fac|20240116||ORU|2|P|2.5
PID|1||P001||Doe^Jane||19900115|F
OBX|1|NM|8867-4^HR^LN||75|bpm|||||F".

Definition ackSecond : string :=
  "MSH|^~\&|App|Fac|App|Fac|20240115||ORU|1|P|2.5
PID|1||P001||Doe^John||19900115|M
OBX|1|NM|8867-4^HR^LN||72|bpm|||||F
MSH|^~\&|App|Fac|App|Fac|20240115||ACK|1|P|2.5
MSA|AA|MSG001
OBX|1|NM|8867-4^HR^LN||99|bpm|||||F".

End MessageTerms.

(** ** Bundles *)

Section BundleTerms.

Import FhirMapper.

(** The owner of the observation is among the patients. *)
Definition resolvable (ps : list PatientData) (o : ObservationData) : Prop :=
  observationPatientId o ∈ map patientId ps.

#[global] Instance resolvable_dec ps o : Decision (resolvable ps o).
Proof. unfold resolvable. apply _. Defined.

Definition retained (data : ParsedData) : list ObservationData :=
  filter (resolvable (patients data)) (observations data).

Definition patientDirective (p : PatientData) : string :=
  "identifier=urn:fhir-pipeline:patient-id|" +:+ patientId p.

Definition observationDirective (o : ObservationData) : string :=
  "identifier=urn:fhir-pipeline:observation-id|" +:+ generateObservationId o.

Definition directives (b : FHIRBundle) : list string :=
  map (fun e => ifNoneExist (request e)) (entry b).

Definition isPatientEntry (e : BundleEntry) : Prop :=
  match resource e with Patient _ => True | Observation _ => False end.

Definition isObservationEntry (e : BundleEntry) : Prop :=
  match resource e with Patient _ => False | Observation _ => True end.

(** The patient entries when the generator has been called [c] times
    before. *)
Definition patientEntries (uuidv4 : nat -> N) (c : nat) (ps : list PatientData)
    : list BundleEntry :=
  imap (fun j p => patientEntry (JS.uuid_string (uuidv4 (c + j))) p) ps.

(** The observation entries for observations whose owners are in [m]. *)
Definition observationEntries (uuidv4 : nat -> N) (m : gmap string string) (c : nat)
    (os : list ObservationData) : list BundleEntry :=
  imap (fun j o => observationEntry (JS.uuid_string (uuidv4 (c + j)))
                     (default "" (m !! observationPatientId o)) o) os.

Definition nonemptyValues (m : gmap string string) : Prop :=
  forall k v, m !! k = Some v -> v <> "".

Definition initialBuilder : Builder := {| calls := 0; patientUUIDs := ∅; entries := [] |}.

(** The [patientUUIDs] map once all patients have been added. *)
Definition assigned (uuidv4 : nat -> N) (ps : list PatientData) : gmap string string :=
  patientUUIDs (fold_left (addPatient uuidv4) ps initialBuilder).

Definition ascending (k : nat) : N := N.of_nat k.

Definition descending (k : nat) : N := 1000 - N.of_nat k.

Definition patientNamed (id : string) : PatientData :=
  {| patientId := id; firstName := "John"; lastName := "Doe"; birthDate := "1990-01-15";
     gender := male; addressLine := None; city := None; state := None; postalCode := None;
     phone := None; email := None |}.

Definition reading (owner value : string) : ObservationData :=
  {| observationPatientId := owner; observationType := "heart_rate";
     observationValue := coerceValue value; observationUnit := "bpm";
     observationDate := "2024-01-15" |}.

(** Two patients, three observations, one of them for an identifier
    that is not among the patients. *)
Definition twoPatientsThreeReadings : ParsedData :=
  {| patients := [patientNamed "P001"; patientNamed "P002"];
     observations := [reading "P001" "72"; reading "P999" "80"; reading "P002" "68"] |}.

End BundleTerms.

(** ** Observation values *)

(** [Number(raw)] is a number, not NaN. *)
Definition readsAsNumber (raw : string) : bool := negb (JS.isNaN (JS.Number raw)).

Fixpoint allDigits (s : string) : bool :=
  match s with
  | EmptyString => true
  | String c s' => JS.is_digit c && allDigits s'
  end.

(** ** Lines and separators *)

(** The character [c] occurs in [s]. *)
Fixpoint hasChar (c : ascii) (s : string) : bool :=
  match s with
  | EmptyString => false
  | String c' s' => Ascii.eqb c' c || hasChar c s'
  end.

Definition linesOf (content : string) : list string := JS.split Hl7v2Parser.newline content.

Definition joinLines (g : list string) : string := JS.join (String Hl7v2Parser.newline "") g.

(** A line that opens a message, and a line that is not blank. *)
Definition headerLine (line : string) : bool := JS.startsWith line "MSH|".

Definition nonblank (line : string) : bool := JS.nonempty (JS.trim line).

(** A group of lines with no header line after its first line. *)
Definition headerFreeTail (g : list string) : Prop :=
  Forall (fun l => headerLine l = false) (tail g).

Definition headed (g : list string) : Prop :=
  exists l0 rest, g = l0 :: rest /\ headerLine l0 = true.

(** The state of the loop of [splitMessages] after the lines [seen]:
    the finished messages as [groups] of lines and the [current] one. *)
Definition splitInvariant (groups : list (list string)) (current seen : list string) : Prop :=
  concat groups ++ current = filter (fun l => nonblank l = true) seen /\
  Forall (fun g => g <> [] /\ headerFreeTail g) groups /\
  Forall headed (tail groups) /\
  headerFreeTail current /\
  (groups <> [] -> headed current) /\
  Forall (Forall (fun l => hasChar Hl7v2Parser.newline l = false)) groups /\
  Forall (fun l => hasChar Hl7v2Parser.newline l = false) current.

(** The segments of a message. *)
Definition segmentsOf (msg : string) : list Hl7v2Parser.HL7Segment :=
  Hl7v2Parser.segments (Hl7v2Parser.parseHL7Message msg).

(** A character that [sanitize] keeps. *)
Definition tagChar (c : ascii) : bool :=
  JS.is_lower c || JS.is_upper c || JS.is_digit c || Ascii.eqb c "_".

Fixpoint allChars (f : ascii -> bool) (s : string) : bool :=
  match s with
  | EmptyString => true
  | String c s' => f c && allChars f s'
  end.

(** The terminology code of a result segment: the first component of
    its identifier field. *)
Definition loincCodeOf (obx : Hl7v2Parser.HL7Segment) : string :=
  JS.or_else (Hl7v2Parser.component (Hl7v2Parser.field obx 2) 0) "".

(** ** Example segments *)

Definition heartRateOBX : Hl7v2Parser.HL7Segment :=
  Hl7v2Parser.parseHL7Segment
    "OBX|1|NM|8867-4^Heart rate^LN||72|bpm|60-100||||F|||20240115120000".

Definition bloodTypeOBX : Hl7v2Parser.HL7Segment :=
  Hl7v2Parser.parseHL7Segment "OBX|1|ST|BLOOD-TYPE^x||A+||||||F".

(** ** Mapped resources *)

(** The intra-bundle identity that the [k]-th call of the generator
    gives. *)
Definition identityUrl (uuidv4 : nat -> N) (k : nat) : string :=
  "urn:uuid:" +:+ JS.uuid_string (uuidv4 k).

Definition colonFree (s : string) : Prop := hasChar ":" s = false.

Definition fullContact : PatientData :=
  {| patientId := "P001"; firstName := "John"; lastName := "Doe"; birthDate := "1990-01-15";
     gender := male; addressLine := None; city := Some "Boston"; state := None;
     postalCode := None; phone := Some "555-123-4567"; email := Some "john@example.com" |}.

(** ** Observations of a parse *)

(** What the iterations of a parser's loop append to the observation
    list, in order. *)
Fixpoint emitted {A : Type} (clock : nat -> JS.Date)
    (emits : JS.Date -> A -> list ObservationData) (i : nat) (items : list A)
    : list ObservationData :=
  match items with
  | [] => []
  | x :: rest => emits (clock i) x ++ emitted clock emits (S i) rest
  end.

Definition rowEmits (d : JS.Date) (row : CsvParser.CSVRow) : list ObservationData :=
  match CsvParser.observationOfRow d row with
  | Some o => [o]
  | None => []
  end.

(** The row has a nonempty observation type and a nonempty value. *)
Definition carriesObservation (row : CsvParser.CSVRow) : Prop :=
  is_Some (JS.truthy (CsvParser.observation_type row)) /\
  is_Some (JS.truthy (CsvParser.observation_value row)).

#[global] Instance carriesObservation_dec row : Decision (carriesObservation row).
Proof. unfold carriesObservation. apply _. Defined.

(** The result segments of a message. *)
Definition obxSegmentsOf (msg : string) : list Hl7v2Parser.HL7Segment :=
  filter (fun s => String.eqb (Hl7v2Parser.type s) "OBX" = true) (segmentsOf msg).

(** The time stamp that the observations of a message fall back to. *)
Definition mshTimestampOf (d : JS.Date) (msg : string) : string :=
  JS.or_else
    (match Hl7v2Parser.findSegment "MSH" (Hl7v2Parser.parseHL7Message msg) with
     | Some s => JS.at_index (Hl7v2Parser.fields s) 5
     | None => None
     end)
    (Hl7v2Parser.compactNow d).

Definition messageEmits (d : JS.Date) (msg : string) : list ObservationData :=
  match messageOffer d msg with
  | Some patient =>
      omap (fun obx => Hl7v2Parser.extractObservationFromOBX obx (patientId patient)
                         (mshTimestampOf d msg))
           (obxSegmentsOf msg)
  | None => []
  end.

(** How many observations a message yields. *)
Definition resultCount (msg : string) : nat :=
  match pidOf msg with
  | Some _ => length (obxSegmentsOf msg)
  | None => 0
  end.

Definition colonOwner : ObservationData :=
  {| observationPatientId := "A:b"; observationType := "c"; observationValue := StringValue "72";
     observationUnit := ""; observationDate := "2024-01-15" |}.

Definition colonType : ObservationData :=
  {| observationPatientId := "A"; observationType := "b:c";
     observationValue := NumberValue (JS.Number "72");
     observationUnit := "bpm"; observationDate := "2024-01-15" |}.

(** ** Events and paths *)

(** The flat and the nested layout of the event body, when complete. *)
Definition flatPair (body : Handler.Body) : option (string * string) :=
  match JS.truthy (Handler.body_bucket body), JS.truthy (Handler.body_name body) with
  | Some b, Some n => Some (b, n)
  | _, _ => None
  end.

Definition nestedPair (body : Handler.Body) : option (string * string) :=
  match Handler.data body with
  | Some d =>
      match JS.truthy (Handler.bucket d), JS.truthy (Handler.name d) with
      | Some b, Some n => Some (b, n)
      | _, _ => None
      end
  | None => None
  end.

Definition recognizedPrefix (fileName : string) : Prop :=
  exists rest, fileName = "csv-ehr/" +:+ rest \/ fileName = "hl7v2/" +:+ rest \/
               fileName = "synthea/" +:+ rest.

Definition nestedEvent : Handler.Body :=
  {| Handler.body_bucket := None; Handler.body_name := Some "ignored";
     Handler.data := Some {| Handler.bucket := Some "landing";
                             Handler.name := Some "hl7v2/batch_001/data.hl7" |};
     Handler.message_data := Some "e30=" |}.

Definition noPayload (_ : string) : option Handler.GcsRef := None.

Definition allCreated (b : FhirMapper.FHIRBundle) : option Dispatcher.FHIRBundleResponse :=
  Some {| Dispatcher.entry :=
            Some (map (fun _ => {| Dispatcher.response :=
                                     Some {| Dispatcher.status := Some "201 Created" |} |})
                      (FhirMapper.entry b)) |}.

(** ** Order of first occurrence *)

(** The identifiers of a list, each at its first occurrence. *)
Fixpoint keepFirst (ids : list string) : list string :=
  match ids with
  | [] => []
  | id :: rest => id :: filter (fun x => x <> id) (keepFirst rest)
  end.

Definition offeredIds (cs : list (option PatientData)) : list string :=
  map patientId (omap id cs).

(** ** Values without digits *)

(** The text holds no decimal digit, so it is the text of no number. *)
Definition digitFree (s : string) : bool :=
  allChars (fun c => negb (JS.is_digit c)) s.

(** A heart-rate result segment that ends before its value field. *)
Definition valuelessOBX : Hl7v2Parser.HL7Segment :=
  Hl7v2Parser.parseHL7Segment "OBX|1|NM|8867-4^HR^LN".

(** A row of the tabular input with an empty value column. *)
Definition valuelessRow : CsvParser.CSVRow :=
  {| CsvParser.patient_id := "P001"; CsvParser.first_name := "John"; CsvParser.last_name := "Doe";
     CsvParser.birth_date := "1990-01-15"; CsvParser.gender := "M";
     CsvParser.address_line := None; CsvParser.city := None; CsvParser.state := None;
     CsvParser.postal_code := None; CsvParser.phone := None; CsvParser.email := None;
     CsvParser.observation_type := Some "heart_rate"; CsvParser.observation_value := Some "";
     CsvParser.observation_unit := Some "bpm"; CsvParser.observation_date := Some "2024-01-15" |}.

(** ** Identifiers that collide with a generated one *)

(** The first message carries, as its own identifier, the text that the
    second, anonymous message is given at the second reading of [tick]. *)
Definition claimedThenAnonymous : string :=
  "MSH|^~\&|App|Fac|App|Fac|20240115||ADT|1|P|2.5
PID|1||HL7-1705320000001||Doe^John||19900115|M
MSH|^~\&|App|Fac|App|Fac|20240116||ADT|2|P|2.5
PID|1||||Roe^Jane||19850620|F".

Definition anonymousJane : string :=
  "MSH|^~\&|App|Fac|App|Fac|20240116||ADT|2|P|2.5
PID|1||||Roe^Jane||19850620|F".

(** A clock that does not advance between two iterations. *)
Definition frozen (_ : nat) : JS.Date := noon.

(** ** Terminology codes that name an inherited property *)

(** No result segment of a message with a PID segment has a code that
    names a property inherited from [Object.prototype]. *)
Definition ownCodesOnly (content : string) : bool :=
  forallb
    (fun msg =>
       match pidOf msg with
       | Some _ => forallb (fun obx => negb (inherited (loincCodeOf obx))) (obxSegmentsOf msg)
       | None => true
       end)
    (Hl7v2Parser.splitMessages content).

(* ================================================================== *)
(** * Sanity checks of the embedding on concrete inputs *)
(* ================================================================== *)

Example split_ex : JS.split "^" "Doe^John^^x" = ["Doe"; "John"; ""; "x"].
Proof. reflexivity. Qed.
Example trim_ex : JS.trim "  a b	 " = "a b".
Proof. reflexivity. Qed.
Example gender_ex : Hl7v2Parser.normalizeGender " m " = male /\ CsvParser.normalizeGender "Other" = other.
Proof. split; reflexivity. Qed.

Example number_ex :
  JS.Number "72" = JS.Fin false 72 0 /\ JS.Number " 98.60 " = JS.Fin false 986 (-1) /\
  JS.Number "A+" = JS.NaN /\ JS.Number "" = JS.Fin false 0 0 /\ JS.Number "0x1F" = JS.Fin false 31 0 /\
  JS.Number "1e3" = JS.Fin false 1 3 /\ JS.Number "-.5" = JS.Fin true 5 (-1) /\ JS.Number "1." = JS.Fin false 1 0 /\
  JS.Number "." = JS.NaN /\ JS.Number "1e" = JS.NaN /\ JS.Number "12 3" = JS.NaN /\ JS.Number "-Infinity" = JS.Inf true
  /\ JS.Number "0x" = JS.NaN /\ JS.Number "+-1" = JS.NaN.
Proof. repeat split; vm_compute; reflexivity. Qed.
Example tostring_ex :
  map JS.numberToString [JS.Number "72"; JS.Number "98.6"; JS.Number "1e21"; JS.Number "0.000001"; JS.Number "1e-7"; JS.Number "-12.5e2"; JS.Number "123e-7"; JS.Number "1.5e25";JS.Number "100"]
  = ["72"; "98.6"; "1e+21"; "0.000001"; "1e-7"; "-1250"; "0.0000123"; "1.5e+25"; "100"].
Proof. vm_compute. reflexivity. Qed.
Example uuid_ex : JS.uuid_string 0 = "00000000-0000-4000-8000-000000000000" /\ JS.uuid_string (2^128 - 1) = "ffffffff-ffff-4fff-bfff-ffffffffffff".
Proof. split; vm_compute; reflexivity. Qed.

(* ================================================================== *)
(** * Accounting of the store's response (index.ts) *)
(* ================================================================== *)

Section Accounting.

Import Dispatcher.

Lemma append_cons (c : ascii) (s t : string) : String c s +:+ t = String c (s +:+ t).
Proof. reflexivity. Qed.

Lemma prefix_spec (p s : string) :
  String.prefix p s = true <-> exists rest, s = p +:+ rest.
Proof.
  revert s. induction p as [|c p IH]; intros s.
  - split; [intros _; by exists s | by destruct s].
  - destruct s as [|c' s]; simpl.
    + split; [done | intros [rest H]; discriminate].
    + destruct (ascii_dec c c') as [E|Hne].
      * rewrite IH. subst c'.
        split; intros [rest H]; exists rest; rewrite ?append_cons in *; congruence.
      * split; [done|]. intros [rest H]. rewrite append_cons in H. congruence.
Qed.

Lemma statusBegins_spec (p : string) (e : ResponseEntry) :
  statusBegins p e = true <->
  exists rest, response e = Some {| status := Some (p +:+ rest) |}.
Proof.
  unfold statusBegins. destruct e as [[[[s|]]|]]; simpl.
  - rewrite prefix_spec. split; intros [rest H]; exists rest; congruence.
  - split; [done | intros [? ?]; discriminate].
  - split; [done | intros [? ?]; discriminate].
Qed.

Lemma succeeded_statusBegins (e : ResponseEntry) : succeeded e = statusBegins "20" e.
Proof. by destruct e as [[[[s|]]|]]. Qed.

Lemma length_filter_count (f : ResponseEntry -> bool) (es : list ResponseEntry) :
  length (filter (fun e => f e = true) es) = countReplies f es.
Proof.
  induction es as [|e es IH]; [done|].
  rewrite filter_cons. simpl. destruct (f e) eqn:E.
  - rewrite decide_True by done. simpl. by rewrite IH.
  - rewrite decide_False by done. by rewrite IH.
Qed.

Lemma countReplies_ext (f g : ResponseEntry -> bool) (es : list ResponseEntry) :
  (forall e, f e = g e) -> countReplies f es = countReplies g es.
Proof. intros H. induction es as [|e es IH]; simpl; [done|]. by rewrite H, IH. Qed.

Lemma countReplies_split (f : ResponseEntry -> bool) (es : list ResponseEntry) :
  countReplies f es + countReplies (fun e => negb (f e)) es = length es.
Proof. induction es as [|e es IH]; simpl; [done|]. destruct (f e); simpl; lia. Qed.

(** C1, as stated, fails: a reply with status "226 IM Used" begins
    with "2", yet the dispatcher counts no success for it and one
    failure. *)
Lemma C1_counterexample :
  countReplies (statusBegins "2") (replies reply226) = 1 /\
  successCount reply226 = 0 /\ errorCount reply226 = 1 /\
  successCount reply226 <> countReplies (statusBegins "2") (replies reply226).
Proof. repeat split; vm_compute; congruence. Qed.

(** C1, amended: for every response bundle the success count is the
    number of reply entries whose status string begins with "20", the
    failure count is the number of all remaining entries (no reply, no
    status, or a status that does not begin with "20", other 2xx codes
    included), and the two add up to the number of entries. *)
Theorem C1_success_count_prefix_20 (result : FHIRBundleResponse) :
  successCount result = countReplies (statusBegins "20") (replies result) /\
  errorCount result = countReplies (fun e => negb (statusBegins "20" e)) (replies result) /\
  successCount result + errorCount result = length (replies result).
Proof.
  assert (Hs : successCount result = countReplies (statusBegins "20") (replies result)).
  { unfold successCount, replies. destruct (entry result) as [es|]; simpl; [|done].
    rewrite length_filter_count. apply countReplies_ext, succeeded_statusBegins. }
  pose proof (countReplies_split (statusBegins "20") (replies result)) as Hsplit.
  assert (He : errorCount result = length (replies result) - successCount result).
  { unfold errorCount, replies. by destruct (entry result). }
  repeat split; [done | lia | lia].
Qed.

End Accounting.

(* ================================================================== *)
(** * Sex normalization (both parsers) *)
(* ================================================================== *)

Section Gender.

Lemma char_lower_upper (c : ascii) : JS.char_lower (JS.char_upper c) = JS.char_lower c.
Proof. destruct c as [[] [] [] [] [] [] [] []]; reflexivity. Qed.

Lemma char_upper_lower (c : ascii) : JS.char_upper (JS.char_lower c) = JS.char_upper c.
Proof. destruct c as [[] [] [] [] [] [] [] []]; reflexivity. Qed.

Lemma is_white_upper (c : ascii) : JS.is_white (JS.char_upper c) = JS.is_white c.
Proof. destruct c as [[] [] [] [] [] [] [] []]; reflexivity. Qed.

Lemma is_white_lower (c : ascii) : JS.is_white (JS.char_lower c) = JS.is_white c.
Proof. destruct c as [[] [] [] [] [] [] [] []]; reflexivity. Qed.

Lemma map_chars_compose (f g : ascii -> ascii) (s : string) :
  JS.map_chars f (JS.map_chars g s) = JS.map_chars (fun c => f (g c)) s.
Proof. induction s as [|c s IH]; simpl; [done | by rewrite IH]. Qed.

Lemma map_chars_ext (f g : ascii -> ascii) (s : string) :
  (forall c, f c = g c) -> JS.map_chars f s = JS.map_chars g s.
Proof. intros H. induction s as [|c s IH]; simpl; [done | by rewrite H, IH]. Qed.

Section TrimMap.

Variable f : ascii -> ascii.
Hypothesis f_white : forall c, JS.is_white (f c) = JS.is_white c.

Lemma trimStart_map (s : string) :
  JS.trimStart (JS.map_chars f s) = JS.map_chars f (JS.trimStart s).
Proof.
  induction s as [|c s IH]; simpl; [done|].
  rewrite f_white. by destruct (JS.is_white c).
Qed.

Lemma trimEnd_map (s : string) :
  JS.trimEnd (JS.map_chars f s) = JS.map_chars f (JS.trimEnd s).
Proof.
  induction s as [|c s IH]; simpl; [done|].
  rewrite IH, f_white.
  destruct (JS.trimEnd s); simpl; [by destruct (JS.is_white c) | done].
Qed.

Lemma trim_map (s : string) : JS.trim (JS.map_chars f s) = JS.map_chars f (JS.trim s).
Proof. unfold JS.trim. by rewrite trimStart_map, trimEnd_map. Qed.

End TrimMap.

Lemma upper_folded (s : string) : JS.toUpperCase (folded s) = JS.trim (JS.toUpperCase s).
Proof.
  unfold folded, JS.toUpperCase, JS.toLowerCase.
  rewrite <- (trim_map _ is_white_upper), map_chars_compose.
  f_equal. apply map_chars_ext, char_upper_lower.
Qed.

Lemma lower_trim_upper (s : string) : JS.toLowerCase (JS.trim (JS.toUpperCase s)) = folded s.
Proof.
  unfold folded, JS.toUpperCase, JS.toLowerCase.
  rewrite <- (trim_map _ is_white_lower), map_chars_compose.
  f_equal. apply map_chars_ext, char_lower_upper.
Qed.

Lemma eqb_upper_lower (s U l : string) :
  JS.toUpperCase l = U -> JS.toLowerCase U = l ->
  String.eqb (JS.trim (JS.toUpperCase s)) U = String.eqb (folded s) l.
Proof.
  intros HU Hl.
  destruct (String.eqb_spec (folded s) l) as [E|E].
  - apply String.eqb_eq. by rewrite <- upper_folded, E.
  - apply String.eqb_neq. intros E'. apply E. by rewrite <- lower_trim_upper, E'.
Qed.

Lemma normalizeGender_agree (s : string) :
  Hl7v2Parser.normalizeGender s = CsvParser.normalizeGender s.
Proof.
  unfold Hl7v2Parser.normalizeGender, CsvParser.normalizeGender. cbv zeta.
  fold (folded s).
  rewrite (eqb_upper_lower s "M" "m"), (eqb_upper_lower s "MALE" "male"),
    (eqb_upper_lower s "F" "f"), (eqb_upper_lower s "FEMALE" "female"),
    (eqb_upper_lower s "O" "o"), (eqb_upper_lower s "OTHER" "other") by reflexivity.
  destruct (String.eqb (folded s) "m"), (String.eqb (folded s) "male"),
    (String.eqb (folded s) "f"), (String.eqb (folded s) "female"),
    (String.eqb (folded s) "o"), (String.eqb (folded s) "other"); reflexivity.
Qed.

(** C7, as stated, fails: " M " is not one of m, male, f, female, o,
    other in any letter case, yet both normalizations map it to
    [male] and not to [unknown]. *)
Lemma C7_counterexample :
  (JS.toLowerCase " M " ∉ ["m"; "male"; "f"; "female"; "o"; "other"]) /\
  Hl7v2Parser.normalizeGender " M " = male /\
  CsvParser.normalizeGender " M " = male /\
  Hl7v2Parser.normalizeGender " M " <> unknown.
Proof.
  split; [|repeat split; vm_compute; congruence].
  vm_compute. intros H. repeat (apply elem_of_cons in H as [H|H]; [discriminate|]).
  by apply elem_of_nil in H.
Qed.

(** C7, amended: sex normalization is a total function into the four
    categories, the two parsers' normalizations agree on every string,
    and the category is decided by the input with its letter case
    folded and its surrounding white space removed: m/male give male,
    f/female give female, o/other give other, and every other string
    gives unknown. *)
Theorem C7_normalizeGender_total (s : string) :
  Hl7v2Parser.normalizeGender s = CsvParser.normalizeGender s /\
  (folded s ∈ ["m"; "male"] -> CsvParser.normalizeGender s = male) /\
  (folded s ∈ ["f"; "female"] -> CsvParser.normalizeGender s = female) /\
  (folded s ∈ ["o"; "other"] -> CsvParser.normalizeGender s = other) /\
  (folded s ∉ ["m"; "male"; "f"; "female"; "o"; "other"] -> CsvParser.normalizeGender s = unknown).
Proof.
  split; [apply normalizeGender_agree|].
  unfold CsvParser.normalizeGender. cbv zeta. fold (folded s).
  repeat split; intros H.
  - repeat (apply elem_of_cons in H as [->|H]; [reflexivity|]). by apply elem_of_nil in H.
  - repeat (apply elem_of_cons in H as [->|H]; [reflexivity|]). by apply elem_of_nil in H.
  - repeat (apply elem_of_cons in H as [->|H]; [reflexivity|]). by apply elem_of_nil in H.
  - repeat match goal with
           | |- context [String.eqb (folded s) ?k] =>
               destruct (String.eqb_spec (folded s) k) as [E|_];
               [exfalso; apply H; rewrite E; set_solver|]
           end.
    reflexivity.
Qed.

Lemma C7_normalizeGender_total_witness :
  Hl7v2Parser.normalizeGender "Female" = CsvParser.normalizeGender "Female" /\
  CsvParser.normalizeGender "Female" = female.
Proof.
  destruct (C7_normalizeGender_total "Female") as (H1 & _ & H2 & _).
  split; [exact H1|]. apply H2. vm_compute. apply list_elem_of_further, list_elem_of_here.
Defined.

End Gender.

(* ================================================================== *)
(** * The patient-identity segment (hl7v2-parser.ts) *)
(* ================================================================== *)

Section PatientSegment.

Import Hl7v2Parser.

Lemma truthy_None_or_else (o : option string) (dflt : string) :
  JS.truthy o = None -> JS.or_else o dflt = dflt.
Proof. unfold JS.or_else. by intros ->. Qed.

Lemma extractPatientFromPID_total (d : JS.Date) (pid : HL7Segment) :
  is_Some (extractPatientFromPID d pid).
Proof. unfold extractPatientFromPID. eauto. Qed.

(** C2, as stated, fails: a PID segment without a name field yields
    the given name "Unknown", and without an identifier field a
    generated identifier; neither attribute is omitted. *)
Lemma C2_counterexample :
  fieldText barePID GivenName = None /\
  fieldText barePID ExternalIdentifier = None /\
  exists p, extractPatientFromPID noon barePID = Some p /\
    attribute p GivenName = Some "Unknown" /\
    attribute p ExternalIdentifier = Some "HL7-1705320000000" /\
    attribute p GivenName <> None.
Proof.
  split; [reflexivity|]. split; [reflexivity|].
  eexists. split; [reflexivity|]. repeat split; vm_compute; congruence.
Qed.

(** C2, amended: for every PID segment extraction succeeds, never
    with an error.  An absent address part (street, city, state,
    postal code) or phone leaves that attribute omitted, and a present
    one is carried as it is.  An absent given or family name is
    replaced by "Unknown", an absent external identifier by "HL7-"
    followed by the clock's milliseconds, and an absent birth date is
    the empty string. *)
Theorem C2_absent_pid_fields (d : JS.Date) (pid : HL7Segment) :
  exists p, extractPatientFromPID d pid = Some p /\
    (forall f, optionalAttribute f = true -> attribute p f = fieldText pid f) /\
    (fieldText pid GivenName = None -> firstName p = "Unknown") /\
    (fieldText pid FamilyName = None -> lastName p = "Unknown") /\
    (fieldText pid ExternalIdentifier = None -> patientId p = syntheticId d) /\
    (fieldText pid BirthDate = None -> birthDate p = "").
Proof.
  eexists. split; [reflexivity|]. cbn [firstName lastName patientId birthDate].
  split; [intros [] Hf; try discriminate Hf; reflexivity|].
  repeat split; intros H; cbn [fieldText] in H.
  - by apply truthy_None_or_else.
  - by apply truthy_None_or_else.
  - by apply truthy_None_or_else.
  - unfold field. by rewrite (truthy_None_or_else _ _ H).
Qed.

Lemma C2_absent_pid_fields_witness :
  exists p, extractPatientFromPID noon barePID = Some p /\
    attribute p Phone = None /\ attribute p City = None /\
    firstName p = "Unknown" /\ patientId p = syntheticId noon /\ birthDate p = "".
Proof.
  destruct (C2_absent_pid_fields noon barePID) as (p & Hp & Hopt & Hg & _ & Hid & Hb).
  exists p. split; [exact Hp|].
  split; [rewrite (Hopt Phone eq_refl); reflexivity|].
  split; [rewrite (Hopt City eq_refl); reflexivity|].
  split; [apply Hg; reflexivity|].
  split; [apply Hid; reflexivity | apply Hb; reflexivity].
Defined.

End PatientSegment.

(* ================================================================== *)
(** * Registration of patients, first seen wins (both parsers) *)
(* ================================================================== *)

Section Registry.

Lemma has_keys {V} (m : OrderedMap.t V) (k : string) :
  OrderedMap.has m k = true <-> k ∈ OrderedMap.keys m.
Proof.
  induction m as [|[k' v] m IH]; simpl.
  - split; [done | by intros ?%elem_of_nil].
  - rewrite orb_true_iff, IH, String.eqb_eq, elem_of_cons.
    split; intros [->|?]; auto.
Qed.

Lemma set_fresh {V} (m : OrderedMap.t V) (k : string) (v : V) :
  k ∉ OrderedMap.keys m -> OrderedMap.set m k v = m ++ [(k, v)].
Proof.
  induction m as [|[k' v'] m IH]; simpl; intros Hk; [done|].
  apply not_elem_of_cons in Hk as [Hne Hk].
  destruct (String.eqb_spec k' k) as [->|_]; [done|]. by rewrite IH.
Qed.

Lemma register_spec (p : PatientData) (m : OrderedMap.t PatientData) :
  register p m =
  if decide (patientId p ∈ OrderedMap.keys m) then m else m ++ [(patientId p, p)].
Proof.
  unfold register. destruct (OrderedMap.has m (patientId p)) eqn:E.
  - apply has_keys in E. by rewrite decide_True.
  - assert (patientId p ∉ OrderedMap.keys m) as Hn.
    { intros Hin%has_keys. congruence. }
    rewrite decide_False by done. by apply set_fresh.
Qed.

Lemma registerAll_values (cs : list (option PatientData)) (m : OrderedMap.t PatientData) :
  OrderedMap.values (registerAll cs m) =
  OrderedMap.values m ++ firstSeen (OrderedMap.keys m) cs.
Proof.
  revert m. induction cs as [|[p|] cs IH]; intros m; simpl.
  - by rewrite app_nil_r.
  - rewrite register_spec. destruct (decide (patientId p ∈ OrderedMap.keys m)).
    + apply IH.
    + rewrite IH. unfold OrderedMap.values, OrderedMap.keys.
      rewrite !map_app. simpl. by rewrite <- app_assoc.
  - apply IH.
Qed.

Lemma firstSeen_fresh (seen : list string) (cs : list (option PatientData)) (p : PatientData) :
  p ∈ firstSeen seen cs -> patientId p ∉ seen.
Proof.
  revert seen. induction cs as [|[q|] cs IH]; intros seen; simpl.
  - by intros ?%elem_of_nil.
  - destruct (decide (patientId q ∈ seen)) as [Hq|Hq]; [apply IH|].
    intros [->|Hin]%elem_of_cons; [done|].
    apply IH in Hin. intros Hs. apply Hin, elem_of_app. by left.
  - apply IH.
Qed.

Lemma firstSeen_NoDup (seen : list string) (cs : list (option PatientData)) :
  NoDup (map patientId (firstSeen seen cs)).
Proof.
  revert seen. induction cs as [|[q|] cs IH]; intros seen; simpl.
  - constructor.
  - destruct (decide (patientId q ∈ seen)); [apply IH|].
    simpl. constructor; [|apply IH].
    intros Hin. apply list_elem_of_fmap in Hin as (p & Hid & Hp).
    apply firstSeen_fresh in Hp. apply Hp. rewrite <- Hid.
    apply elem_of_app. right. apply list_elem_of_singleton. done.
  - apply IH.
Qed.

Lemma firstSeen_ids (seen : list string) (cs : list (option PatientData)) (id : string) :
  id ∈ map patientId (firstSeen seen cs) <->
  (id ∉ seen) /\ exists q, Some q ∈ cs /\ patientId q = id.
Proof.
  revert seen. induction cs as [|[q|] cs IH]; intros seen; simpl.
  - split; [by intros ?%elem_of_nil | by intros (_ & q & ?%elem_of_nil & _)].
  - destruct (decide (patientId q ∈ seen)) as [Hq|Hq].
    + rewrite IH. split; intros (Hs & r & Hr & Hid); (split; [done|]).
      * exists r. split; [by apply elem_of_cons; right | done].
      * apply elem_of_cons in Hr as [[= <-]|Hr]; [congruence|]. by exists r.
    + simpl. rewrite elem_of_cons, IH. split.
      * intros [->|(Hs & r & Hr & Hid)].
        -- split; [done|]. exists q. split; [apply list_elem_of_here | done].
        -- split; [intros ?; apply Hs, elem_of_app; by left|].
           exists r. split; [by apply elem_of_cons; right | done].
      * intros (Hs & r & Hr & Hid).
        destruct (decide (id = patientId q)) as [|Hne]; [by left|]. right.
        split.
        -- intros [?|?%list_elem_of_singleton]%elem_of_app; done.
        -- apply elem_of_cons in Hr as [[= <-]|Hr]; [congruence|]. by exists r.
  - rewrite IH. split; intros (Hs & r & Hr & Hid); (split; [done|]); exists r.
    + split; [by apply elem_of_cons; right | done].
    + apply elem_of_cons in Hr as [?|Hr]; [done|]. done.
Qed.

(** Every kept patient is the first offer that carries its identifier. *)
Lemma firstSeen_first (seen : list string) (cs : list (option PatientData)) (p : PatientData) :
  p ∈ firstSeen seen cs ->
  exists i, cs !! i = Some (Some p) /\
    forall j q, j < i -> cs !! j = Some (Some q) -> patientId q <> patientId p.
Proof.
  revert seen. induction cs as [|[q|] cs IH]; intros seen; simpl.
  - by intros ?%elem_of_nil.
  - destruct (decide (patientId q ∈ seen)) as [Hq|Hq].
    + intros Hp. pose proof (firstSeen_fresh _ _ _ Hp) as Hfresh.
      destruct (IH _ Hp) as (i & Hi & Hfirst). exists (S i). split; [done|].
      intros [|j] r Hj Hr; simpl in Hr.
      * injection Hr as <-. congruence.
      * apply (Hfirst j); [lia | done].
    + intros [->|Hp]%elem_of_cons.
      * exists 0. split; [done|]. intros j r Hj. lia.
      * pose proof (firstSeen_fresh _ _ _ Hp) as Hfresh.
        destruct (IH _ Hp) as (i & Hi & Hfirst). exists (S i). split; [done|].
        intros [|j] r Hj Hr; simpl in Hr.
        -- injection Hr as <-. intros E. apply Hfresh. rewrite <- E.
           apply elem_of_app. right. by apply list_elem_of_singleton.
        -- apply (Hfirst j); [lia | done].
  - intros Hp. destruct (IH _ Hp) as (i & Hi & Hfirst). exists (S i). split; [done|].
    intros [|j] r Hj Hr; simpl in Hr; [done|]. apply (Hfirst j); [lia | done].
Qed.

(** The loop of either parser registers what its iterations offer. *)
Section Loop.

Context {A : Type}.
Variable clock : nat -> JS.Date.
Variable body : JS.Date -> A -> ParserState -> ParserState.
Variable offer : JS.Date -> A -> option PatientData.
Hypothesis body_registers : forall d x st,
  patientsMap (body d x st) =
  match offer d x with Some p => register p (patientsMap st) | None => patientsMap st end.

Lemma offers_cons (i : nat) (x : A) (items : list A) :
  offers clock offer i (x :: items) = offer (clock i) x :: offers clock offer (S i) items.
Proof.
  unfold offers. rewrite imap_cons. f_equal; [by rewrite Nat.add_0_r|].
  apply imap_ext. intros j y _. simpl. f_equal. f_equal. lia.
Qed.

Lemma for_of_patientsMap (i : nat) (items : list A) (st : ParserState) :
  patientsMap (for_of clock body i items st) = registerAll (offers clock offer i items) (patientsMap st).
Proof.
  revert i st. induction items as [|x items IH]; intros i st; [done|].
  rewrite offers_cons. simpl. rewrite IH, body_registers. done.
Qed.

Lemma for_of_patients (items : list A) :
  patients (finish (for_of clock body 0 items initialState)) = firstSeen [] (offers clock offer 0 items).
Proof.
  unfold finish. simpl. by rewrite for_of_patientsMap, registerAll_values.
Qed.

End Loop.

End Registry.

(* ================================================================== *)
(** * Deduplication is lossless on identity (both parsers) *)
(* ================================================================== *)

Section Dedup.

Lemma losslessOnIdentity_intro (ids : list string) (out : list PatientData) :
  NoDup (map patientId out) ->
  (forall id, id ∈ map patientId out <-> id ∈ ids) ->
  losslessOnIdentity ids out.
Proof.
  intros Hnd Hiff. split; [done|]. split; [done|].
  apply Permutation_length, NoDup_Permutation; try apply NoDup_remove_dups.
  intros x. by rewrite !elem_of_remove_dups.
Qed.

(** ** Tabular input *)

Lemma rowBody_registers d row st :
  patientsMap (CsvParser.rowBody d row st) =
  match rowOffer d row with Some p => register p (patientsMap st) | None => patientsMap st end.
Proof. reflexivity. Qed.

Lemma row_offers_lookup clock (records : list CsvParser.CSVRow) (i : nat) :
  offers clock rowOffer 0 records !! i = (fun r => Some (CsvParser.patientOfRow r)) <$> records !! i.
Proof. unfold offers. by rewrite list_lookup_imap. Qed.

Lemma parseRecords_dedup clock (records : list CsvParser.CSVRow) :
  let out := patients (CsvParser.parseRecords clock records) in
  losslessOnIdentity (map CsvParser.patient_id records) out /\
  forall p, p ∈ out ->
    exists i row, records !! i = Some row /\ p = CsvParser.patientOfRow row /\
      forall j r, j < i -> records !! j = Some r ->
                  CsvParser.patient_id r <> patientId p.
Proof.
  intros out. subst out. unfold CsvParser.parseRecords.
  rewrite (for_of_patients clock _ rowOffer rowBody_registers).
  split.
  - apply losslessOnIdentity_intro; [apply firstSeen_NoDup|].
    intros id. rewrite firstSeen_ids. split.
    + intros (_ & q & Hq & <-).
      apply list_elem_of_lookup in Hq as [i Hi]. rewrite row_offers_lookup in Hi.
      destruct (records !! i) as [row|] eqn:Hrow; [|done].
      injection Hi as <-. apply list_elem_of_fmap. exists row.
      split; [done | by eapply list_elem_of_lookup_2].
    + intros (row & -> & Hrow)%list_elem_of_fmap. split; [by intros ?%elem_of_nil|].
      exists (CsvParser.patientOfRow row). split; [|done].
      apply list_elem_of_lookup in Hrow as [i Hi]. apply list_elem_of_lookup.
      exists i. by rewrite row_offers_lookup, Hi.
  - intros p Hp. apply firstSeen_first in Hp as (i & Hi & Hfirst).
    rewrite row_offers_lookup in Hi.
    destruct (records !! i) as [row|] eqn:Hrow; [|done].
    injection Hi as <-. exists i, row. split; [done|]. split; [done|].
    intros j r Hj Hr. apply (Hfirst j (CsvParser.patientOfRow r) Hj).
    by rewrite row_offers_lookup, Hr.
Qed.

(** ** Segmented input *)

Import Hl7v2Parser.

Lemma messageBody_registers d msg st :
  patientsMap (messageBody d msg st) =
  match messageOffer d msg with Some p => register p (patientsMap st) | None => patientsMap st end.
Proof.
  unfold messageBody, messageOffer, pidOf.
  destruct (findSegment "PID" (parseHL7Message msg)) as [pid|]; [|done].
  by destruct (extractPatientFromPID d pid).
Qed.

Lemma message_offers_lookup clock (msgs : list string) (i : nat) :
  offers clock messageOffer 0 msgs !! i = (fun m => messageOffer (clock i) m) <$> msgs !! i.
Proof. unfold offers. by rewrite list_lookup_imap. Qed.

Lemma messageOffer_inv d msg p :
  messageOffer d msg = Some p ->
  exists pid, pidOf msg = Some pid /\ extractPatientFromPID d pid = Some p.
Proof. unfold messageOffer. destruct (pidOf msg) as [pid|]; [eauto | done]. Qed.

Lemma messageOffer_identifier d msg p :
  messageOffer d msg = Some p ->
  exists raw, messageIdentifier msg = Some raw /\ (raw <> "" -> patientId p = raw).
Proof.
  unfold messageOffer, messageIdentifier. destruct (pidOf msg) as [pid|]; [|done].
  intros [= <-]. cbn [patientId]. unfold component, JS.at_index.
  destruct (JS.split "^" (field pid 2)) as [|raw rest] eqn:E.
  - by destruct (field pid 2) as [|c s]; simpl in E; repeat case_match.
  - exists raw. split; [done|]. intros Hraw. simpl. by destruct raw.
Qed.

Lemma messageIdentifier_offer d msg raw :
  messageIdentifier msg = Some raw -> raw <> "" ->
  exists p, messageOffer d msg = Some p /\ patientId p = raw.
Proof.
  unfold messageOffer, messageIdentifier. destruct (pidOf msg) as [pid|]; [|done].
  intros Hraw Hne. eexists. split; [reflexivity|]. cbn [patientId].
  rewrite Hraw. by destruct raw.
Qed.

Lemma parseHL7v2_dedup clock (content : string) :
  (forall msg, msg ∈ splitMessages content -> messageIdentifier msg <> Some "") ->
  let out := patients (parseHL7v2 clock content) in
  losslessOnIdentity (inputIdentifiers content) out /\
  forall p, p ∈ out ->
    exists i msg pid, splitMessages content !! i = Some msg /\
      pidOf msg = Some pid /\ extractPatientFromPID (clock i) pid = Some p /\
      forall j m, j < i -> splitMessages content !! j = Some m ->
                  messageIdentifier m <> Some (patientId p).
Proof.
  intros Hids out. subst out. unfold parseHL7v2, parseMessages, inputIdentifiers.
  set (msgs := splitMessages content) in *.
  rewrite (for_of_patients clock _ messageOffer messageBody_registers).
  split.
  - apply losslessOnIdentity_intro; [apply firstSeen_NoDup|].
    intros id. rewrite firstSeen_ids, list_elem_of_omap. split.
    + intros (_ & q & Hq & <-).
      apply list_elem_of_lookup in Hq as [i Hi]. rewrite message_offers_lookup in Hi.
      destruct (msgs !! i) as [msg|] eqn:Hmsg; [|done]. injection Hi as Hi.
      apply list_elem_of_lookup_2 in Hmsg.
      destruct (messageOffer_identifier _ _ _ Hi) as (raw & Hraw & Hid).
      exists msg. split; [done|]. rewrite Hraw. f_equal. symmetry. apply Hid.
      intros ->. by apply (Hids msg).
    + intros (msg & Hmsg & Hraw). split; [by intros ?%elem_of_nil|].
      apply list_elem_of_lookup in Hmsg as [i Hi].
      destruct (messageIdentifier_offer (clock i) msg id Hraw) as (p & Hp & Hpid).
      { intros ->. apply (Hids msg); [by eapply list_elem_of_lookup_2 | done]. }
      exists p. split; [|done]. apply list_elem_of_lookup. exists i.
      by rewrite message_offers_lookup, Hi; simpl; rewrite Hp.
  - intros p Hp. apply firstSeen_first in Hp as (i & Hi & Hfirst).
    rewrite message_offers_lookup in Hi.
    destruct (msgs !! i) as [msg|] eqn:Hmsg; [|done]. injection Hi as Hi.
    destruct (messageOffer_inv _ _ _ Hi) as (pid & Hpid & Hex).
    exists i, msg, pid. repeat split; try done.
    intros j m Hj Hm Hraw.
    destruct (messageIdentifier_offer (clock j) m _ Hraw) as (q & Hq & Hqid).
    { intros E. rewrite E in Hraw. apply (Hids m); [by eapply list_elem_of_lookup_2 | done]. }
    apply (Hfirst j q Hj); [|done]. by rewrite message_offers_lookup, Hm; simpl; rewrite Hq.
Qed.

(** C3, as stated, fails: two messages whose identifier field has an
    empty first component and which are read one millisecond apart
    give two patients with two distinct identifiers, neither of which
    occurs in the input, whose only (empty) identifier is one. *)
Lemma C3_counterexample :
  inputIdentifiers twoAnonymous = [""; ""] /\
  map patientId (patients (parseHL7v2 tick twoAnonymous)) =
    ["HL7-1705320000000"; "HL7-1705320000001"] /\
  length (remove_dups (map patientId (patients (parseHL7v2 tick twoAnonymous)))) <>
  length (remove_dups (inputIdentifiers twoAnonymous)).
Proof. repeat split; vm_compute; congruence. Qed.

(** C3, amended: for every tabular input, and for every segmented
    input in which each message that has a PID segment has a nonempty
    first component in its identifier field, the output patients carry
    exactly the identifiers of the input, each once, so the counts of
    distinct identifiers agree; and each output patient is the one
    built from the first row, or extracted from the first message,
    that carries its identifier. *)
Theorem C3_dedup_first_seen :
  (forall parse clock content records,
     parse content = Some records ->
     exists out, CsvParser.parseCSV parse clock content = Some out /\
       losslessOnIdentity (map CsvParser.patient_id records) (patients out) /\
       forall p, p ∈ patients out ->
         exists i row, records !! i = Some row /\ p = CsvParser.patientOfRow row /\
           forall j r, j < i -> records !! j = Some r ->
                       CsvParser.patient_id r <> patientId p) /\
  (forall clock content,
     (forall msg, msg ∈ splitMessages content -> messageIdentifier msg <> Some "") ->
     losslessOnIdentity (inputIdentifiers content) (patients (parseHL7v2 clock content)) /\
     forall p, p ∈ patients (parseHL7v2 clock content) ->
       exists i msg pid, splitMessages content !! i = Some msg /\
         pidOf msg = Some pid /\ extractPatientFromPID (clock i) pid = Some p /\
         forall j m, j < i -> splitMessages content !! j = Some m ->
                     messageIdentifier m <> Some (patientId p)).
Proof.
  split.
  - intros parse clock content records Hparse. unfold CsvParser.parseCSV. rewrite Hparse.
    eexists. split; [reflexivity|]. apply parseRecords_dedup.
  - intros clock content Hids. by apply parseHL7v2_dedup.
Qed.

Lemma C3_dedup_first_seen_witness :
  (exists out, CsvParser.parseCSV (fun _ => Some csvRows) tick "" = Some out /\
     losslessOnIdentity ["P001"; "P002"; "P001"] (patients out)) /\
  losslessOnIdentity (inputIdentifiers sameTwice) (patients (parseHL7v2 tick sameTwice)).
Proof.
  destruct C3_dedup_first_seen as [Hcsv Hhl7]. split.
  - destruct (Hcsv (fun _ => Some csvRows) tick "" csvRows eq_refl) as (out & Hout & Hl & _).
    exists out. split; [exact Hout | exact Hl].
  - apply Hhl7. intros msg Hin.
    let v := eval vm_compute in (splitMessages sameTwice) in
    change (splitMessages sameTwice) with v in Hin.
    apply elem_of_cons in Hin as [->|Hin]; [vm_compute; discriminate|].
    apply elem_of_cons in Hin as [->|Hin]; [vm_compute; discriminate|].
    by apply elem_of_nil in Hin.
Defined.

End Dedup.

(* ================================================================== *)
(** * Messages without a patient-identity segment (hl7v2-parser.ts) *)
(* ================================================================== *)

Section SkippedMessage.

Import Hl7v2Parser.

Lemma for_of_app {A St} clock (body : JS.Date -> A -> St -> St) i (l1 l2 : list A) st :
  for_of clock body i (l1 ++ l2) st =
  for_of clock body (i + length l1) l2 (for_of clock body i l1 st).
Proof.
  revert i st. induction l1 as [|x l1 IH]; intros i st; simpl.
  - by rewrite Nat.add_0_r.
  - rewrite IH. f_equal. lia.
Qed.

Lemma for_of_ext {A St} clock1 clock2 (body : JS.Date -> A -> St -> St) i1 i2 (l : list A) st :
  (forall j, j < length l -> clock1 (i1 + j) = clock2 (i2 + j)) ->
  for_of clock1 body i1 l st = for_of clock2 body i2 l st.
Proof.
  revert i1 i2 st. induction l as [|x l IH]; intros i1 i2 st Hc; simpl; [done|].
  assert (clock1 i1 = clock2 i2) as ->.
  { specialize (Hc 0). rewrite !Nat.add_0_r in Hc. apply Hc. simpl. lia. }
  apply IH. intros j Hj. specialize (Hc (S j)). rewrite !Nat.add_succ_r in Hc.
  simpl. apply Hc. simpl. lia.
Qed.

Lemma messageBody_skip d msg st : pidOf msg = None -> messageBody d msg st = st.
Proof. unfold messageBody, pidOf. by intros ->. Qed.

Lemma parseMessages_skip clock (before after : list string) (msg : string) :
  pidOf msg = None ->
  parseMessages clock (before ++ msg :: after) =
  parseMessages (skipReading clock (length before)) (before ++ after).
Proof.
  intros Hpid. unfold parseMessages. f_equal.
  rewrite !for_of_app. simpl. rewrite messageBody_skip by done.
  rewrite (for_of_ext clock (skipReading clock (length before)) _ 0 0 before).
  - apply for_of_ext. intros j _. unfold skipReading.
    destruct (Nat.ltb_spec (length before + j) (length before)); [lia | done].
  - intros j Hj. unfold skipReading. simpl.
    destruct (Nat.ltb_spec j (length before)); [done | lia].
Qed.

(** The scenario of the specification: only the first message's
    patient and observation appear. *)
Example ackSecond_parsed :
  map patientId (patients (parseHL7v2 tick ackSecond)) = ["P001"] /\
  map observationValue (observations (parseHL7v2 tick ackSecond)) =
    [NumberValue (JS.Fin false 72 0)].
Proof. split; vm_compute; reflexivity. Qed.

End SkippedMessage.

(* ================================================================== *)
(** * The generated identifier (hl7v2-parser.ts) *)
(* ================================================================== *)

Section SyntheticIdentifier.

Import Hl7v2Parser.

Lemma decimal_inj (n m : N) : JS.decimal n = JS.decimal m -> n = m.
Proof.
  unfold JS.decimal. intros H.
  apply DecimalN.Unsigned.to_uint_inj.
  assert (Some (N.to_uint n) = Some (N.to_uint m)) as [= E]; [|done].
  by rewrite <- !NilEmpty.usu, H.
Qed.

Lemma syntheticId_inj (d1 d2 : JS.Date) :
  syntheticId d1 = syntheticId d2 -> JS.now d1 = JS.now d2.
Proof. unfold syntheticId. intros H. apply decimal_inj. by simplify_eq. Qed.

Lemma messageOffer_synthetic d msg :
  messageIdentifier msg = Some "" ->
  exists p, messageOffer d msg = Some p /\ patientId p = syntheticId d.
Proof.
  unfold messageOffer, messageIdentifier. destruct (pidOf msg) as [pid|]; [|done].
  intros Hraw. eexists. split; [reflexivity|]. cbn [patientId]. by rewrite Hraw.
Qed.

(** C10, as stated, fails on [claimedThenAnonymous] read with [tick]:
    the second message has an empty identifier field, its patient
    (Jane) gets the generated identifier "HL7-1705320000001", which the
    first message carries as its own; so the identifier does occur in
    the input, and the second message's patient is not registered: the
    output holds the first message's patient (John) alone.  With a
    clock that stands still, the two anonymous messages of
    [twoAnonymous] get one identifier and leave one patient. *)
Lemma C10_counterexample :
  splitMessages claimedThenAnonymous !! 1 = Some anonymousJane /\
  messageIdentifier anonymousJane = Some "" /\
  (exists p, messageOffer (tick 1) anonymousJane = Some p /\
     patientId p = "HL7-1705320000001" /\
     firstName p = "Jane" /\
     p ∉ patients (parseHL7v2 tick claimedThenAnonymous)) /\
  map firstName (patients (parseHL7v2 tick claimedThenAnonymous)) = ["John"] /\
  "HL7-1705320000001" ∈ inputIdentifiers claimedThenAnonymous /\
  length (splitMessages twoAnonymous) = 2 /\
  map patientId (patients (parseHL7v2 frozen twoAnonymous)) = ["HL7-1705320000000"].
Proof.
  assert (Hnames : map firstName (patients (parseHL7v2 tick claimedThenAnonymous)) = ["John"])
    by (vm_compute; reflexivity).
  split; [vm_compute; reflexivity|]. split; [vm_compute; reflexivity|].
  split; [|split; [exact Hnames|split; [|split; vm_compute; reflexivity]]].
  - eexists. split; [vm_compute; reflexivity|].
    split; [vm_compute; reflexivity|]. split; [reflexivity|].
    intros Hin. apply (list_elem_of_fmap_2 firstName) in Hin.
    match type of Hin with
    | ?x ∈ _ =>
        change (x ∈ map firstName (patients (parseHL7v2 tick claimedThenAnonymous))) in Hin
    end.
    rewrite Hnames in Hin.
    apply list_elem_of_singleton in Hin. discriminate.
  - vm_compute. apply list_elem_of_here.
Qed.

(** C10: a message whose PID segment has an empty identifier field,
    or an empty first component in it, still yields a patient, whose
    identifier is "HL7-" followed by the milliseconds of the clock.
    The output holds exactly the patient of the first message that
    yields this identifier: the message's own patient if no earlier
    message yields it, an earlier message's patient otherwise.  The
    identifier is not the (empty) one of the message, and two runs
    whose clocks differ at that message give it different
    identifiers. *)
Theorem C10_synthetic_identifier clock (content : string) (i : nat) (msg : string) :
  splitMessages content !! i = Some msg ->
  messageIdentifier msg = Some "" ->
  exists p, messageOffer (clock i) msg = Some p /\
    patientId p = "HL7-" +:+ JS.decimal (JS.now (clock i)) /\
    patientId p ∈ map patientId (patients (parseHL7v2 clock content)) /\
    ((forall j m q, j < i -> splitMessages content !! j = Some m ->
        messageOffer (clock j) m = Some q -> patientId q <> patientId p) ->
     p ∈ patients (parseHL7v2 clock content)) /\
    (exists k m q, k <= i /\ splitMessages content !! k = Some m /\
       messageOffer (clock k) m = Some q /\ patientId q = patientId p /\
       (forall j m' r, j < k -> splitMessages content !! j = Some m' ->
          messageOffer (clock j) m' = Some r -> patientId r <> patientId p) /\
       forall r, r ∈ patients (parseHL7v2 clock content) ->
         patientId r = patientId p -> r = q) /\
    messageIdentifier msg <> Some (patientId p) /\
    forall clock' p', JS.now (clock' i) <> JS.now (clock i) ->
      messageOffer (clock' i) msg = Some p' -> patientId p' <> patientId p.
Proof.
  intros Hmsg Hraw.
  destruct (messageOffer_synthetic (clock i) msg Hraw) as (p & Hp & Hid).
  exists p. split; [done|]. split; [done|].
  unfold parseHL7v2, parseMessages.
  rewrite (for_of_patients clock _ messageOffer messageBody_registers).
  set (msgs := splitMessages content) in *.
  assert (Hoffer : offers clock messageOffer 0 msgs !! i = Some (Some p)).
  { by rewrite message_offers_lookup, Hmsg; simpl; rewrite Hp. }
  assert (Hin : patientId p ∈ map patientId (firstSeen [] (offers clock messageOffer 0 msgs))).
  { apply firstSeen_ids. split; [by intros ?%elem_of_nil|].
    exists p. split; [by eapply list_elem_of_lookup_2 | done]. }
  pose proof Hin as Hin'.
  apply list_elem_of_fmap in Hin' as (q & Hqid & Hq).
  destruct (firstSeen_first _ _ _ Hq) as (k & Hk & Hk_first).
  assert (Hki : k <= i).
  { destruct (Nat.le_gt_cases k i) as [|Hgt]; [done|].
    exfalso. by apply (Hk_first i p Hgt Hoffer). }
  split; [done|]. split; [|split; [|split]].
  - intros Hfirst.
    destruct (Nat.eq_dec k i) as [->|Hne].
    + rewrite Hoffer in Hk. by injection Hk as <-.
    + exfalso. rewrite message_offers_lookup in Hk.
      destruct (msgs !! k) as [m|] eqn:Hm; [|done]. injection Hk as Hk.
      apply (Hfirst k m q); [lia | done | done | done].
  - pose proof Hk as Hk'. rewrite message_offers_lookup in Hk'.
    destruct (msgs !! k) as [m|] eqn:Hm; [|done]. injection Hk' as Hk'.
    exists k, m, q. split; [done|]. split; [done|]. split; [done|]. split; [done|].
    split.
    + intros j m' r Hj Hm' Hr. rewrite Hqid.
      apply (Hk_first j r Hj). by rewrite message_offers_lookup, Hm'; simpl; rewrite Hr.
    + intros r Hr Hrid.
      pose proof (firstSeen_NoDup [] (offers clock messageOffer 0 msgs)) as Hnd.
      apply list_elem_of_lookup in Hr as (a & Ha).
      apply list_elem_of_lookup in Hq as (b & Hb).
      assert (a = b) as ->; [|congruence].
      apply (NoDup_lookup _ a b (patientId r) Hnd).
      * by rewrite list_lookup_fmap, Ha.
      * rewrite list_lookup_fmap, Hb. simpl. congruence.
  - rewrite Hraw, Hid. unfold syntheticId. discriminate.
  - intros clock' p' Hnow Hp'.
    destruct (messageOffer_synthetic (clock' i) msg Hraw) as (p'' & Hp'' & Hid'').
    rewrite Hp' in Hp''. injection Hp'' as <-.
    rewrite Hid, Hid''. intros E%syntheticId_inj. done.
Qed.

Lemma C10_synthetic_identifier_witness :
  exists p, messageOffer (tick 1) "MSH|^~\&|App|Fac|App|Fac|20240116||ADT|2|P|2.5
PID|1||^^^Hospital" = Some p /\
    patientId p = "HL7-1705320000001" /\
    patientId p ∈ map patientId (patients (parseHL7v2 tick twoAnonymous)).
Proof.
  destruct (C10_synthetic_identifier tick twoAnonymous 1
              "MSH|^~\&|App|Fac|App|Fac|20240116||ADT|2|P|2.5
PID|1||^^^Hospital") as (p & Hp & Hid & Hin & _).
  - vm_compute. reflexivity.
  - vm_compute. reflexivity.
  - exists p. split; [exact Hp|]. split; [|exact Hin].
    rewrite Hid. vm_compute. reflexivity.
Defined.

End SyntheticIdentifier.

(* ================================================================== *)
(** * The bundle builder (fhir-mapper.ts) *)
(* ================================================================== *)

Section Bundle.

Import FhirMapper.

Lemma uuid_string_nonempty (u : N) : JS.uuid_string u <> "".
Proof. cbv [JS.uuid_string JS.hex_run String.append]. discriminate. Qed.

Lemma truthy_nonempty (v : string) : v <> "" -> JS.truthy (Some v) = Some v.
Proof. by destruct v. Qed.

Section Generator.

Variable uuidv4 : nat -> N.

Lemma patientEntries_cons c p ps :
  patientEntries uuidv4 c (p :: ps) =
  patientEntry (JS.uuid_string (uuidv4 c)) p :: patientEntries uuidv4 (S c) ps.
Proof.
  unfold patientEntries. rewrite imap_cons, Nat.add_0_r. f_equal.
  apply imap_ext. intros j q _. simpl. do 3 f_equal. lia.
Qed.

Lemma observationEntries_cons m c o os :
  observationEntries uuidv4 m c (o :: os) =
  observationEntry (JS.uuid_string (uuidv4 c)) (default "" (m !! observationPatientId o)) o
    :: observationEntries uuidv4 m (S c) os.
Proof.
  unfold observationEntries. rewrite imap_cons, Nat.add_0_r. f_equal.
  apply imap_ext. intros j q _. simpl. do 3 f_equal. lia.
Qed.

Lemma fold_addPatient (ps : list PatientData) (b : Builder) :
  let b' := fold_left (addPatient uuidv4) ps b in
  calls b' = calls b + length ps /\
  entries b' = entries b ++ patientEntries uuidv4 (calls b) ps /\
  (forall k, is_Some (patientUUIDs b' !! k) <->
             is_Some (patientUUIDs b !! k) \/ k ∈ map patientId ps) /\
  (nonemptyValues (patientUUIDs b) -> nonemptyValues (patientUUIDs b')).
Proof.
  revert b. induction ps as [|p ps IH]; intros b; simpl.
  - rewrite Nat.add_0_r, app_nil_r. repeat split; try done.
    + by left.
    + by intros [?|?%elem_of_nil].
  - destruct (IH (addPatient uuidv4 b p)) as (Hc & He & Hd & Hn). simpl in *.
    rewrite Hc, He, patientEntries_cons. repeat split.
    + lia.
    + by rewrite <- app_assoc.
    + rewrite Hd. intros [Hk|Hk].
      * destruct (decide (patientId p = k)) as [->|Hne].
        -- right. apply list_elem_of_here.
        -- rewrite lookup_insert_ne in Hk by done. by left.
      * right. by apply list_elem_of_further.
    + rewrite Hd. intros [Hk|[->|Hk]%elem_of_cons].
      * left. destruct (decide (patientId p = k)) as [->|Hne].
        -- rewrite lookup_insert_eq. eauto.
        -- by rewrite lookup_insert_ne.
      * left. rewrite lookup_insert_eq. eauto.
      * by right.
    + intros Hb. apply Hn. intros k v.
      destruct (decide (patientId p = k)) as [->|Hne].
      * rewrite lookup_insert_eq. intros [= <-]. apply uuid_string_nonempty.
      * rewrite lookup_insert_ne by done. apply Hb.
Qed.

Lemma fold_addObservation (os : list ObservationData) (b : Builder) :
  nonemptyValues (patientUUIDs b) ->
  entries (fold_left (addObservation uuidv4) os b) =
  entries b ++
  observationEntries uuidv4 (patientUUIDs b) (calls b)
    (filter (fun o => is_Some (patientUUIDs b !! observationPatientId o)) os).
Proof.
  intros Hn. revert b Hn. induction os as [|o os IH]; intros b Hn; simpl.
  - by rewrite app_nil_r.
  - unfold addObservation at 2.
    destruct (patientUUIDs b !! observationPatientId o) as [v|] eqn:Hv.
    + rewrite truthy_nonempty by (by eapply Hn).
      rewrite IH by done. simpl.
      rewrite filter_cons_True by (rewrite Hv; eauto).
      rewrite observationEntries_cons, Hv. simpl. by rewrite <- app_assoc.
    + simpl. rewrite IH by done.
      rewrite filter_cons_False; [done|]. rewrite Hv. by intros [? ?].
Qed.

(** The entries of the built bundle: the patients' in input order,
    then those of the observations with a resolvable owner, in input
    order. *)
Lemma createFHIRBundle_entries (data : ParsedData) :
  entry (createFHIRBundle uuidv4 data) =
  patientEntries uuidv4 0 (patients data) ++
  observationEntries uuidv4 (assigned uuidv4 (patients data)) (length (patients data)) (retained data).
Proof.
  unfold createFHIRBundle. cbn [entry]. fold initialBuilder.
  destruct (fold_addPatient (patients data) initialBuilder) as (Hc & He & Hd & Hn).
  cbv zeta in *. rewrite fold_addObservation.
  - rewrite He, Hc. simpl. f_equal. unfold assigned, retained. f_equal.
    apply list_filter_iff. intros o. rewrite Hd. unfold resolvable. simpl.
    split; [intros [[? ?]|?]; done | by right].
  - apply Hn. intros k v. simpl. by rewrite lookup_empty.
Qed.

Lemma directives_entries (data : ParsedData) :
  directives (createFHIRBundle uuidv4 data) =
  map patientDirective (patients data) ++ map observationDirective (retained data).
Proof.
  unfold directives. rewrite createFHIRBundle_entries, map_app. f_equal.
  - unfold patientEntries. generalize 0.
    induction (patients data) as [|p ps IH]; intros c; [done|].
    rewrite imap_cons. simpl. f_equal.
    rewrite <- (IH (S c)). f_equal. apply imap_ext. intros j q _. simpl. do 3 f_equal. lia.
  - unfold observationEntries. generalize (length (patients data)).
    induction (retained data) as [|o os IH]; intros c; [done|].
    rewrite imap_cons. simpl. f_equal.
    rewrite <- (IH (S c)). f_equal. apply imap_ext. intros j q _. simpl. do 3 f_equal. lia.
Qed.

Lemma patientEntries_Forall2 c ps :
  Forall2 (fun e p => exists uuid, e = patientEntry uuid p) (patientEntries uuidv4 c ps) ps.
Proof.
  revert c. induction ps as [|p ps IH]; intros c; [constructor|].
  rewrite patientEntries_cons. constructor; [eauto | apply IH].
Qed.

Lemma observationEntries_Forall2 m c os :
  Forall2 (fun e o => exists uuid patientUUID, e = observationEntry uuid patientUUID o)
          (observationEntries uuidv4 m c os) os.
Proof.
  revert c. induction os as [|o os IH]; intros c; [constructor|].
  rewrite observationEntries_cons. constructor; [eauto | apply IH].
Qed.

End Generator.

Lemma bundle_eq (b b' : FHIRBundle) :
  resourceType b = resourceType b' -> type b = type b' -> entry b = entry b' -> b = b'.
Proof. destruct b, b'. simpl. by intros -> -> ->. Qed.

Lemma entry_provenance uuidv4 (data : ParsedData) (e : BundleEntry) :
  e ∈ entry (createFHIRBundle uuidv4 data) ->
  (exists uuid p, p ∈ patients data /\ e = patientEntry uuid p) \/
  (exists uuid patientUUID o, o ∈ retained data /\ e = observationEntry uuid patientUUID o).
Proof.
  rewrite createFHIRBundle_entries. intros [He|He]%elem_of_app.
  - left. apply list_elem_of_lookup in He as [i Hi].
    destruct (Forall2_lookup_l _ _ _ _ _ (patientEntries_Forall2 uuidv4 0 (patients data)) Hi)
      as (p & Hp & uuid & ->).
    exists uuid, p. split; [by eapply list_elem_of_lookup_2 | done].
  - right. apply list_elem_of_lookup in He as [i Hi].
    destruct (Forall2_lookup_l _ _ _ _ _
                (observationEntries_Forall2 uuidv4 _ _ (retained data)) Hi)
      as (o & Ho & uuid & patientUUID & ->).
    exists uuid, patientUUID, o. split; [by eapply list_elem_of_lookup_2 | done].
Qed.

(** C4: an observation whose owner is not among the patients leaves
    no entry in the bundle (every entry stems from a patient or from an
    observation with a resolvable owner, and the bundle is the one
    built without the orphan), and the number of entries is the number
    of patients plus the number of observations whose owner is among
    them. *)
Theorem C4_orphans_dropped (uuidv4 : nat -> N) (data : ParsedData) :
  length (entry (createFHIRBundle uuidv4 data)) =
    length (patients data) + length (retained data) /\
  (forall e, e ∈ entry (createFHIRBundle uuidv4 data) ->
     (exists uuid p, p ∈ patients data /\ e = patientEntry uuid p) \/
     (exists uuid patientUUID o,
        o ∈ observations data /\ resolvable (patients data) o /\
        e = observationEntry uuid patientUUID o)) /\
  (forall before o after,
     observations data = before ++ o :: after ->
     ~ resolvable (patients data) o ->
     createFHIRBundle uuidv4 data =
     createFHIRBundle uuidv4 {| patients := patients data; observations := before ++ after |}).
Proof.
  split; [|split].
  - rewrite createFHIRBundle_entries, length_app.
    unfold patientEntries, observationEntries. by rewrite !length_imap.
  - intros e He. destruct (entry_provenance _ _ _ He) as [?|(u & r & o & Ho & ->)]; [by left|].
    right. apply list_elem_of_filter in Ho as [Hres Ho]. by exists u, r, o.
  - intros before o after Hobs Horphan. apply bundle_eq; try done.
    rewrite !createFHIRBundle_entries. unfold retained. cbn [patients observations].
    rewrite Hobs, !filter_app, filter_cons_False by done. done.
Qed.

Lemma C4_orphans_dropped_witness :
  length (entry (createFHIRBundle ascending twoPatientsThreeReadings)) = 4 /\
  createFHIRBundle ascending twoPatientsThreeReadings =
  createFHIRBundle ascending
    {| patients := [patientNamed "P001"; patientNamed "P002"];
       observations := [reading "P001" "72"; reading "P002" "68"] |}.
Proof.
  destruct (C4_orphans_dropped ascending twoPatientsThreeReadings) as (Hlen & _ & Hdrop).
  split; [exact Hlen|].
  apply (Hdrop [reading "P001" "72"] (reading "P999" "80") [reading "P002" "68"]).
  - reflexivity.
  - vm_compute. intros H. inversion H as [|? ? ? H']; subst.
    inversion H' as [|? ? ? H'']; subst. inversion H''.
Defined.

(** C5: two runs of the builder on the same parsed data, whatever
    identities the generator hands out in each, give the same sequence
    of create-if-absent conditions: the patients' identifiers under the
    patient namespace, then the composite identifiers of the retained
    observations under the observation namespace. *)
Theorem C5_directives_repeatable (uuidv4 uuidv4' : nat -> N) (data : ParsedData) :
  directives (createFHIRBundle uuidv4 data) = directives (createFHIRBundle uuidv4' data) /\
  directives (createFHIRBundle uuidv4 data) =
    map patientDirective (patients data) ++ map observationDirective (retained data).
Proof. by rewrite !directives_entries. Qed.

(** The intra-bundle identities of two runs do differ. *)
Example identities_differ :
  map fullUrl (entry (createFHIRBundle ascending twoPatientsThreeReadings)) <>
  map fullUrl (entry (createFHIRBundle descending twoPatientsThreeReadings)) /\
  directives (createFHIRBundle ascending twoPatientsThreeReadings) =
    [ "identifier=urn:fhir-pipeline:patient-id|P001";
      "identifier=urn:fhir-pipeline:patient-id|P002";
      "identifier=urn:fhir-pipeline:observation-id|P001:heart_rate:2024-01-15:72";
      "identifier=urn:fhir-pipeline:observation-id|P002:heart_rate:2024-01-15:68" ].
Proof. split; vm_compute; congruence. Qed.

(** C8: the entries of the built bundle are the patient entries, one
    per input patient in input order, followed by the observation
    entries, one per retained observation in input order; so every
    patient entry comes before every observation entry. *)
Theorem C8_entry_order (uuidv4 : nat -> N) (data : ParsedData) :
  exists pes oes,
    entry (createFHIRBundle uuidv4 data) = pes ++ oes /\
    Forall2 (fun e p => exists uuid, e = patientEntry uuid p) pes (patients data) /\
    Forall2 (fun e o => exists uuid patientUUID, e = observationEntry uuid patientUUID o)
            oes (retained data) /\
    retained data `sublist_of` observations data /\
    forall i j ei ej,
      entry (createFHIRBundle uuidv4 data) !! i = Some ei ->
      entry (createFHIRBundle uuidv4 data) !! j = Some ej ->
      isPatientEntry ei -> isObservationEntry ej -> i < j.
Proof.
  pose proof (patientEntries_Forall2 uuidv4 0 (patients data)) as Hp.
  pose proof (observationEntries_Forall2 uuidv4 (assigned uuidv4 (patients data))
                (length (patients data)) (retained data)) as Ho.
  eexists _, _. split; [apply createFHIRBundle_entries|].
  split; [exact Hp|]. split; [exact Ho|]. split; [apply sublist_filter|].
  rewrite createFHIRBundle_entries. intros i j ei ej Hi Hj Hpat Hobs.
  apply lookup_app_Some in Hi as [Hi|[Hge Hi]].
  - apply lookup_app_Some in Hj as [Hj|[Hge Hj]].
    + destruct (Forall2_lookup_l _ _ _ _ _ Hp Hj) as (p & _ & uuid & ->). done.
    + apply lookup_lt_Some in Hi. lia.
  - destruct (Forall2_lookup_l _ _ _ _ _ Ho Hi) as (o & _ & uuid & r & ->). done.
Qed.

Lemma C8_entry_order_witness :
  map (fun e => url (request e)) (entry (createFHIRBundle ascending twoPatientsThreeReadings)) =
    ["Patient"; "Patient"; "Observation"; "Observation"] /\
  0 < 2.
Proof.
  destruct (C8_entry_order ascending twoPatientsThreeReadings) as (pes & oes & _ & _ & _ & _ & Hlt).
  split; [vm_compute; reflexivity|].
  apply (Hlt 0 2 (patientEntry (JS.uuid_string 0) (patientNamed "P001"))
                 (observationEntry (JS.uuid_string 2) (JS.uuid_string 0) (reading "P001" "72"))).
  - vm_compute. reflexivity.
  - vm_compute. reflexivity.
  - exact I.
  - exact I.
Defined.

End Bundle.

(* ================================================================== *)
(** * Numbers and strings as observation values *)
(* ================================================================== *)

Section ValueKind.

Import FhirMapper.

Lemma coerceValue_spec (raw : string) :
  coerceValue raw =
  if readsAsNumber raw then NumberValue (JS.Number raw) else StringValue raw.
Proof. unfold coerceValue, readsAsNumber. by destruct (JS.isNaN (JS.Number raw)). Qed.

Lemma allDigits_cons c s :
  allDigits (String c s) = true -> JS.is_digit c = true /\ allDigits s = true.
Proof. simpl. destruct (JS.is_digit c); [done | discriminate]. Qed.

Lemma digit_not_white c : JS.is_digit c = true -> JS.is_white c = false.
Proof. destruct c as [[] [] [] [] [] [] [] []]; (discriminate || reflexivity). Qed.

Lemma digit_char_cases c :
  JS.is_digit c = true ->
  c ∈ ["0"; "1"; "2"; "3"; "4"; "5"; "6"; "7"; "8"; "9"]%char.
Proof.
  destruct c as [[] [] [] [] [] [] [] []]; try discriminate; intros _;
    repeat (first [apply list_elem_of_here | apply list_elem_of_further]).
Qed.

Ltac digit_cases H :=
  apply digit_char_cases in H;
  repeat (apply elem_of_cons in H as [->|H]; [done|]);
  by apply elem_of_nil in H.

Lemma trimEnd_digits s : allDigits s = true -> JS.trimEnd s = s.
Proof.
  induction s as [|c s IH]; [done|].
  intros [Hc Hs]%allDigits_cons. simpl. rewrite IH by done.
  destruct s; [by rewrite digit_not_white | done].
Qed.

Lemma trim_digits s : allDigits s = true -> JS.trim s = s.
Proof.
  intros H. unfold JS.trim.
  destruct s as [|c s]; [done|]. pose proof H as [Hc Hs]%allDigits_cons.
  simpl JS.trimStart. rewrite digit_not_white by done. by apply trimEnd_digits.
Qed.

Lemma span_digits_all s : allDigits s = true -> JS.span_digits s = (s, "").
Proof.
  induction s as [|c s IH]; [done|].
  intros [Hc Hs]%allDigits_cons. simpl. by rewrite Hc, IH.
Qed.

Lemma non_decimal_digits s : allDigits s = true -> JS.non_decimal s = None.
Proof.
  destruct s as [|c [|r ds]]; try done.
  - intros [Hc _]%allDigits_cons. digit_cases Hc.
  - intros [Hc [Hr _]%allDigits_cons]%allDigits_cons.
    apply digit_char_cases in Hc.
    repeat (apply elem_of_cons in Hc as [->|Hc]; [digit_cases Hr|]).
    by apply elem_of_nil in Hc.
Qed.

Lemma split_sign_digits s : allDigits s = true -> JS.split_sign s = (false, s).
Proof. destruct s as [|c s]; [done|]. intros [Hc _]%allDigits_cons. digit_cases Hc. Qed.

Lemma not_Infinity_digits s : allDigits s = true -> String.eqb s "Infinity" = false.
Proof. destruct s as [|c s]; [done|]. intros [Hc _]%allDigits_cons. digit_cases Hc. Qed.

(** A nonempty string of decimal digits is read as a number. *)
Lemma readsAsNumber_digits s :
  s <> "" -> allDigits s = true -> readsAsNumber s = true.
Proof.
  intros Hne Hd. unfold readsAsNumber, JS.Number.
  rewrite trim_digits by done.
  destruct s as [|c s]; [done|]. cbn [JS.nonempty negb].
  rewrite non_decimal_digits, split_sign_digits, not_Infinity_digits by done.
  unfold JS.parse_decimal. rewrite span_digits_all by done.
  cbn [JS.nonempty JS.parse_exponent]. unfold JS.finite.
  by destruct (JS.strip_zeros _ _ _).
Qed.

(** The mapped Observation carries a valueQuantity exactly when the
    record's value is a number and a valueString exactly when it is a
    string, never both; and each parser stores the raw value text as
    the number that [Number] reads exactly when that is not NaN, and as
    the unchanged string otherwise. *)
Lemma observation_value_kind :
  (forall o ref,
     (is_Some (valueQuantity (mapObservationToFHIR o ref)) <->
      exists n, observationValue o = NumberValue n) /\
     (is_Some (valueString (mapObservationToFHIR o ref)) <->
      exists s, observationValue o = StringValue s) /\
     ~ (is_Some (valueQuantity (mapObservationToFHIR o ref)) /\
        is_Some (valueString (mapObservationToFHIR o ref)))) /\
  (forall d row o,
     CsvParser.observationOfRow d row = Some o ->
     exists raw, CsvParser.observation_value row = Some raw /\
       observationValue o =
       if readsAsNumber raw then NumberValue (JS.Number raw) else StringValue raw) /\
  (forall obx patientId mshTimestamp,
     exists o, Hl7v2Parser.extractObservationFromOBX obx patientId mshTimestamp = Some o /\
       observationValue o =
       if readsAsNumber (Hl7v2Parser.field obx 4)
       then NumberValue (JS.Number (Hl7v2Parser.field obx 4))
       else StringValue (Hl7v2Parser.field obx 4)).
Proof.
  split; [|split].
  - intros o ref. unfold mapObservationToFHIR. cbn [valueQuantity valueString].
    destruct (observationValue o) as [n|s]; repeat split.
    + intros _. by exists n.
    + intros _. eauto.
    + by intros [? ?].
    + by intros [? ?].
    + by intros [_ [? ?]].
    + by intros [? ?].
    + by intros [? ?].
    + intros _. by exists s.
    + intros _. eauto.
    + by intros [[? ?] _].
  - intros d row o. unfold CsvParser.observationOfRow.
    destruct (CsvParser.observation_type row) as [[|c t]|]; try done.
    destruct (CsvParser.observation_value row) as [[|c' v]|]; try done.
    simpl. intros [= <-]. eexists. split; [done|]. apply coerceValue_spec.
  - intros obx patientId mshTimestamp. eexists. split; [reflexivity|]. apply coerceValue_spec.
Qed.

Lemma observation_value_kind_witness :
  exists raw, CsvParser.observation_value heartRateRow = Some raw /\
    coerceValue "72" = if readsAsNumber raw then NumberValue (JS.Number raw) else StringValue raw.
Proof.
  destruct observation_value_kind as (_ & Hcsv & _).
  apply (Hcsv (tick 0) heartRateRow
           {| observationPatientId := "P001"; observationType := "heart_rate";
              observationValue := coerceValue "72"; observationUnit := "bpm";
              observationDate := "2024-01-15" |}).
  reflexivity.
Defined.

Example readsAsNumber_examples :
  map readsAsNumber ["72"; "98.6"; " 12 "; "-3"; "1e3"; "0x1F"; ""; "A+"; "12abc"; "1,5"; "positive"]
  = [true; true; true; true; true; true; true; false; false; false; false].
Proof. vm_compute. reflexivity. Qed.

Lemma white_not_digit c : JS.is_white c = true -> JS.is_digit c = false.
Proof. destruct c as [[] [] [] [] [] [] [] []]; (discriminate || reflexivity). Qed.

Lemma trimEnd_blank s : JS.trimEnd s = "" -> allChars JS.is_white s = true.
Proof.
  induction s as [|c s IH]; [done|]. simpl.
  destruct (JS.trimEnd s); [|done].
  destruct (JS.is_white c); [|done]. intros _. by apply IH.
Qed.

Lemma trim_blank s : JS.trim s = "" -> allChars JS.is_white s = true.
Proof.
  unfold JS.trim. induction s as [|c s IH]; [done|]. simpl.
  destruct (JS.is_white c) eqn:Hc; [done|].
  intros H%trimEnd_blank. simpl in H. by rewrite Hc in H.
Qed.

Lemma blank_digitFree s : allChars JS.is_white s = true -> digitFree s = true.
Proof.
  unfold digitFree. induction s as [|c s IH]; [done|]. simpl.
  destruct (JS.is_white c) eqn:Hc; [|done]. intros Hs.
  by rewrite (white_not_digit c Hc), IH.
Qed.

Lemma Number_blank s : JS.trim s = "" -> JS.Number s = JS.Fin false 0 0.
Proof. unfold JS.Number. by intros ->. Qed.

(** C6: the segmented parser departs from the claim where the value
    field of a result segment is absent, empty or blank.  The raw value
    text then holds no digit, so it is not numeric-looking, yet the
    record's value is the number 0 and the mapped Observation carries a
    valueQuantity of 0 and no valueString.  The tabular parser, given
    an empty value text, emits no observation at all. *)
Theorem C6_blank_value_stored_as_zero
    (obx : Hl7v2Parser.HL7Segment) (patientId mshTimestamp ref : string) :
  JS.trim (Hl7v2Parser.field obx 4) = "" ->
  digitFree (Hl7v2Parser.field obx 4) = true /\
  (exists o,
     Hl7v2Parser.extractObservationFromOBX obx patientId mshTimestamp = Some o /\
     observationValue o = NumberValue (JS.Fin false 0 0) /\
     (exists q, valueQuantity (mapObservationToFHIR o ref) = Some q /\
                quantity_value q = JS.Fin false 0 0) /\
     valueString (mapObservationToFHIR o ref) = None) /\
  (forall d row,
     JS.truthy (CsvParser.observation_value row) = None ->
     CsvParser.observationOfRow d row = None).
Proof.
  intros Hblank. split; [|split].
  - by apply blank_digitFree, trim_blank.
  - eexists. split; [reflexivity|].
    unfold mapObservationToFHIR. cbn [observationValue valueQuantity valueString].
    unfold coerceValue. rewrite (Number_blank _ Hblank). cbn [JS.isNaN].
    split; [done|]. split; [|done]. eexists. split; [reflexivity|done].
  - intros d row Hrow. unfold CsvParser.observationOfRow. rewrite Hrow.
    by destruct (JS.truthy (CsvParser.observation_type row)).
Qed.

Lemma C6_blank_value_stored_as_zero_witness :
  Hl7v2Parser.field valuelessOBX 4 = "" /\
  (exists o,
     Hl7v2Parser.extractObservationFromOBX valuelessOBX "P001" "20240115" = Some o /\
     observationValue o = NumberValue (JS.Fin false 0 0) /\
     observationType o = "heart_rate") /\
  CsvParser.observationOfRow (tick 0) valuelessRow = None.
Proof.
  assert (Hblank : JS.trim (Hl7v2Parser.field valuelessOBX 4) = "")
    by (vm_compute; reflexivity).
  destruct (C6_blank_value_stored_as_zero valuelessOBX "P001" "20240115" "urn:uuid:p" Hblank)
    as (_ & (o & Ho & Hvalue & _) & Hcsv).
  split; [vm_compute; reflexivity|]. split.
  - exists o. split; [exact Ho|]. split; [exact Hvalue|].
    vm_compute in Ho. injection Ho as <-. reflexivity.
  - apply Hcsv. vm_compute. reflexivity.
Defined.

End ValueKind.

(* ================================================================== *)
(** * Splitting and joining on a separator *)
(* ================================================================== *)

Section SplitJoin.

Variable sep : ascii.

Lemma split_nonempty (s : string) : JS.split sep s <> [].
Proof.
  induction s as [|c s IH]; simpl; [done|].
  destruct (Ascii.eqb c sep); [done|]. by destruct (JS.split sep s).
Qed.

Lemma split_pieces_free (s piece : string) :
  piece ∈ JS.split sep s -> hasChar sep piece = false.
Proof.
  revert piece. induction s as [|c s IH]; intros piece; simpl.
  - by intros ->%list_elem_of_singleton.
  - destruct (Ascii.eqb c sep) eqn:Ec.
    + intros [->|Hin]%elem_of_cons; [done | by apply IH].
    + destruct (JS.split sep s) as [|p rest] eqn:Es.
      * by intros ->%list_elem_of_singleton; simpl; rewrite Ec.
      * intros [->|Hin]%elem_of_cons.
        -- simpl. rewrite Ec. apply IH, list_elem_of_here.
        -- by apply IH, list_elem_of_further.
Qed.

Lemma split_free (s : string) : hasChar sep s = false -> JS.split sep s = [s].
Proof.
  induction s as [|c s IH]; simpl; [done|].
  destruct (Ascii.eqb c sep); [done|]. simpl. intros H. by rewrite IH.
Qed.

Lemma split_app_sep (a b : string) :
  hasChar sep a = false -> JS.split sep (a +:+ String sep b) = a :: JS.split sep b.
Proof.
  induction a as [|c a IH]; simpl.
  - intros _. by rewrite Ascii.eqb_refl.
  - destruct (Ascii.eqb c sep); [done|]. simpl. intros H.
    change (String.append a (String sep b)) with (a +:+ String sep b).
    by rewrite IH.
Qed.

(** Joining the pieces of a split gives the string back. *)
Lemma join_split (s : string) : JS.join (String sep "") (JS.split sep s) = s.
Proof.
  unfold JS.join. induction s as [|c s IH]; simpl; [done|].
  destruct (Ascii.eqb_spec c sep) as [->|Hne].
  - pose proof (split_nonempty s) as Hs.
    destruct (JS.split sep s) as [|p rest] eqn:Es; [done|].
    simpl. simpl in IH. by rewrite IH.
  - pose proof (split_nonempty s) as Hs.
    destruct (JS.split sep s) as [|p rest] eqn:Es; [done|].
    simpl in *. destruct rest; simpl in *; by rewrite <- IH.
Qed.

(** Splitting a join of separator-free pieces gives the pieces back. *)
Lemma split_join (l : list string) :
  l <> [] -> Forall (fun x => hasChar sep x = false) l ->
  JS.split sep (JS.join (String sep "") l) = l.
Proof.
  unfold JS.join. induction l as [|x l IH]; [done|]. intros _ Hall.
  apply Forall_cons in Hall as [Hx Hl].
  destruct l as [|y l].
  - by apply split_free.
  - change (String.concat (String sep "") (x :: y :: l))
      with (x +:+ String sep (String.concat (String sep "") (y :: l))).
    rewrite split_app_sep by done. f_equal. by apply IH.
Qed.

End SplitJoin.

(* ================================================================== *)
(** * Messages of a segmented input (hl7v2-parser.ts) *)
(* ================================================================== *)

Section Messages.

Import Hl7v2Parser.

Lemma headerLine_nonblank (line : string) : headerLine line = true -> nonblank line = true.
Proof.
  unfold headerLine, JS.startsWith. intros [rest ->]%prefix_spec.
  unfold nonblank, JS.trim.
  change ("MSH|" +:+ rest) with (String "M" ("SH|" +:+ rest)).
  simpl. by destruct (JS.trimEnd _).
Qed.

Lemma filter_snoc_true (seen : list string) (line : string) :
  nonblank line = true ->
  filter (fun l => nonblank l = true) (seen ++ [line]) =
  filter (fun l => nonblank l = true) seen ++ [line].
Proof. intros H. by rewrite filter_app, filter_cons_True, filter_nil. Qed.

Lemma filter_snoc_false (seen : list string) (line : string) :
  nonblank line = false ->
  filter (fun l => nonblank l = true) (seen ++ [line]) =
  filter (fun l => nonblank l = true) seen.
Proof.
  intros H. rewrite filter_app, filter_cons_False, filter_nil, app_nil_r; [done|].
  by rewrite H.
Qed.

Lemma splitStep_invariant (groups : list (list string)) (current seen : list string)
    (line : string) :
  splitInvariant groups current seen ->
  hasChar newline line = false ->
  exists groups' current',
    splitStep (map joinLines groups, current) line = (map joinLines groups', current') /\
    splitInvariant groups' current' (seen ++ [line]).
Proof.
  intros (H1 & H2 & H3 & H4 & H5 & H6 & H7) Hline. unfold splitStep.
  change (JS.startsWith line "MSH|") with (headerLine line).
  change (JS.nonempty (JS.trim line)) with (nonblank line).
  assert (Hone : Forall (fun l => hasChar newline l = false) [line]) by by constructor.
  destruct (headerLine line) eqn:Hh.
  - pose proof (headerLine_nonblank _ Hh) as Hnb.
    assert (Hhead : headed [line]) by by exists line, [].
    destruct current as [|c cs].
    + exists groups, [line]. split; [done|].
      rewrite app_nil_r in H1. unfold splitInvariant.
      rewrite filter_snoc_true, <- H1 by done.
      split; [done|]. split; [done|]. split; [done|].
      split; [constructor|]. split; [done|]. split; done.
    + exists (groups ++ [c :: cs]), [line]. split; [by rewrite map_app|].
      unfold splitInvariant. rewrite filter_snoc_true, <- H1 by done.
      split; [by rewrite concat_app, <- !app_assoc; simpl; rewrite app_nil_r|].
      split; [apply Forall_app; split; [done|]; by constructor|].
      split.
      { destruct groups as [|g gs]; simpl; [constructor|].
        apply Forall_app. split; [done|]. constructor; [|constructor]. by apply H5. }
      split; [constructor|]. split; [done|].
      split; [apply Forall_app; split; [done|]; by constructor | done].
  - destruct (nonblank line) eqn:Hnb.
    + exists groups, (current ++ [line]). split; [done|].
      unfold splitInvariant. rewrite filter_snoc_true, <- H1 by done.
      split; [by rewrite app_assoc|]. split; [done|]. split; [done|].
      split.
      { unfold headerFreeTail in *. destruct current as [|c cs]; simpl; [constructor|].
        apply Forall_app. split; [done|]. by constructor. }
      split.
      { intros Hg. destruct (H5 Hg) as (l0 & rest & -> & Hl0).
        by exists l0, (rest ++ [line]). }
      split; [done|]. apply Forall_app. by split.
    + exists groups, current. split; [done|].
      unfold splitInvariant. rewrite filter_snoc_false by done. done.
Qed.

Lemma splitLoop_invariant (todo : list string) (groups : list (list string))
    (current seen : list string) :
  splitInvariant groups current seen ->
  Forall (fun l => hasChar newline l = false) todo ->
  exists groups' current',
    fold_left splitStep todo (map joinLines groups, current) = (map joinLines groups', current') /\
    splitInvariant groups' current' (seen ++ todo).
Proof.
  revert groups current seen. induction todo as [|line todo IH]; intros groups current seen Hinv Hall.
  - exists groups, current. by rewrite app_nil_r.
  - apply Forall_cons in Hall as [Hline Hall].
    destruct (splitStep_invariant _ _ _ _ Hinv Hline) as (g1 & c1 & Hstep & Hinv1).
    destruct (IH _ _ _ Hinv1 Hall) as (g2 & c2 & Hfold & Hinv2).
    exists g2, c2. cbn [fold_left]. rewrite Hstep, Hfold. split; [done|].
    by rewrite <- app_assoc in Hinv2.
Qed.

(** The messages are the nonblank lines of the input, cut before every
    header line, each group joined by line breaks. *)
Lemma splitMessages_groups (content : string) :
  exists groups,
    splitMessages content = map joinLines groups /\
    concat groups = filter (fun l => nonblank l = true) (linesOf content) /\
    Forall (fun g => g <> [] /\ headerFreeTail g) groups /\
    Forall headed (tail groups) /\
    Forall (Forall (fun l => hasChar newline l = false)) groups.
Proof.
  unfold splitMessages.
  destruct (splitLoop_invariant (linesOf content) [] [] []) as (groups & current & Hfold & Hinv).
  - unfold splitInvariant, headerFreeTail. simpl. repeat split; try done; constructor.
  - apply Forall_forall. intros l Hl. by eapply split_pieces_free.
  - unfold linesOf in Hfold. simpl in Hfold. rewrite Hfold.
    destruct Hinv as (H1 & H2 & H3 & H4 & H5 & H6 & H7). simpl in H1.
    destruct current as [|c cs].
    + exists groups. rewrite app_nil_r in H1. done.
    + exists (groups ++ [c :: cs]). rewrite map_app. split; [done|].
      split; [by rewrite concat_app; simpl; rewrite app_nil_r|].
      split; [apply Forall_app; split; [done|]; by constructor|].
      split; [|apply Forall_app; split; [done|]; by constructor].
      destruct groups as [|g gs]; simpl; [constructor|].
      apply Forall_app. split; [done|]. constructor; [|constructor]. by apply H5.
Qed.

Lemma linesOf_joinLines (g : list string) :
  g <> [] -> Forall (fun l => hasChar newline l = false) g -> linesOf (joinLines g) = g.
Proof. apply split_join. Qed.

(** X1: a segment prints back to its line: the segment type and the
    fields, joined by the field separator, are the line that was
    parsed. *)
Theorem X1_segment_round_trip (line : string) :
  JS.join "|" (type (parseHL7Segment line) :: fields (parseHL7Segment line)) = line.
Proof.
  unfold parseHL7Segment. cbn [type fields].
  pose proof (split_nonempty "|" line) as Hne.
  rewrite <- (join_split "|" line) at 3.
  by destruct (JS.split "|" line).
Qed.

Lemma segmentsOf_joinLines (g : list string) :
  g <> [] -> Forall (fun l => hasChar newline l = false) g ->
  Forall (fun l => nonblank l = true) g ->
  segmentsOf (joinLines g) = map parseHL7Segment g.
Proof.
  intros Hne Hfree Hnb. unfold segmentsOf, parseHL7Message. cbn [segments].
  fold (linesOf (joinLines g)). rewrite linesOf_joinLines by done. f_equal.
  clear Hne Hfree. induction g as [|l g IH]; [done|].
  apply Forall_cons in Hnb as [Hl Hg].
  rewrite filter_cons_True by done. by rewrite IH.
Qed.

Lemma groups_nonblank (groups : list (list string)) (ls : list string) :
  concat groups = filter (fun l => nonblank l = true) ls ->
  Forall (Forall (fun l => nonblank l = true)) groups.
Proof.
  intros Hcat. apply Forall_forall. intros g Hg. apply Forall_forall. intros l Hl.
  assert (l ∈ filter (fun l => nonblank l = true) ls) as Hin.
  { rewrite <- Hcat. apply list_elem_of_In, in_concat. exists g.
    split; by apply list_elem_of_In. }
  by apply list_elem_of_filter in Hin as [? _].
Qed.

(** X2: cutting a segmented input into messages and parsing each
    loses no segment and keeps their order: the segments of the
    messages, one message after the other, are the parsed nonblank
    lines of the input; and there is no message exactly when the input
    has no nonblank line. *)
Theorem X2_no_segment_lost (content : string) :
  concat (map segmentsOf (splitMessages content)) =
    map parseHL7Segment (filter (fun l => nonblank l = true) (linesOf content)) /\
  (splitMessages content = [] <->
   filter (fun l => nonblank l = true) (linesOf content) = []).
Proof.
  destruct (splitMessages_groups content) as (groups & -> & Hcat & Hshape & _ & Hfree).
  pose proof (groups_nonblank _ _ Hcat) as Hnb.
  rewrite <- Hcat. split.
  - clear Hcat. induction groups as [|g groups IH]; [done|].
    apply Forall_cons in Hshape as [[Hne _] Hshape].
    apply Forall_cons in Hfree as [Hg Hfree].
    apply Forall_cons in Hnb as [Hgnb Hnb].
    simpl. rewrite map_app, segmentsOf_joinLines, IH by done. done.
  - destruct groups as [|g groups]; [done|].
    apply Forall_cons in Hshape as [[Hne _] _].
    split; [done|]. simpl. intros Happ. by destruct g.
Qed.

(** X3: the messages are cut exactly at the header lines: every
    message is a nonempty run of nonblank lines with no header line
    after its first line, and every message but the first begins with a
    header line. *)
Theorem X3_messages_cut_at_headers (content : string) (i : nat) (msg : string) :
  splitMessages content !! i = Some msg ->
  exists first rest,
    linesOf msg = first :: rest /\
    Forall (fun l => nonblank l = true) (first :: rest) /\
    Forall (fun l => headerLine l = false) rest /\
    (0 < i -> headerLine first = true).
Proof.
  destruct (splitMessages_groups content) as (groups & -> & Hcat & Hshape & Hheaded & Hfree).
  pose proof (groups_nonblank _ _ Hcat) as Hnb.
  rewrite list_lookup_fmap. intros Hi.
  destruct (groups !! i) as [g|] eqn:Hg; [|done]. injection Hi as <-.
  pose proof (Forall_lookup_1 _ _ _ _ Hshape Hg) as [Hne Htail].
  pose proof (Forall_lookup_1 _ _ _ _ Hfree Hg) as Hgfree.
  pose proof (Forall_lookup_1 _ _ _ _ Hnb Hg) as Hgnb.
  destruct g as [|first rest]; [done|].
  exists first, rest. rewrite linesOf_joinLines by done.
  split; [done|]. split; [done|]. split; [done|].
  intros Hpos. destruct i as [|i]; [lia|].
  destruct groups as [|g0 groups]; [done|]. simpl in Hg, Hheaded.
  destruct (Forall_lookup_1 _ _ _ _ Hheaded Hg) as (l0 & r0 & [= -> ->] & Hl0). done.
Qed.

Lemma X3_messages_cut_at_headers_witness :
  exists first rest,
    linesOf "MSH|^~\&|App|Fac|App|Fac|20240116||ADT|2|P|2.5
PID|1||^^^Hospital" = first :: rest /\
    Forall (fun l => nonblank l = true) (first :: rest) /\
    Forall (fun l => headerLine l = false) rest /\
    (0 < 1 -> headerLine first = true).
Proof.
  apply (X3_messages_cut_at_headers twoAnonymous 1). vm_compute. reflexivity.
Defined.

(** X4: a date of fewer than eight characters is passed through
    unchanged; of a longer one only the first eight characters count,
    and the result is ten characters long with a dash after the fourth
    and after the sixth of them. *)
Theorem X4_parseHL7Date_shape (hl7Date : string) :
  (String.length hl7Date < 8 -> parseHL7Date hl7Date = hl7Date) /\
  (8 <= String.length hl7Date ->
   parseHL7Date hl7Date = parseHL7Date (String.substring 0 8 hl7Date) /\
   parseHL7Date hl7Date =
     String.substring 0 4 hl7Date +:+ "-" +:+ String.substring 4 2 hl7Date +:+ "-" +:+
     String.substring 6 2 hl7Date /\
   String.length (parseHL7Date hl7Date) = 10).
Proof.
  split.
  - intros Hlen. unfold parseHL7Date.
    destruct (Nat.leb_spec 8 (String.length hl7Date)); [lia | done].
  - intros Hlen.
    do 8 (destruct hl7Date as [|? hl7Date]; [simpl in Hlen; lia|]).
    repeat split; destruct hl7Date; vm_compute; reflexivity.
Qed.

Lemma X4_parseHL7Date_shape_witness :
  parseHL7Date "20240120143000" = parseHL7Date (String.substring 0 8 "20240120143000") /\
  String.length (parseHL7Date "20240120143000") = 10 /\
  parseHL7Date "2024" = "2024".
Proof.
  destruct (X4_parseHL7Date_shape "20240120143000") as [_ Hlong].
  destruct (X4_parseHL7Date_shape "2024") as [Hshort _].
  destruct Hlong as (H1 & _ & H2); [vm_compute; lia|].
  split; [exact H1|]. split; [exact H2|]. apply Hshort. vm_compute. lia.
Defined.

End Messages.

(* ================================================================== *)
(** * Terminology codes (hl7v2-parser.ts, types.ts, fhir-mapper.ts) *)
(* ================================================================== *)

Section Terminology.

Import Hl7v2Parser.
Import FhirMapper.

Lemma table_get_elem {V} (table : list (string * V)) (key : string) (v : V) :
  table_get table key = Some v -> (key, v) ∈ table.
Proof.
  induction table as [|[k w] table IH]; simpl; [done|].
  destruct (String.eqb_spec k key) as [->|_].
  - intros [= ->]. apply list_elem_of_here.
  - intros H. by apply list_elem_of_further, IH.
Qed.

Ltac table_cases H :=
  apply table_get_elem in H;
  repeat (apply elem_of_cons in H as [H|H]; [injection H as ? ?; subst|]);
  [..|by apply elem_of_nil in H].

(** The code table of the parser and the table of the mapper are
    inverse to each other. *)
Lemma tables_inverse (loincCode tag : string) :
  table_get OBX_CODE_MAP loincCode = Some tag <->
  exists display, table_get LOINC_CODES tag = Some (loincCode, display).
Proof.
  split.
  - intros H. table_cases H; eexists; reflexivity.
  - intros [display H]. table_cases H; reflexivity.
Qed.

Lemma extracted_type (obx : HL7Segment) (patientId mshTimestamp : string) :
  exists o, extractObservationFromOBX obx patientId mshTimestamp = Some o /\
    observationType o =
    JS.or_else (table_get OBX_CODE_MAP (loincCodeOf obx)) (JS.map_chars sanitize (loincCodeOf obx)).
Proof. eexists. split; reflexivity. Qed.

(** X5: a result segment whose code is in the parser's code table
    comes out of the mapper coded with exactly that code: the type tag
    the parser chooses is the key under which the mapper's table holds
    the same code. *)
Theorem X5_known_code_round_trip
    (obx : HL7Segment) (patientId mshTimestamp patientReference tag : string) :
  table_get OBX_CODE_MAP (loincCodeOf obx) = Some tag ->
  exists o display,
    extractObservationFromOBX obx patientId mshTimestamp = Some o /\
    observationType o = tag /\
    coding (code (mapObservationToFHIR o patientReference)) =
      Some [{| coding_system := "http://loinc.org";
               coding_code := loincCodeOf obx;
               display := display |}].
Proof.
  intros Htag.
  destruct (extracted_type obx patientId mshTimestamp) as (o & Ho & Htype).
  pose proof Htag as [display Hdisplay]%tables_inverse.
  assert (Htag' : observationType o = tag).
  { rewrite Htype, Htag. pose proof Htag as H. table_cases H; reflexivity. }
  exists o, display. split; [done|]. split; [done|].
  unfold mapObservationToFHIR. cbn [code coding]. by rewrite Htag', Hdisplay.
Qed.

Lemma X5_known_code_round_trip_witness :
  exists o display,
    extractObservationFromOBX heartRateOBX "P001" "20240115" = Some o /\
    observationType o = "heart_rate" /\
    coding (code (mapObservationToFHIR o "urn:uuid:0")) =
      Some [{| coding_system := "http://loinc.org";
               coding_code := loincCodeOf heartRateOBX;
               display := display |}].
Proof.
  apply (X5_known_code_round_trip heartRateOBX "P001" "20240115" "urn:uuid:0" "heart_rate").
  vm_compute. reflexivity.
Defined.

Lemma sanitize_tagChar (c : ascii) : tagChar (sanitize c) = true.
Proof. destruct c as [[] [] [] [] [] [] [] []]; reflexivity. Qed.

Lemma sanitize_fixes (c : ascii) : tagChar c = true -> sanitize c = c.
Proof. destruct c as [[] [] [] [] [] [] [] []]; (discriminate || reflexivity). Qed.

Lemma map_chars_length (f : ascii -> ascii) (s : string) :
  String.length (JS.map_chars f s) = String.length s.
Proof. induction s as [|c s IH]; simpl; [done | by rewrite IH]. Qed.

Lemma sanitized_tag (s : string) : allChars tagChar (JS.map_chars sanitize s) = true.
Proof. induction s as [|c s IH]; simpl; [done | by rewrite sanitize_tagChar, IH]. Qed.

Lemma sanitized_fixed (s : string) : allChars tagChar s = true -> JS.map_chars sanitize s = s.
Proof.
  induction s as [|c s IH]; simpl; [done|].
  destruct (tagChar c) eqn:Hc; [|done]. simpl. intros Hs.
  by rewrite sanitize_fixes, IH.
Qed.

(** X6: a result segment whose code is neither in the code table nor
    the name of a property that the table inherits from
    [Object.prototype] gets a type tag of the same length as the code,
    made of ASCII letters, digits and underscores only; a code that
    already is of that form is its own tag. *)
Theorem X6_unknown_code_tag (obx : HL7Segment) (patientId mshTimestamp : string) :
  table_get OBX_CODE_MAP (loincCodeOf obx) = None ->
  inherited (loincCodeOf obx) = false ->
  exists o,
    extractObservationFromOBX obx patientId mshTimestamp = Some o /\
    String.length (observationType o) = String.length (loincCodeOf obx) /\
    allChars tagChar (observationType o) = true /\
    (allChars tagChar (loincCodeOf obx) = true -> observationType o = loincCodeOf obx).
Proof.
  intros Hnone _.
  destruct (extracted_type obx patientId mshTimestamp) as (o & Ho & Htype).
  exists o. split; [done|]. rewrite Htype, Hnone. unfold JS.or_else. simpl.
  split; [apply map_chars_length|]. split; [apply sanitized_tag | apply sanitized_fixed].
Qed.

Lemma X6_unknown_code_tag_witness :
  exists o,
    extractObservationFromOBX bloodTypeOBX "P001" "20240115" = Some o /\
    String.length (observationType o) = 10 /\
    allChars tagChar (observationType o) = true.
Proof.
  destruct (X6_unknown_code_tag bloodTypeOBX "P001" "20240115") as (o & Ho & Hlen & Hchars & _).
  - vm_compute. reflexivity.
  - vm_compute. reflexivity.
  - exists o. split; [exact Ho|]. split; [exact Hlen | exact Hchars].
Defined.

End Terminology.

(* ================================================================== *)
(** * Mapped resources and references (fhir-mapper.ts) *)
(* ================================================================== *)

Section Resources.

Import FhirMapper.

(** X7: the mapped Patient has no telecom list exactly when neither a
    phone nor an email is present, never an empty one, and otherwise
    lists the present contacts, phone first; it has no address list
    exactly when no address part is present, and otherwise exactly one
    address that carries city, state and postal code as they are and a
    street line only when one is present. *)
Theorem X7_contact_and_address (p : PatientData) :
  (telecom (mapPatientToFHIR p) = None <->
   JS.truthy (phone p) = None /\ JS.truthy (email p) = None) /\
  telecom (mapPatientToFHIR p) <> Some [] /\
  map telecom_value (default [] (telecom (mapPatientToFHIR p))) =
    omap JS.truthy [phone p; email p] /\
  (address (mapPatientToFHIR p) = None <->
   JS.truthy (addressLine p) = None /\ JS.truthy (city p) = None /\
   JS.truthy (state p) = None /\ JS.truthy (postalCode p) = None) /\
  (forall a, address (mapPatientToFHIR p) = Some a ->
     exists x, a = [x] /\
       line x = (fun l => [l]) <$> JS.truthy (addressLine p) /\
       address_city x = city p /\ address_state x = state p /\
       address_postalCode x = postalCode p).
Proof.
  unfold mapPatientToFHIR. cbn [telecom address]. unfold present.
  split; [|split; [|split; [|split]]].
  - destruct (JS.truthy (phone p)), (JS.truthy (email p)); simpl; split;
      try done; by intros [? ?].
  - by destruct (JS.truthy (phone p)), (JS.truthy (email p)).
  - cbn [omap list_omap]. by destruct (JS.truthy (phone p)), (JS.truthy (email p)).
  - destruct (JS.truthy (addressLine p)), (JS.truthy (city p)),
      (JS.truthy (state p)), (JS.truthy (postalCode p)); simpl; split;
      try done; by intros (? & ? & ? & ?).
  - intros a.
    destruct (_ || _ || _ || _); [|done]. intros [= <-]. eexists. split; [done|].
    cbn [line address_city address_state address_postalCode].
    by destruct (JS.truthy (addressLine p)).
Qed.

Lemma X7_contact_and_address_witness :
  exists x, address (mapPatientToFHIR fullContact) = Some [x] /\
    line x = None /\ address_city x = Some "Boston".
Proof.
  destruct (X7_contact_and_address fullContact) as (_ & _ & _ & _ & Haddr).
  destruct (Haddr _ eq_refl) as (x & Hx & Hline & Hcity & _).
  exists x. split; [|split; [exact Hline | exact Hcity]].
  vm_compute. vm_compute in Hx. congruence.
Defined.

Section References.

Variable uuidv4 : nat -> N.

Lemma fold_addPatient_lookup (ps : list PatientData) (b : Builder) (k v : string) :
  patientUUIDs (fold_left (addPatient uuidv4) ps b) !! k = Some v ->
  (exists i p, ps !! i = Some p /\ patientId p = k /\
     v = JS.uuid_string (uuidv4 (calls b + i)) /\
     forall j q, i < j -> ps !! j = Some q -> patientId q <> k) \/
  (patientUUIDs b !! k = Some v /\ forall q, q ∈ ps -> patientId q <> k).
Proof.
  revert b. induction ps as [|p ps IH]; intros b; simpl.
  - intros H. right. split; [done|]. by intros q ?%elem_of_nil.
  - intros H. destruct (IH _ H) as [(i & q & Hi & Hid & Hv & Hlast)|[Hb Hnone]].
    + left. exists (S i), q. simpl in Hv. repeat split; try done.
      * rewrite Hv. do 2 f_equal. lia.
      * intros [|j] r Hj Hr; [lia|]. apply (Hlast j r); [lia | done].
    + simpl in Hb. destruct (decide (patientId p = k)) as [Hk|Hk].
      * left. exists 0, p. rewrite Hk, lookup_insert_eq in Hb. injection Hb as <-.
        repeat split; try done.
        -- by rewrite Nat.add_0_r.
        -- intros [|j] r Hj Hr; [lia|]. apply Hnone. by eapply list_elem_of_lookup_2.
      * right. rewrite lookup_insert_ne in Hb by done. split; [done|].
        intros q [->|Hq]%elem_of_cons; [done | by apply Hnone].
Qed.

Lemma patientEntries_lookup c ps i p :
  ps !! i = Some p ->
  patientEntries uuidv4 c ps !! i = Some (patientEntry (JS.uuid_string (uuidv4 (c + i))) p).
Proof. intros Hi. unfold patientEntries. by rewrite list_lookup_imap, Hi. Qed.

(** X8: every observation entry of the bundle refers to a patient
    entry of the same bundle: its subject reference is the full URL of
    the entry of the last patient in the input that carries the
    observation's owner identifier. *)
Theorem X8_subject_is_patient_entry (data : ParsedData) (j : nat) (e : BundleEntry) :
  entry (createFHIRBundle uuidv4 data) !! j = Some e ->
  isObservationEntry e ->
  exists o obs i p pe,
    o ∈ observations data /\
    resource e = Observation obs /\
    observation_identifier obs =
      [{| system := FHIR_OBSERVATION_IDENTIFIER_SYSTEM; value := generateObservationId o |}] /\
    patients data !! i = Some p /\
    patientId p = observationPatientId o /\
    (forall k q, i < k -> patients data !! k = Some q ->
                 patientId q <> observationPatientId o) /\
    entry (createFHIRBundle uuidv4 data) !! i = Some pe /\
    resource pe = Patient (mapPatientToFHIR p) /\
    subject obs = fullUrl pe.
Proof.
  rewrite createFHIRBundle_entries. intros Hj Hobs.
  apply lookup_app_Some in Hj as [Hj|[Hge Hj]].
  { destruct (Forall2_lookup_l _ _ _ _ _ (patientEntries_Forall2 uuidv4 0 (patients data)) Hj)
      as (p & _ & uuid & ->). done. }
  unfold observationEntries in Hj. rewrite list_lookup_imap in Hj.
  destruct (retained data !! _) as [o|] eqn:Ho; [|done]. injection Hj as <-.
  apply list_elem_of_lookup_2, list_elem_of_filter in Ho as [Hres Ho].
  destruct (fold_addPatient uuidv4 (patients data) initialBuilder) as (_ & _ & Hdom & _).
  destruct (proj2 (Hdom (observationPatientId o)) (or_intror Hres)) as [v Hv].
  fold (assigned uuidv4 (patients data)) in Hv. rewrite Hv.
  destruct (fold_addPatient_lookup _ _ _ _ Hv) as [(i & p & Hi & Hid & -> & Hlast)|[Hempty _]];
    [|simpl in Hempty; by rewrite lookup_empty in Hempty].
  eexists o, _, i, p, _. split; [done|]. split; [reflexivity|]. split; [reflexivity|].
  split; [done|]. split; [done|]. split; [done|].
  split.
  { apply lookup_app_l_Some. by apply patientEntries_lookup. }
  split; reflexivity.
Qed.

Lemma fullUrl_patientEntries c ps :
  map fullUrl (patientEntries uuidv4 c ps) = identityUrl uuidv4 <$> seq c (length ps).
Proof.
  unfold patientEntries. rewrite <- imap_seq.
  change (map fullUrl) with (fmap (M:=list) fullUrl). by rewrite fmap_imap.
Qed.

Lemma fullUrl_observationEntries m c os :
  map fullUrl (observationEntries uuidv4 m c os) = identityUrl uuidv4 <$> seq c (length os).
Proof.
  unfold observationEntries. rewrite <- imap_seq.
  change (map fullUrl) with (fmap (M:=list) fullUrl). by rewrite fmap_imap.
Qed.

(** X9: the intra-bundle identities are the generator's values in
    call order, one call per entry; so they are pairwise distinct
    whenever the generator's first values, as many as there are
    entries, are. *)
Theorem X9_identities_distinct (data : ParsedData) :
  let n := length (entry (createFHIRBundle uuidv4 data)) in
  map fullUrl (entry (createFHIRBundle uuidv4 data)) = identityUrl uuidv4 <$> seq 0 n /\
  ((forall i k, i < n -> k < n -> JS.uuid_string (uuidv4 i) = JS.uuid_string (uuidv4 k) -> i = k) ->
   NoDup (map fullUrl (entry (createFHIRBundle uuidv4 data)))).
Proof.
  intros n. subst n.
  assert (Hurls : map fullUrl (entry (createFHIRBundle uuidv4 data)) =
                  identityUrl uuidv4 <$> seq 0 (length (entry (createFHIRBundle uuidv4 data)))).
  { rewrite createFHIRBundle_entries, map_app, length_app.
    rewrite fullUrl_patientEntries, fullUrl_observationEntries.
    unfold patientEntries, observationEntries. rewrite !length_imap.
    by rewrite seq_app, fmap_app. }
  split; [done|]. intros Hinj. rewrite Hurls.
  apply NoDup_fmap_2_strong; [|apply NoDup_seq].
  intros i k [_ Hi]%elem_of_seq [_ Hk]%elem_of_seq Heq.
  apply Hinj; [lia | lia |]. unfold identityUrl in Heq.
  by apply (inj (String.append "urn:uuid:")) in Heq.
Qed.

End References.

Lemma X8_subject_is_patient_entry_witness :
  exists o obs i p pe,
    o ∈ observations twoPatientsThreeReadings /\
    resource (observationEntry (JS.uuid_string 3) (JS.uuid_string 1) (reading "P002" "68"))
      = Observation obs /\
    patients twoPatientsThreeReadings !! i = Some p /\
    patientId p = observationPatientId o /\
    entry (createFHIRBundle ascending twoPatientsThreeReadings) !! i = Some pe /\
    subject obs = fullUrl pe.
Proof.
  destruct (X8_subject_is_patient_entry ascending twoPatientsThreeReadings 3
              (observationEntry (JS.uuid_string 3) (JS.uuid_string 1) (reading "P002" "68")))
    as (o & obs & i & p & pe & Ho & Hres & _ & Hp & Hid & _ & Hpe & _ & Hsubj).
  - vm_compute. reflexivity.
  - exact I.
  - exists o, obs, i, p, pe. repeat split; assumption.
Defined.

Lemma X9_identities_distinct_witness :
  NoDup (map fullUrl (entry (createFHIRBundle ascending twoPatientsThreeReadings))).
Proof.
  apply (X9_identities_distinct ascending twoPatientsThreeReadings).
  intros i k Hi Hk.
  change (length (entry (createFHIRBundle ascending twoPatientsThreeReadings))) with 4 in Hi, Hk.
  destruct i as [|[|[|[|i]]]]; [| | | |lia];
    (destruct k as [|[|[|[|k]]]]; [| | | |lia]); vm_compute; congruence.
Defined.

End Resources.

(* ================================================================== *)
(** * The composite identifier of an observation (fhir-mapper.ts) *)
(* ================================================================== *)

Section CompositeIdentifier.

Import FhirMapper.

Lemma generateObservationId_parts (o : ObservationData) :
  generateObservationId o =
  observationPatientId o +:+ String ":" (observationType o +:+ String ":"
    (observationDate o +:+ String ":" (valueToString (observationValue o)))).
Proof. reflexivity. Qed.

Lemma split_injective (sep : ascii) (s t : string) : JS.split sep s = JS.split sep t -> s = t.
Proof. intros H. by rewrite <- (join_split sep s), <- (join_split sep t), H. Qed.

(** X10: on observations whose owner identifier, type tag and date
    hold no colon the composite identifier is injective: two of them
    with the same identifier have the same owner, type and date, and
    values with the same text. *)
Theorem X10_observation_id_injective (o1 o2 : ObservationData) :
  colonFree (observationPatientId o1) -> colonFree (observationType o1) ->
  colonFree (observationDate o1) ->
  colonFree (observationPatientId o2) -> colonFree (observationType o2) ->
  colonFree (observationDate o2) ->
  generateObservationId o1 = generateObservationId o2 ->
  observationPatientId o1 = observationPatientId o2 /\
  observationType o1 = observationType o2 /\
  observationDate o1 = observationDate o2 /\
  valueToString (observationValue o1) = valueToString (observationValue o2).
Proof.
  unfold colonFree. intros Hp1 Ht1 Hd1 Hp2 Ht2 Hd2 Heq.
  apply (f_equal (JS.split ":")) in Heq.
  rewrite !generateObservationId_parts in Heq.
  rewrite !split_app_sep in Heq by done.
  injection Heq as Hp Ht Hd Hv. apply split_injective in Hv. done.
Qed.

Lemma X10_observation_id_injective_witness :
  observationPatientId (reading "P001" "72") = observationPatientId (reading "P001" "72.0") /\
  valueToString (observationValue (reading "P001" "72")) =
  valueToString (observationValue (reading "P001" "72.0")).
Proof.
  destruct (X10_observation_id_injective (reading "P001" "72") (reading "P001" "72.0"))
    as (Hp & _ & _ & Hv); try reflexivity.
  split; [exact Hp | exact Hv].
Defined.

(** Without that condition the identifier collides: an owner "A:b"
    with type "c" and an owner "A" with type "b:c", and a string value
    with a number of the same text. *)
Example observation_id_collision :
  generateObservationId colonOwner = generateObservationId colonType /\
  observationPatientId colonOwner <> observationPatientId colonType.
Proof. split; vm_compute; congruence. Qed.

End CompositeIdentifier.

(* ================================================================== *)
(** * The observations of a parse (both parsers) *)
(* ================================================================== *)

Section Observations.

Import Hl7v2Parser.

Section LoopObservations.

Context {A : Type}.
Variable clock : nat -> JS.Date.
Variable body : JS.Date -> A -> ParserState -> ParserState.
Variable offer : JS.Date -> A -> option PatientData.
Variable emits : JS.Date -> A -> list ObservationData.
Hypothesis body_registers : forall d x st,
  patientsMap (body d x st) =
  match offer d x with Some p => register p (patientsMap st) | None => patientsMap st end.
Hypothesis body_emits : forall d x st,
  parsedObservations (body d x st) = parsedObservations st ++ emits d x.
Hypothesis emits_owned : forall d x o,
  o ∈ emits d x -> exists p, offer d x = Some p /\ observationPatientId o = patientId p.

Lemma for_of_observations (i : nat) (items : list A) (st : ParserState) :
  parsedObservations (for_of clock body i items st) =
  parsedObservations st ++ emitted clock emits i items.
Proof.
  revert i st. induction items as [|x items IH]; intros i st; simpl.
  - by rewrite app_nil_r.
  - by rewrite IH, body_emits, <- app_assoc.
Qed.

Lemma emitted_elem (i : nat) (items : list A) (o : ObservationData) :
  o ∈ emitted clock emits i items ->
  exists j x, items !! j = Some x /\ o ∈ emits (clock (i + j)) x.
Proof.
  revert i. induction items as [|x items IH]; intros i; simpl.
  - by intros ?%elem_of_nil.
  - intros [Ho|Ho]%elem_of_app.
    + exists 0, x. by rewrite Nat.add_0_r.
    + destruct (IH _ Ho) as (j & y & Hj & Hy). exists (S j), y.
      split; [done|]. by rewrite Nat.add_succ_r.
Qed.

Lemma parsed_observations_owned (items : list A) :
  let out := finish (for_of clock body 0 items initialState) in
  Forall (resolvable (patients out)) (observations out).
Proof.
  intros out. subst out. apply Forall_forall. intros o Ho.
  unfold resolvable. rewrite (for_of_patients clock body offer body_registers).
  unfold finish in Ho. cbn [observations] in Ho.
  rewrite for_of_observations in Ho. simpl in Ho.
  destruct (emitted_elem _ _ _ Ho) as (j & x & Hj & Hemit).
  destruct (emits_owned _ _ _ Hemit) as (p & Hp & ->).
  apply firstSeen_ids. split; [by intros ?%elem_of_nil|].
  exists p. split; [|done]. apply list_elem_of_lookup. exists j.
  unfold offers. rewrite list_lookup_imap, Hj. simpl in *. by rewrite Hp.
Qed.

End LoopObservations.

Lemma filter_all {B} (P : B -> Prop) `{!forall x, Decision (P x)} (l : list B) :
  Forall P l -> filter P l = l.
Proof.
  induction 1 as [|x l Hx Hl IH]; [done|]. by rewrite filter_cons_True, IH.
Qed.

(** ** Tabular input *)

Lemma rowBody_emits d row st :
  parsedObservations (CsvParser.rowBody d row st) = parsedObservations st ++ rowEmits d row.
Proof.
  unfold CsvParser.rowBody, rowEmits. cbn [parsedObservations].
  destruct (CsvParser.observationOfRow d row); [done | by rewrite app_nil_r].
Qed.

Lemma rowEmits_owned d row o :
  o ∈ rowEmits d row ->
  exists p, rowOffer d row = Some p /\ observationPatientId o = patientId p.
Proof.
  unfold rowEmits, rowOffer, CsvParser.observationOfRow.
  destruct (JS.truthy (CsvParser.observation_type row)); [|by intros ?%elem_of_nil].
  destruct (JS.truthy (CsvParser.observation_value row)); [|by intros ?%elem_of_nil].
  intros ->%list_elem_of_singleton. eexists. split; reflexivity.
Qed.

Lemma parseRecords_observations clock (records : list CsvParser.CSVRow) :
  observations (CsvParser.parseRecords clock records) = emitted clock rowEmits 0 records.
Proof.
  unfold CsvParser.parseRecords, finish. cbn [observations].
  by rewrite (for_of_observations clock _ rowEmits rowBody_emits).
Qed.

(** X11: the tabular parser yields one observation for every row that
    has a nonempty observation type and a nonempty value, in row order,
    and none for any other row; each is owned by its row's patient
    identifier, typed by the row's type and valued by the row's value,
    whether or not the row's patient was already registered. *)
Theorem X11_one_observation_per_carrying_row clock (records : list CsvParser.CSVRow) :
  Forall2
    (fun o row =>
       observationPatientId o = CsvParser.patient_id row /\
       CsvParser.observation_type row = Some (observationType o) /\
       exists raw, CsvParser.observation_value row = Some raw /\
                   observationValue o = coerceValue raw)
    (observations (CsvParser.parseRecords clock records))
    (filter carriesObservation records).
Proof.
  rewrite parseRecords_observations. generalize 0.
  induction records as [|row records IH]; intros i; simpl; [constructor|].
  unfold rowEmits at 1, CsvParser.observationOfRow.
  destruct (JS.truthy (CsvParser.observation_type row)) as [t|] eqn:Ht.
  - destruct (JS.truthy (CsvParser.observation_value row)) as [v|] eqn:Hv.
    + rewrite filter_cons_True by (unfold carriesObservation; rewrite Ht, Hv; eauto).
      simpl. constructor; [|apply IH]. cbn.
      split; [done|]. split.
      * by destruct (CsvParser.observation_type row) as [[|]|]; simplify_eq/=.
      * exists v. split; [|done].
        by destruct (CsvParser.observation_value row) as [[|]|]; simplify_eq/=.
    + rewrite filter_cons_False; [apply IH|].
      unfold carriesObservation. rewrite Hv. by intros [_ [? ?]].
  - rewrite filter_cons_False; [apply IH|].
    unfold carriesObservation. rewrite Ht. by intros [[? ?] _].
Qed.

(** ** Segmented input *)

Lemma pushObservations_omap (obxSegments : list HL7Segment) (patientId mshTimestamp : string)
    (acc : list ObservationData) :
  pushObservations obxSegments patientId mshTimestamp acc =
  acc ++ omap (fun obx => extractObservationFromOBX obx patientId mshTimestamp) obxSegments.
Proof.
  unfold pushObservations. revert acc.
  induction obxSegments as [|obx obxSegments IH]; intros acc; simpl.
  - by rewrite app_nil_r.
  - rewrite IH. cbn [omap list_omap]. simpl. by rewrite <- app_assoc.
Qed.

Lemma messageBody_emits d msg st :
  parsedObservations (messageBody d msg st) = parsedObservations st ++ messageEmits d msg.
Proof.
  unfold messageBody, messageEmits, messageOffer, pidOf.
  destruct (findSegment "PID" (parseHL7Message msg)) as [pid|]; [|by rewrite app_nil_r].
  destruct (extractPatientFromPID d pid) as [patient|]; [|by rewrite app_nil_r].
  cbn [parsedObservations]. by rewrite pushObservations_omap.
Qed.

Lemma messageEmits_owned d msg o :
  o ∈ messageEmits d msg ->
  exists p, messageOffer d msg = Some p /\ observationPatientId o = patientId p.
Proof.
  unfold messageEmits. destruct (messageOffer d msg) as [p|]; [|by intros ?%elem_of_nil].
  intros (obx & _ & Hobx)%list_elem_of_omap. exists p. split; [done|].
  unfold extractObservationFromOBX in Hobx. by injection Hobx as <-.
Qed.

Lemma messageEmits_length d msg : length (messageEmits d msg) = resultCount msg.
Proof.
  unfold messageEmits, resultCount, messageOffer.
  destruct (pidOf msg) as [pid|]; [|done].
  destruct (extractPatientFromPID_total d pid) as [p ->].
  induction (obxSegmentsOf msg) as [|obx l IH]; [done|].
  cbn [omap list_omap]. simpl. by rewrite IH.
Qed.

Lemma parseHL7v2_observations clock (content : string) :
  observations (parseHL7v2 clock content) =
  emitted clock messageEmits 0 (splitMessages content).
Proof.
  unfold parseHL7v2, parseMessages, finish. cbn [observations].
  by rewrite (for_of_observations clock _ messageEmits messageBody_emits).
Qed.

(** X12: the segmented parser never skips a result segment: every OBX
    segment of a message that has a PID segment yields exactly one
    observation, and the other messages yield none. *)
Theorem X12_one_observation_per_result_segment clock (content : string) :
  length (observations (parseHL7v2 clock content)) =
  sum_list (map resultCount (splitMessages content)).
Proof.
  rewrite parseHL7v2_observations. generalize 0.
  induction (splitMessages content) as [|msg msgs IH]; intros i; simpl; [done|].
  by rewrite length_app, messageEmits_length, IH.
Qed.

Lemma bundle_entry_count uuidv4 (data : ParsedData) :
  length (FhirMapper.entry (FhirMapper.createFHIRBundle uuidv4 data)) =
  length (patients data) + length (retained data).
Proof.
  rewrite createFHIRBundle_entries, length_app.
  unfold patientEntries, observationEntries. by rewrite !length_imap.
Qed.

Lemma parseRecords_complete clock records uuidv4 :
  retained (CsvParser.parseRecords clock records) =
    observations (CsvParser.parseRecords clock records) /\
  length (FhirMapper.entry
            (FhirMapper.createFHIRBundle uuidv4 (CsvParser.parseRecords clock records))) =
    length (patients (CsvParser.parseRecords clock records)) +
    length (observations (CsvParser.parseRecords clock records)).
Proof.
  assert (Hall : retained (CsvParser.parseRecords clock records) =
                 observations (CsvParser.parseRecords clock records)).
  { apply filter_all.
    apply (parsed_observations_owned clock _ rowOffer rowEmits
             rowBody_registers rowBody_emits rowEmits_owned). }
  split; [done|]. rewrite <- Hall. apply bundle_entry_count.
Qed.

Lemma parseHL7v2_complete clock content uuidv4 :
  retained (parseHL7v2 clock content) = observations (parseHL7v2 clock content) /\
  length (FhirMapper.entry (FhirMapper.createFHIRBundle uuidv4 (parseHL7v2 clock content))) =
    length (patients (parseHL7v2 clock content)) +
    length (observations (parseHL7v2 clock content)).
Proof.
  assert (Hall : retained (parseHL7v2 clock content) = observations (parseHL7v2 clock content)).
  { apply filter_all.
    apply (parsed_observations_owned clock _ messageOffer messageEmits
             messageBody_registers messageBody_emits messageEmits_owned). }
  split; [done|]. rewrite <- Hall. apply bundle_entry_count.
Qed.

(** X13: what either parser returns is complete for the bundle
    builder: the owner of every observation is among the patients, so
    the builder drops none of them and the bundle has one entry per
    patient and one per observation.  For segmented input this is said
    of content whose result segments carry no terminology code that
    names a property inherited from [Object.prototype]; with such a code
    the source's type tag is not a string and the builder throws. *)
Theorem X13_parsed_observations_all_retained :
  (forall clock records uuidv4,
     let out := CsvParser.parseRecords clock records in
     retained out = observations out /\
     length (FhirMapper.entry (FhirMapper.createFHIRBundle uuidv4 out)) =
       length (patients out) + length (observations out)) /\
  (forall clock content uuidv4,
     ownCodesOnly content = true ->
     let out := parseHL7v2 clock content in
     retained out = observations out /\
     length (FhirMapper.entry (FhirMapper.createFHIRBundle uuidv4 out)) =
       length (patients out) + length (observations out)).
Proof.
  split.
  - intros clock records uuidv4 out. apply parseRecords_complete.
  - intros clock content uuidv4 _ out. apply parseHL7v2_complete.
Qed.

Lemma X13_parsed_observations_all_retained_witness :
  ownCodesOnly sameTwice = true /\
  length (FhirMapper.entry
            (FhirMapper.createFHIRBundle (fun k => N.of_nat k) (parseHL7v2 tick sameTwice))) = 3.
Proof.
  assert (Hown : ownCodesOnly sameTwice = true) by (vm_compute; reflexivity).
  split; [exact Hown|].
  destruct X13_parsed_observations_all_retained as [_ Hsegmented].
  destruct (Hsegmented tick sameTwice (fun k => N.of_nat k) Hown) as [_ Hlen].
  rewrite Hlen. vm_compute. reflexivity.
Defined.

End Observations.

(* ================================================================== *)
(** * A skipped message and the messages beside it (hl7v2-parser.ts) *)
(* ================================================================== *)

Section BesideSkipped.

Import Hl7v2Parser.

Lemma emitted_lookup {A} clock (emits : JS.Date -> A -> list ObservationData)
    (i j : nat) (items : list A) (x : A) (o : ObservationData) :
  items !! j = Some x -> o ∈ emits (clock (i + j)) x -> o ∈ emitted clock emits i items.
Proof.
  revert i j. induction items as [|y items IH]; intros i j; [done|].
  destruct j as [|j]; simpl.
  - intros [= ->]. rewrite Nat.add_0_r. intros Ho. apply elem_of_app. by left.
  - intros Hx Ho. apply elem_of_app. right. apply (IH (S i) j Hx).
    by rewrite Nat.add_succ_r in Ho.
Qed.

(** The patient that a message offers is registered under its
    identifier, and is itself in the output when no earlier message
    offers that identifier. *)
Lemma offered_patient_registered clock (content : string) (j : nat) (m : string)
    (p : PatientData) :
  splitMessages content !! j = Some m ->
  messageOffer (clock j) m = Some p ->
  patientId p ∈ map patientId (patients (parseHL7v2 clock content)) /\
  ((forall k m' q, k < j -> splitMessages content !! k = Some m' ->
      messageOffer (clock k) m' = Some q -> patientId q <> patientId p) ->
   p ∈ patients (parseHL7v2 clock content)).
Proof.
  intros Hm Hp. unfold parseHL7v2, parseMessages.
  rewrite (for_of_patients clock _ messageOffer messageBody_registers).
  set (msgs := splitMessages content) in *.
  assert (Hoffer : offers clock messageOffer 0 msgs !! j = Some (Some p)).
  { by rewrite message_offers_lookup, Hm; simpl; rewrite Hp. }
  assert (Hin : patientId p ∈ map patientId (firstSeen [] (offers clock messageOffer 0 msgs))).
  { apply firstSeen_ids. split; [by intros ?%elem_of_nil|].
    exists p. split; [by eapply list_elem_of_lookup_2 | done]. }
  split; [done|]. intros Hfirst.
  apply list_elem_of_fmap in Hin as (q & Hqid & Hq).
  destruct (firstSeen_first _ _ _ Hq) as (k & Hk & Hk_first).
  destruct (Nat.lt_total k j) as [Hlt|[->|Hgt]].
  - exfalso. rewrite message_offers_lookup in Hk.
    destruct (msgs !! k) as [m'|] eqn:Hm'; [|done]. injection Hk as Hk.
    by apply (Hfirst k m' q Hlt).
  - rewrite Hoffer in Hk. by injection Hk as <-.
  - exfalso. by apply (Hk_first j p Hgt Hoffer).
Qed.

(** Every result segment of a message that offers a patient leaves its
    observation in the output. *)
Lemma offered_observations_parsed clock (content : string) (j : nat) (m : string)
    (p : PatientData) (obx : HL7Segment) :
  splitMessages content !! j = Some m ->
  messageOffer (clock j) m = Some p ->
  obx ∈ obxSegmentsOf m ->
  exists o,
    extractObservationFromOBX obx (patientId p) (mshTimestampOf (clock j) m) = Some o /\
    o ∈ observations (parseHL7v2 clock content).
Proof.
  intros Hm Hp Hobx. eexists. split; [reflexivity|].
  rewrite parseHL7v2_observations. apply (emitted_lookup clock messageEmits 0 j _ m); [done|].
  simpl. unfold messageEmits. rewrite Hp.
  apply list_elem_of_omap. exists obx. split; [done | reflexivity].
Qed.

(** C9: a message of a segmented input that has no PID segment
    contributes nothing and raises nothing: the parse is total, and its
    result is the result for the other messages alone, each read at the
    clock reading it had.  Every message that has a PID segment is
    still served: its patient is extracted, the output holds a patient
    under that patient's identifier, which is this very patient when no
    earlier message gave the same identifier, and every OBX segment of
    the message leaves its observation, owned by that patient, in the
    output. *)
Theorem C9_message_without_pid_skipped
    clock (content : string) (before after : list string) (msg : string) :
  splitMessages content = before ++ msg :: after ->
  pidOf msg = None ->
  parseHL7v2 clock content =
    parseMessages (skipReading clock (length before)) (before ++ after) /\
  forall j m pid,
    splitMessages content !! j = Some m ->
    pidOf m = Some pid ->
    exists p, extractPatientFromPID (clock j) pid = Some p /\
      patientId p ∈ map patientId (patients (parseHL7v2 clock content)) /\
      ((forall k m' q, k < j -> splitMessages content !! k = Some m' ->
          messageOffer (clock k) m' = Some q -> patientId q <> patientId p) ->
       p ∈ patients (parseHL7v2 clock content)) /\
      forall obx, obx ∈ obxSegmentsOf m ->
        exists o,
          extractObservationFromOBX obx (patientId p) (mshTimestampOf (clock j) m) = Some o /\
          observationPatientId o = patientId p /\
          o ∈ observations (parseHL7v2 clock content).
Proof.
  intros Hsplit Hpid. split.
  - unfold parseHL7v2. rewrite Hsplit. by apply parseMessages_skip.
  - intros j m pid Hm Hm_pid.
    destruct (extractPatientFromPID_total (clock j) pid) as [p Hp].
    assert (Hoffer : messageOffer (clock j) m = Some p).
    { unfold messageOffer. by rewrite Hm_pid. }
    exists p. split; [done|].
    destruct (offered_patient_registered clock content j m p Hm Hoffer) as [Hid Hfirst].
    split; [done|]. split; [done|]. intros obx Hobx.
    destruct (offered_observations_parsed clock content j m p obx Hm Hoffer Hobx)
      as (o & Ho & Hin).
    exists o. split; [done|]. split; [|done].
    unfold extractObservationFromOBX in Ho. by injection Ho as <-.
Qed.

Lemma C9_message_without_pid_skipped_witness :
  parseHL7v2 tick ackSecond =
    parseMessages (skipReading tick 1)
      ["MSH|^~\&|App|Fac|App|Fac|20240115||ORU|1|P|2.5
PID|1||P001||Doe^John||19900115|M
OBX|1|NM|8867-4^HR^LN||72|bpm|||||F"] /\
  "P001" ∈ map patientId (patients (parseHL7v2 tick ackSecond)) /\
  length (observations (parseHL7v2 tick ackSecond)) = 1.
Proof.
  destruct (C9_message_without_pid_skipped tick ackSecond
           ["MSH|^~\&|App|Fac|App|Fac|20240115||ORU|1|P|2.5
PID|1||P001||Doe^John||19900115|M
OBX|1|NM|8867-4^HR^LN||72|bpm|||||F"] []
           "MSH|^~\&|App|Fac|App|Fac|20240115||ACK|1|P|2.5
MSA|AA|MSG001
OBX|1|NM|8867-4^HR^LN||99|bpm|||||F") as [Heq Hothers].
  - vm_compute. reflexivity.
  - vm_compute. reflexivity.
  - split; [exact Heq|]. split; [|vm_compute; reflexivity].
    edestruct (Hothers 0) as (p & Hp & Hin & _).
    + vm_compute. reflexivity.
    + vm_compute. reflexivity.
    + vm_compute in Hp. injection Hp as <-. exact Hin.
Defined.

End BesideSkipped.

(* ================================================================== *)
(** * Classification of a storage path (gcs-client.ts) *)
(* ================================================================== *)

Section Paths.

Import GcsClient.

Lemma endsWith_spec (s suffix : string) :
  endsWith s suffix = true <-> exists front, s = front +:+ suffix.
Proof.
  induction s as [|c s IH]; cbn [endsWith].
  - rewrite orb_false_r. destruct (String.eqb_spec "" suffix) as [<-|Hne].
    + split; [by exists "" | done].
    + split; [done|]. intros [front H]. by destruct front, suffix.
  - rewrite orb_true_iff, IH. destruct (String.eqb_spec (String c s) suffix) as [<-|Hne].
    + split; [by exists "" | by left].
    + split.
      * intros [?|[front ->]]; [done | by exists (String c front)].
      * intros [[|c' front] H]; [done|]. right. exists front.
        rewrite append_cons in H. congruence.
Qed.

Lemma startsWith_spec (s p : string) :
  JS.startsWith s p = true <-> exists rest, s = p +:+ rest.
Proof. apply prefix_spec. Qed.

Ltac prefix_cases :=
  repeat match goal with
         | H : JS.startsWith _ _ = true |- _ => apply startsWith_spec in H as [? ->]
         | H : exists _, _ = _ +:+ _ |- _ => destruct H as [? ->]
         end.

(** X14: the file type is decided by the path's prefix alone, in the
    letter case of the three prefixes, and the prefixes exclude each
    other; a path is processed exactly when it has one of them and does
    not end in ".gitkeep", and a path under "processed/" never
    has. *)
Theorem X14_path_classification (fileName : string) :
  (getFileType fileName = csv <-> exists rest, fileName = "csv-ehr/" +:+ rest) /\
  (getFileType fileName = hl7v2 <-> exists rest, fileName = "hl7v2/" +:+ rest) /\
  (getFileType fileName = synthea <-> exists rest, fileName = "synthea/" +:+ rest) /\
  (shouldProcess fileName = true <->
   ~ (exists front, fileName = front +:+ ".gitkeep") /\ getFileType fileName <> unknown) /\
  ((exists rest, fileName = "processed/" +:+ rest) -> shouldProcess fileName = false).
Proof.
  assert (Hcsv : getFileType fileName = csv <-> exists rest, fileName = "csv-ehr/" +:+ rest).
  { rewrite <- startsWith_spec. unfold getFileType.
    destruct (JS.startsWith fileName "csv-ehr/"); [done|].
    by destruct (JS.startsWith fileName "hl7v2/"), (JS.startsWith fileName "synthea/"). }
  assert (Hhl7 : getFileType fileName = hl7v2 <-> exists rest, fileName = "hl7v2/" +:+ rest).
  { split.
    - unfold getFileType. destruct (JS.startsWith fileName "csv-ehr/"); [done|].
      destruct (JS.startsWith fileName "hl7v2/") eqn:E; [by apply startsWith_spec in E|].
      by destruct (JS.startsWith fileName "synthea/").
    - intros [rest ->]. by destruct rest. }
  assert (Hsyn : getFileType fileName = synthea <-> exists rest, fileName = "synthea/" +:+ rest).
  { split.
    - unfold getFileType. destruct (JS.startsWith fileName "csv-ehr/"); [done|].
      destruct (JS.startsWith fileName "hl7v2/"); [done|].
      destruct (JS.startsWith fileName "synthea/") eqn:E; [by apply startsWith_spec in E | done].
    - intros [rest ->]. by destruct rest. }
  split; [done|]. split; [done|]. split; [done|]. split.
  - rewrite <- endsWith_spec. unfold shouldProcess.
    destruct (endsWith fileName ".gitkeep"); [by split; [|intros [[] _]]|].
    destruct (JS.startsWith fileName "processed/") eqn:Hp.
    + apply startsWith_spec in Hp as [rest ->]. by split; [|intros [_ []]].
    + destruct (getFileType fileName); split; try done; by intros [_ []].
  - intros [rest ->]. unfold shouldProcess.
    destruct (endsWith _ _); [done|]. by destruct rest.
Qed.

Lemma X14_path_classification_witness : shouldProcess "processed/csv-ehr/patients.csv" = false.
Proof.
  apply (X14_path_classification "processed/csv-ehr/patients.csv").
  by exists "csv-ehr/patients.csv".
Defined.

End Paths.

(* ================================================================== *)
(** * The handler of a file-landed event (index.ts) *)
(* ================================================================== *)

Section Events.

Import Handler.

Variable decodePayload : string -> option GcsRef.

(** X15: when the handler goes on to download a file, the file is one
    that [shouldProcess] accepts and its type is that of its path, which
    is never [unknown]: the handler's reply for an unknown file type
    cannot be reached. *)
Theorem X15_unknown_type_unreachable (body : Body) b (fileName : string) fileType :
  plan decodePayload body = Download b fileName fileType ->
  GcsClient.shouldProcess fileName = true /\
  fileType = GcsClient.getFileType fileName /\
  branch fileType <> Respond400UnknownFileType.
Proof.
  unfold plan. destruct (decodeEvent decodePayload body) as [b' [f|]| |]; try done.
  destruct (GcsClient.shouldProcess f) eqn:Hsp; [|done]. simpl.
  intros [= <- <- <-]. split; [done|]. split; [done|].
  unfold GcsClient.shouldProcess in Hsp.
  destruct (GcsClient.endsWith f ".gitkeep"); [done|].
  destruct (JS.startsWith f "processed/"); [done|].
  by destruct (GcsClient.getFileType f).
Qed.

(** X16: a complete flat pair decides the event whatever else the
    body holds, then a complete nested pair; the reply for an unknown
    event format is given exactly when neither pair is complete and
    there is no message payload; and a payload that cannot be decoded,
    or that names no file, ends in the failure reply. *)
Theorem X16_event_layouts (body : Body) :
  (forall b n, flatPair body = Some (b, n) ->
     decodeEvent decodePayload body = EventFile (Some b) (Some n)) /\
  (forall b n, flatPair body = None -> nestedPair body = Some (b, n) ->
     decodeEvent decodePayload body = EventFile (Some b) (Some n)) /\
  (plan decodePayload body = Respond400UnknownEvent <->
   flatPair body = None /\ nestedPair body = None /\ JS.truthy (message_data body) = None) /\
  (forall payload,
     flatPair body = None -> nestedPair body = None ->
     JS.truthy (message_data body) = Some payload ->
     decodePayload payload = None \/
     (exists decoded, decodePayload payload = Some decoded /\ name decoded = None) ->
     plan decodePayload body = Respond500).
Proof.
  unfold plan, decodeEvent, flatPair, nestedPair.
  destruct (JS.truthy (body_bucket body)) as [fb|], (JS.truthy (body_name body)) as [fn|];
    (split; [intros b n; try done; by intros [= <- <-]|]);
    try (split; [done|]; split;
         [ destruct (GcsClient.shouldProcess fn); simpl; split; try done; by intros [? _]
         | done ]).
  all: split.
  all: try (intros b n _; destruct (data body) as [d|]; [|done];
            destruct (JS.truthy (bucket d)), (JS.truthy (name d)); try done;
            by intros [= <- <-]).
  all: destruct (data body) as [d|];
    [destruct (JS.truthy (bucket d)) as [nb|], (JS.truthy (name d)) as [nn|]|].
  all: split.
  all: try (destruct (GcsClient.shouldProcess nn); simpl; split; try done; by intros (_ & ? & _)).
  all: try done.
  all: try (destruct (JS.truthy (message_data body)) as [payload|]; [|done];
            destruct (decodePayload payload) as [[db [dn|]]|]; simpl;
            try (destruct (GcsClient.shouldProcess dn)); simpl;
            split; try done; by intros (_ & _ & ?)).
  all: intros payload _ _ -> [Hd|(decoded & Hd & Hname)]; rewrite Hd; [done|].
  all: destruct decoded as [db dn]; simpl in Hname; by subst.
Qed.

End Events.

Lemma X15_unknown_type_unreachable_witness :
  GcsClient.shouldProcess "hl7v2/batch_001/data.hl7" = true /\
  GcsClient.hl7v2 = GcsClient.getFileType "hl7v2/batch_001/data.hl7" /\
  Handler.branch GcsClient.hl7v2 <> Handler.Respond400UnknownFileType.
Proof.
  apply (X15_unknown_type_unreachable noPayload nestedEvent (Some "landing")).
  vm_compute. reflexivity.
Defined.

Lemma X16_event_layouts_witness :
  Handler.decodeEvent noPayload nestedEvent =
  Handler.EventFile (Some "landing") (Some "hl7v2/batch_001/data.hl7").
Proof.
  destruct (X16_event_layouts noPayload nestedEvent) as (_ & Hnested & _).
  apply Hnested; reflexivity.
Defined.

(* ================================================================== *)
(** * The report of a processed file (index.ts) *)
(* ================================================================== *)

Section Report.

Import Handler.

Lemma counts_add_up (result : Dispatcher.FHIRBundleResponse) :
  Dispatcher.successCount result + Dispatcher.errorCount result = length (replies result).
Proof.
  unfold Dispatcher.errorCount, Dispatcher.successCount, replies.
  destruct (Dispatcher.entry result) as [es|]; simpl; [|done].
  rewrite length_filter_count.
  pose proof (countReplies_split Dispatcher.succeeded es). lia.
Qed.

Variable parse : string -> option (list CsvParser.CSVRow).
Variable clock : nat -> JS.Date.
Variable uuidv4 : nat -> N.
Variable executeBundle : FhirMapper.FHIRBundle -> option Dispatcher.FHIRBundleResponse.

(** X17: a success report is given for tabular and segmented files
    only; it names the file, its entry count is the number of parsed
    patients plus the number of parsed observations (nothing a parser
    returns is dropped), and when the store answers every bundle with one
    reply per entry, the success and failure counts add up to the entry
    count. *)
Theorem X17_report_counts (fileType : GcsClient.FileType) (fileName content : string)
    (r : ResponseData) :
  transformAndSubmit parse clock uuidv4 executeBundle fileType fileName content = Respond200 r ->
  (fileType = GcsClient.csv \/ fileType = GcsClient.hl7v2) /\
  file r = fileName /\
  patientsCreated r + observationsCreated r = bundleEntriesProcessed r /\
  ((forall bundle result, executeBundle bundle = Some result ->
      length (replies result) = length (FhirMapper.entry bundle)) ->
   successCount r + errorCount r = bundleEntriesProcessed r).
Proof.
  unfold transformAndSubmit. destruct fileType; try done.
  - unfold CsvParser.parseCSV. destruct (parse content) as [records|]; [|done].
    destruct (executeBundle _) as [result|] eqn:Hexec; [|done].
    intros [= <-].
    cbn [file patientsCreated observationsCreated bundleEntriesProcessed successCount errorCount].
    split; [by left|]. split; [done|].
    destruct (parseRecords_complete clock records uuidv4) as [_ Hlen].
    split; [symmetry; exact Hlen|].
    intros Hstore. rewrite counts_add_up. exact (Hstore _ _ Hexec).
  - destruct (executeBundle _) as [result|] eqn:Hexec; [|done].
    intros [= <-].
    cbn [file patientsCreated observationsCreated bundleEntriesProcessed successCount errorCount].
    split; [by right|]. split; [done|].
    destruct (parseHL7v2_complete clock content uuidv4) as [_ Hlen].
    split; [symmetry; exact Hlen|].
    intros Hstore. rewrite counts_add_up. exact (Hstore _ _ Hexec).
Qed.

End Report.

Lemma X17_report_counts_witness :
  exists r,
    Handler.transformAndSubmit (fun _ => None) tick ascending allCreated
      GcsClient.hl7v2 "hl7v2/same.hl7" sameTwice = Handler.Respond200 r /\
    Handler.patientsCreated r + Handler.observationsCreated r = Handler.bundleEntriesProcessed r /\
    Handler.successCount r + Handler.errorCount r = Handler.bundleEntriesProcessed r.
Proof.
  eexists. split; [vm_compute; reflexivity|].
  edestruct (X17_report_counts (fun _ => None) tick ascending allCreated
               GcsClient.hl7v2 "hl7v2/same.hl7" sameTwice) as (_ & _ & Hsum & Hstore).
  - vm_compute. reflexivity.
  - split; [exact Hsum|]. apply Hstore.
    intros bundle result [= <-]. unfold replies. simpl. by rewrite length_map.
Defined.

(* ================================================================== *)
(** * The API key gate (api/middleware/auth.ts) *)
(* ================================================================== *)

Section ApiKey.

Import Auth.

Lemma API_KEY_nonempty (env : option string) : API_KEY env <> "".
Proof. unfold API_KEY, JS.or_else. by destruct env as [[|]|]. Qed.

(** X18: a request is passed on exactly when the key it provides is
    the configured key, where the header's key, if nonempty, is the one
    that counts and the query's only otherwise; it is answered 401
    exactly when neither is nonempty.  The configured key is never
    empty, so an unset or empty setting falls back to the built-in key
    and does not open the gate. *)
Theorem X18_api_key_gate (env header query : option string) :
  (apiKeyAuth env header query = Next <->
   JS.truthy header = Some (API_KEY env) \/
   (JS.truthy header = None /\ JS.truthy query = Some (API_KEY env))) /\
  (apiKeyAuth env header query = Unauthorized401 <->
   JS.truthy header = None /\ JS.truthy query = None) /\
  (forall h, JS.truthy header = Some h -> h <> API_KEY env ->
             apiKeyAuth env header query = Forbidden403) /\
  API_KEY env <> "" /\
  (JS.truthy env = None -> API_KEY env = "DEMO_API_KEY_CHANGE_IN_PRODUCTION").
Proof.
  pose proof (API_KEY_nonempty env) as Hkey.
  unfold apiKeyAuth.
  split; [|split; [|split; [|split]]].
  - destruct (JS.truthy header) as [h|] eqn:Hh.
    + rewrite (truthy_nonempty h) by (by destruct header as [[|]|]; simplify_eq/=).
      destruct (String.eqb_spec h (API_KEY env)) as [->|Hne]; split; try done.
      * by left.
      * intros [[= ?]|[? _]]; done.
    + destruct (JS.truthy query) as [q|].
      * destruct (String.eqb_spec q (API_KEY env)) as [->|Hne]; split; try done.
        -- by right.
        -- intros [?|[_ [= ?]]]; done.
      * split; [done|]. intros [?|[_ ?]]; done.
  - destruct (JS.truthy header) as [h|] eqn:Hh.
    + rewrite (truthy_nonempty h) by (by destruct header as [[|]|]; simplify_eq/=).
      destruct (String.eqb h (API_KEY env)); split; try done; by intros [? _].
    + destruct (JS.truthy query) as [q|]; [|done].
      destruct (String.eqb q (API_KEY env)); split; try done; by intros [_ ?].
  - intros h Hh Hne. rewrite Hh.
    rewrite (truthy_nonempty h) by (by destruct header as [[|]|]; simplify_eq/=).
    by destruct (String.eqb_spec h (API_KEY env)).
  - done.
  - unfold API_KEY, JS.or_else. by intros ->.
Qed.

Lemma X18_api_key_gate_witness :
  apiKeyAuth (Some "s3cret") (Some "wrong") (Some "s3cret") = Forbidden403 /\
  apiKeyAuth (Some "") None (Some "DEMO_API_KEY_CHANGE_IN_PRODUCTION") = Next.
Proof.
  split.
  - destruct (X18_api_key_gate (Some "s3cret") (Some "wrong") (Some "s3cret"))
      as (_ & _ & H & _).
    apply (H "wrong"); [reflexivity | discriminate].
  - destruct (X18_api_key_gate (Some "") None (Some "DEMO_API_KEY_CHANGE_IN_PRODUCTION"))
      as (H & _).
    apply H. right. split; reflexivity.
Defined.

End ApiKey.

(* ================================================================== *)
(** * Blank lines and the order of patients (both parsers) *)
(* ================================================================== *)

Section Order.

Import Hl7v2Parser.

Lemma splitStep_blank acc line :
  nonblank line = false -> splitStep acc line = acc.
Proof.
  intros Hb. destruct acc as [messages current]. unfold splitStep.
  change (JS.startsWith line "MSH|") with (headerLine line).
  change (JS.nonempty (JS.trim line)) with (nonblank line).
  destruct (headerLine line) eqn:Hh.
  - apply headerLine_nonblank in Hh. congruence.
  - by rewrite Hb.
Qed.

Lemma splitLoop_nonblank (ls : list string) acc :
  fold_left splitStep ls acc =
  fold_left splitStep (filter (fun l => nonblank l = true) ls) acc.
Proof.
  revert acc. induction ls as [|l ls IH]; intros acc; [done|].
  destruct (nonblank l) eqn:Hl.
  - rewrite filter_cons_True by done. cbn [fold_left]. apply IH.
  - rewrite filter_cons_False by (by rewrite Hl). cbn [fold_left].
    rewrite splitStep_blank by done. apply IH.
Qed.

(** X19: blank lines, and lines of white space only, do not matter to
    the segmented parser: two inputs with the same nonblank lines are
    cut into the same messages and parse to the same result. *)
Theorem X19_blank_lines_ignored clock (content content' : string) :
  filter (fun l => nonblank l = true) (linesOf content) =
  filter (fun l => nonblank l = true) (linesOf content') ->
  splitMessages content = splitMessages content' /\
  parseHL7v2 clock content = parseHL7v2 clock content'.
Proof.
  intros Hsame.
  assert (Hsplit : splitMessages content = splitMessages content').
  { unfold splitMessages. fold (linesOf content). fold (linesOf content').
    by rewrite (splitLoop_nonblank (linesOf content)),
         (splitLoop_nonblank (linesOf content')), Hsame. }
  split; [done|]. unfold parseHL7v2. by rewrite Hsplit.
Qed.

Lemma X19_blank_lines_ignored_witness :
  splitMessages "
MSH|^~\&|App|Fac
   
PID|1||P001
" = splitMessages "MSH|^~\&|App|Fac
PID|1||P001".
Proof.
  apply (X19_blank_lines_ignored tick). vm_compute. reflexivity.
Defined.

Lemma filter_fresh_snoc (seen : list string) (id0 : string) (l : list string) :
  filter (fun x => x ∉ seen ++ [id0]) l =
  filter (fun x => x ∉ seen) (filter (fun x => x <> id0) l).
Proof.
  rewrite list_filter_filter. apply list_filter_iff. intros x.
  rewrite not_elem_of_app, not_elem_of_cons. split.
  - intros [? [? _]]. done.
  - intros [? ?]. split; [done|]. split; [done | apply not_elem_of_nil].
Qed.

Lemma filter_fresh_seen (seen : list string) (id0 : string) (l : list string) :
  id0 ∈ seen ->
  filter (fun x => x ∉ seen) (filter (fun x => x <> id0) l) = filter (fun x => x ∉ seen) l.
Proof.
  intros Hin. rewrite list_filter_filter. apply list_filter_iff. intros x. split.
  - by intros [? _].
  - intros Hx. split; [done|]. by intros ->.
Qed.

Lemma firstSeen_keepFirst (seen : list string) (cs : list (option PatientData)) :
  map patientId (firstSeen seen cs) = filter (fun x => x ∉ seen) (keepFirst (offeredIds cs)).
Proof.
  unfold offeredIds. revert seen. induction cs as [|[p|] cs IH]; intros seen; [done| |].
  - cbn [firstSeen omap list_omap]. simpl.
    destruct (decide (patientId p ∈ seen)) as [Hin|Hout].
    + rewrite filter_cons_False by (by intros ?).
      rewrite filter_fresh_seen by done. apply IH.
    + rewrite filter_cons_True by done. simpl. f_equal.
      rewrite <- filter_fresh_snoc. apply IH.
  - cbn [firstSeen omap list_omap]. simpl. apply IH.
Qed.

Lemma filter_not_in_nil (l : list string) : filter (fun x => x ∉ []) l = l.
Proof. apply filter_all, Forall_forall. intros x _. apply not_elem_of_nil. Qed.

Lemma row_offeredIds clock (records : list CsvParser.CSVRow) (i : nat) :
  offeredIds (offers clock rowOffer i records) = map CsvParser.patient_id records.
Proof.
  revert i. induction records as [|row records IH]; intros i; [done|].
  rewrite offers_cons. unfold offeredIds in *. cbn [omap list_omap]. simpl.
  f_equal. apply IH.
Qed.

(** X20: the patients of a parse come in the order in which their
    identifiers first occur: for tabular input the identifiers of the
    output are those of the rows, each kept at its first occurrence; for
    segmented input they are those of the patients extracted from the
    messages, likewise. *)
Theorem X20_patients_in_first_seen_order :
  (forall clock records,
     map patientId (patients (CsvParser.parseRecords clock records)) =
     keepFirst (map CsvParser.patient_id records)) /\
  (forall clock content,
     map patientId (patients (parseHL7v2 clock content)) =
     keepFirst (offeredIds (offers clock messageOffer 0 (splitMessages content)))).
Proof.
  split.
  - intros clock records. unfold CsvParser.parseRecords.
    rewrite (for_of_patients clock _ rowOffer rowBody_registers).
    by rewrite firstSeen_keepFirst, filter_not_in_nil, row_offeredIds.
  - intros clock content. unfold parseHL7v2, parseMessages.
    rewrite (for_of_patients clock _ messageOffer messageBody_registers).
    by rewrite firstSeen_keepFirst, filter_not_in_nil.
Qed.

Example first_seen_order :
  map patientId (patients (CsvParser.parseRecords tick
    [csvRow "P002" "Jane"; csvRow "P001" "John"; csvRow "P002" "Jim"; csvRow "P003" "Ann"]))
  = ["P002"; "P001"; "P003"].
Proof. vm_compute. reflexivity. Qed.

End Order.
